(** * seller-apis: stock and price reconciliation for Ozon and Yandex Market

    A shallow embedding of [seller.py] and [market.py].

    Python values are embedded as follows.
    - [str] is [string]: the UTF-8 bytes of the text.  The operations
      [==], [split(".")] and [re.sub("[^0-9]", ...)] look only at ASCII
      characters, and an ASCII byte never occurs inside the encoding of a
      non-ASCII character, so working on bytes gives the same answers as
      working on code points.  [int] does look at other characters -- it
      reads the decimal digits of every script and skips the white space
      of Unicode -- and is modelled on the code points of the text.
    - [int] is [Z].
    - An exception is a value of [exn]; a computation that can raise returns
      an [outcome].
    - A list object that is mutated in place lives in a store ([heap]) and is
      passed around by reference ([loc]), so that aliasing is visible.
    - The outside world (the marketplaces, the feed provider, the clock,
      standard output) is an oracle plus a log of what the program did. *)

From Stdlib Require Import ZArith Ascii String DecimalString.
From Stdlib Require DecimalZ.
From stdpp Require Import base tactics option list gmap strings.

Open Scope string_scope.
Open Scope list_scope.

(** ** Python primitives *)

Module Py.

(** The exception classes that the two scripts can meet.  [ReadTimeout] and
    [ConnectionError] are the classes of [requests.exceptions]; [HTTPError]
    is what [raise_for_status] raises. *)
Inductive exn : Type :=
| ValueError
| TypeError
| AttributeError
| IndexError
| HTTPError
| ReadTimeout
| ConnectionError.

(** The result of running a piece of Python: a value, an exception, or
    [OutOfFuel] when the bounded unrolling of a [while True] loop was too
    short to see the loop end. *)
Inductive outcome (A : Type) : Type :=
| Ret (a : A)
| Raise (e : exn)
| OutOfFuel.
Arguments Ret {A} a.
Arguments Raise {A} e.
Arguments OutOfFuel {A}.

Definition obind {A B} (m : outcome A) (f : A -> outcome B) : outcome B :=
  match m with
  | Ret a => f a
  | Raise e => Raise e
  | OutOfFuel => OutOfFuel
  end.

(** The values found in a feed record: text, a whole number, or [None]
    (what [dict.get] gives for an absent key). *)
Inductive pyval : Type :=
| PNone
| PStr (s : string)
| PInt (z : Z).

(** [str(v)] *)
Definition py_str (v : pyval) : string :=
  match v with
  | PNone => "None"
  | PStr s => s
  | PInt z => NilEmpty.string_of_int (Z.to_int z)
  end.

Definition is_digit (c : ascii) : bool :=
  (48 <=? nat_of_ascii c)%nat && (nat_of_ascii c <=? 57)%nat.

Definition digit_value (c : ascii) : Z := Z.of_nat (nat_of_ascii c) - 48.

(** White space as the parser of whole numbers sees it (C's [isspace] in
    the C locale): tab, line feed, vertical tab, form feed, carriage return
    and space.  The separators [0x1c] to [0x1f], which [str.strip] drops,
    are not among them. *)
Definition is_space (c : ascii) : bool :=
  let n := nat_of_ascii c in
  ((9 <=? n)%nat && (n <=? 13)%nat) || (n =? 32)%nat.

Fixpoint lstrip (s : string) : string :=
  match s with
  | String c s' => if is_space c then lstrip s' else s
  | EmptyString => EmptyString
  end.

Fixpoint rstrip (s : string) : string :=
  match s with
  | String c s' =>
      match rstrip s' with
      | EmptyString => if is_space c then EmptyString else String c EmptyString
      | r => String c r
      end
  | EmptyString => EmptyString
  end.

Definition strip (s : string) : string := rstrip (lstrip s).

(** Digits of a decimal literal, most significant first; a single underscore
    is allowed between two digits.  [prev] tells whether the previous
    character was a digit. *)
Fixpoint parse_digits (acc : Z) (prev : bool) (s : string) : option Z :=
  match s with
  | EmptyString => if prev then Some acc else None
  | String c s' =>
      if is_digit c then parse_digits (acc * 10 + digit_value c) true s'
      else if Ascii.eqb c "_"%char && prev then parse_digits acc false s'
      else None
  end.

(** CPython's [PyLong_FromString] in base ten, on ASCII text: surrounding
    white space is dropped, one sign is allowed, the rest must be a decimal
    literal.  (The interpreter's configurable ceiling on the number of
    digits is not modelled.) *)
Definition long_from_string (s : string) : outcome Z :=
  let parsed :=
    match strip s with
    | String "+"%char r => parse_digits 0 false r
    | String "-"%char r => Z.opp <$> parse_digits 0 false r
    | t => parse_digits 0 false t
    end in
  match parsed with
  | Some z => Ret z
  | None => Raise ValueError
  end.

(** The text has ASCII characters only. *)
Fixpoint is_ascii (s : string) : bool :=
  match s with
  | EmptyString => true
  | String c s' => (nat_of_ascii c <? 128)%nat && is_ascii s'
  end.

(** The code points of a text, read from its UTF-8 bytes: [need] bytes of
    the character under way are still to come, [acc] holds the bits read
    so far and [low] is the least code point that may take this many
    bytes.  [None] for bytes that are not the encoding of any text. *)
Fixpoint code_points_from (need : nat) (low acc : N) (s : string)
    : option (list N) :=
  match s with
  | EmptyString => match need with O => Some [] | S _ => None end
  | String c s' =>
      let b := N_of_ascii c in
      match need with
      | O =>
          if (b <? 128)%N then cons b <$> code_points_from 0 0 0 s'
          else if (194 <=? b)%N && (b <? 224)%N
               then code_points_from 1 128 (b - 192) s'
          else if (224 <=? b)%N && (b <? 240)%N
               then code_points_from 2 2048 (b - 224) s'
          else if (240 <=? b)%N && (b <? 245)%N
               then code_points_from 3 65536 (b - 240) s'
          else None
      | S need' =>
          if (128 <=? b)%N && (b <? 192)%N then
            let acc' := (acc * 64 + (b - 128))%N in
            match need' with
            | O =>
                if (low <=? acc')%N
                   && negb ((55296 <=? acc')%N && (acc' <? 57344)%N)
                   && (acc' <? 1114112)%N
                then cons acc' <$> code_points_from 0 0 0 s'
                else None
            | S _ => code_points_from need' low acc' s'
            end
          else None
      end
  end.

Definition code_points (s : string) : option (list N) :=
  code_points_from 0 0 0 s.

(** The white space of Unicode outside ASCII ([Py_UNICODE_ISSPACE]): next
    line, the no-break spaces, and the spaces and separators of the general
    punctuation block. *)
Definition unicode_space (c : N) : bool :=
  ((c =? 133) || (c =? 160) || (c =? 5760)
   || ((8192 <=? c) && (c <=? 8202))
   || (c =? 8232) || (c =? 8233) || (c =? 8239) || (c =? 8287)
   || (c =? 12288))%N.

(** The code points of the digit zero of every script that has decimal
    digits (Unicode 14.0, the version of CPython 3.11); the digits one to
    nine of a script follow its zero. *)
Definition decimal_zeros : list N :=
  [ 48; 1632; 1776; 1984; 2406; 2534; 2662; 2790; 2918; 3046; 3174; 3302;
    3430; 3558; 3664; 3792; 3872; 4160; 4240; 6112; 6160; 6470; 6608; 6784;
    6800; 6992; 7088; 7232; 7248; 42528; 43216; 43264; 43472; 43504; 43600;
    44016; 65296; 66720; 68912; 69734; 69872; 69942; 70096; 70384; 70736;
    70864; 71248; 71360; 71472; 71904; 72016; 72784; 73040; 73120; 92768;
    92864; 93008; 120782; 120792; 120802; 120812; 120822; 123200; 123632;
    125264; 130032 ]%N.

(** The value of a decimal digit of any script ([Py_UNICODE_TODECIMAL]). *)
Definition to_decimal (c : N) : option N :=
  (fun zero => (c - zero)%N)
    <$> List.find (fun zero => (zero <=? c)%N && (c <? zero + 10)%N) decimal_zeros.

(** CPython's [_PyUnicode_TransformDecimalAndSpaceToASCII] on text that is
    not ASCII throughout: an ASCII character stays, a white space becomes a
    space, a decimal digit becomes the ASCII digit of its value, and at any
    other character the text is cut off with a question mark. *)
Fixpoint transform_decimal_and_space (cps : list N) : string :=
  match cps with
  | [] => EmptyString
  | c :: cps' =>
      if (c <? 127)%N then String (ascii_of_N c) (transform_decimal_and_space cps')
      else if unicode_space c then String " "%char (transform_decimal_and_space cps')
      else match to_decimal c with
           | Some d => String (ascii_of_N (48 + d)) (transform_decimal_and_space cps')
           | None => "?"
           end
  end.

(** [int(s)] for text.  ASCII text goes to the parser as it is; other text
    is first brought to ASCII, its digits and white space translated.
    (Bytes that are not UTF-8 stand for no text; the model answers
    [ValueError].) *)
Definition int_of_str (s : string) : outcome Z :=
  if is_ascii s then long_from_string s
  else match code_points s with
       | Some cps => long_from_string (transform_decimal_and_space cps)
       | None => Raise ValueError
       end.

(** [int(v)] *)
Definition py_int (v : pyval) : outcome Z :=
  match v with
  | PNone => Raise TypeError
  | PStr s => int_of_str s
  | PInt z => Ret z
  end.

(** [s.split(sep)] for a separator of one character. *)
Fixpoint split (sep : ascii) (s : string) : list string :=
  match s with
  | EmptyString => [EmptyString]
  | String c s' =>
      if Ascii.eqb c sep then EmptyString :: split sep s'
      else match split sep s' with
           | h :: t => String c h :: t
           | [] => [String c EmptyString]
           end
  end.

(** [xs[i]] for [i >= 0] *)
Definition index {A} (xs : list A) (i : nat) : outcome A :=
  match xs !! i with
  | Some x => Ret x
  | None => Raise IndexError
  end.

(** [re.sub("[^0-9]", "", s)]: every character outside [0-9] is deleted. *)
Fixpoint re_sub_non_digits (s : string) : string :=
  match s with
  | EmptyString => EmptyString
  | String c s' =>
      if is_digit c then String c (re_sub_non_digits s') else re_sub_non_digits s'
  end.

(** [range(start, stop, step)], as a list.  A zero step is a [ValueError];
    the number of elements is the one CPython computes. *)
Definition range (start stop step : Z) : outcome (list Z) :=
  if (step =? 0)%Z then Raise ValueError
  else
    let n :=
      if (0 <? step)%Z then
        if (start <? stop)%Z then ((stop - start - 1) / step + 1)%Z else 0%Z
      else
        if (stop <? start)%Z then ((start - stop - 1) / (- step) + 1)%Z else 0%Z in
    Ret ((fun k => (start + Z.of_nat k * step)%Z) <$> seq 0 (Z.to_nat n)).

(** [xs[i:j]]: a negative bound counts from the end, and both bounds are
    clamped to the list. *)
Definition slice {A} (xs : list A) (i j : Z) : list A :=
  let len := Z.of_nat (length xs) in
  let clamp k := if (k <? 0)%Z then Z.max 0 (k + len) else Z.min k len in
  let lo := clamp i in
  let hi := clamp j in
  take (Z.to_nat (hi - lo)) (drop (Z.to_nat lo) xs).

(** [xs.remove(x)] on the contents of a list: the first occurrence goes;
    [None] when there is none (Python raises [ValueError]). *)
Fixpoint remove_first (x : string) (xs : list string) : option (list string) :=
  match xs with
  | [] => None
  | y :: ys =>
      if String.eqb y x then Some ys
      else cons y <$> remove_first x ys
  end.

(** [x in xs] *)
Definition contains (x : string) (xs : list string) : bool :=
  existsb (fun y => String.eqb y x) xs.

End Py.
Export Py.


(** ** The data that travels *)

(** A feed record: one row of the provider's sheet, as the dictionary that
    [download_stock] builds.  Only three keys are ever read:
    [Kod] is [watch.get("Код")], [Kolichestvo] is [watch.get("Количество")]
    and [Tsena] is [watch.get("Цена")]. *)
Record watch : Type := {
  Kod : pyval;
  Kolichestvo : pyval;
  Tsena : pyval
}.

(** The dictionaries exchanged with Ozon ([seller.py]). *)
Module Ozon.

(** An element of ["items"] in the reply of [/v2/product/list]. *)
Record product : Type := { product_id : Z; offer_id : string }.

(** The ["result"] object of that reply. *)
Record page : Type := { items : list product; total : Z; last_id : string }.

(** [{"offer_id": ..., "stock": ...}]; [stock_offer_id] is the key
    ["offer_id"]. *)
Record stock_entry : Type := { stock_offer_id : string; stock : Z }.

(** The price dictionary of [create_prices]; ["price"] is text. *)
Record price_entry : Type := {
  auto_action_enabled : string;
  currency_code : string;
  price_offer_id : string;
  old_price : string;
  price : string
}.

End Ozon.

(** The dictionaries exchanged with Yandex Market ([market.py]). *)
Module Yandex.

(** An element of ["offerMappingEntries"]; [shopSku] is
    [product.get("offer").get("shopSku")]. *)
Record entry : Type := { shopSku : string }.

(** The ["result"] object of the listing reply; [nextPageToken] is
    [some_prod.get("paging").get("nextPageToken")]. *)
Record page : Type := {
  offerMappingEntries : list entry;
  nextPageToken : option string
}.

Record item : Type := { count : Z; type : string; updatedAt : string }.

(** [{"sku": ..., "warehouseId": ..., "items": [...]}]; [sku_items] is the
    key ["items"]. *)
Record sku_entry : Type := {
  sku : string;
  warehouseId : string;
  sku_items : list item
}.

Record money : Type := { value : Z; currencyId : string }.

(** [{"id": ..., "price": {"value": ..., "currencyId": ...}}]; [offer] is
    the key ["id"] and [offer_price] the key ["price"]. *)
Record price_entry : Type := { offer : string; offer_price : money }.

End Yandex.

(** [datetime.datetime]: a reading of the UTC clock. *)
Record datetime : Type := {
  year : N; month : N; day : N;
  hour : N; minute : N; second : N;
  microsecond : N
}.

(** ** The store, the outside world and the monad of effects *)

Module World.

(** A reference to a list object. *)
Definition loc : Type := nat.

(** What the program sends out.  The account ([Client-Id], campaign) is
    recorded; the secret token travels in a header and is not. *)
Inductive request : Type :=
| OzonProductList (client_id last_id : string)
| OzonImportStocks (client_id : string) (stocks : list Ozon.stock_entry)
| OzonImportPrices (client_id : string) (prices : list Ozon.price_entry)
| MarketOfferMappingEntries (campaign_id page_token : string)
| MarketStocks (campaign_id : string) (skus : list Yandex.sku_entry)
| MarketPriceUpdates (campaign_id : string) (offers : list Yandex.price_entry)
| FeedDownload.

(** What an observer of the process sees, oldest first. *)
Inductive event : Type :=
| Sent (r : request)
| ClockRead
| Printed (error : option exn) (text : string).

(** How the outside answers.  Each answer may depend on the moment it is
    asked for (the number of events so far) and on what is asked.  A reply
    that is not a success is the exception that [raise_for_status] or the
    transport raises.  The body of the reply to an update is read by no
    caller and is not modelled. *)
Record oracle : Type := {
  ozon_product_list : nat -> string -> string -> outcome Ozon.page;
  ozon_import : nat -> outcome unit;
  market_offer_mapping : nat -> string -> string -> outcome Yandex.page;
  market_update : nat -> outcome unit;
  feed : nat -> outcome (list watch);
  clock : nat -> datetime
}.

Record world : Type := {
  heap : gmap loc (list string);
  log : list event;
  outside : oracle
}.

Definition M (A : Type) : Type := world -> outcome A * world.

Definition ret {A} (a : A) : M A := fun w => (Ret a, w).

Definition raise {A} (e : exn) : M A := fun w => (Raise e, w).

Definition out_of_fuel {A} : M A := fun w => (OutOfFuel, w).

Definition bind {A B} (m : M A) (k : A -> M B) : M B :=
  fun w =>
    match m w with
    | (Ret a, w') => k a w'
    | (Raise e, w') => (Raise e, w')
    | (OutOfFuel, w') => (OutOfFuel, w')
    end.

(** A pure computation that may raise. *)
Definition lift {A} (o : outcome A) : M A := fun w => (o, w).

(** [try: body except ...: handler] with a handler for every exception
    class in [exn]. *)
Definition try_except {A} (body : M A) (handler : exn -> M A) : M A :=
  fun w =>
    match body w with
    | (Raise e, w') => handler e w'
    | r => r
    end.

Definition set_heap (h : gmap loc (list string)) (w : world) : world :=
  {| heap := h; log := log w; outside := outside w |}.

Definition emit (e : event) (w : world) : world :=
  {| heap := heap w; log := log w ++ [e]; outside := outside w |}.

(** The contents of a list object.  Every reference a Python program
    holds is live; for a reference that is not in the store the model
    answers with the empty list. *)
Definition contents (l : loc) (w : world) : list string :=
  default [] (heap w !! l).

(** A new list object. *)
Definition new_list (xs : list string) : M loc :=
  fun w =>
    let l := fresh (dom (heap w)) in
    (Ret l, set_heap (<[l := xs]> (heap w)) w).

(** [list(xs)] on iteration: the elements at this moment. *)
Definition list_read (l : loc) : M (list string) :=
  fun w => (Ret (contents l w), w).

(** [x in xs] *)
Definition list_contains (l : loc) (x : string) : M bool :=
  fun w => (Ret (contains x (contents l w)), w).

(** [xs.remove(x)] *)
Definition list_remove (l : loc) (x : string) : M unit :=
  fun w =>
    match remove_first x (contents l w) with
    | Some xs' => (Ret tt, set_heap (<[l := xs']> (heap w)) w)
    | None => (Raise ValueError, w)
    end.

(** [print(text)] and [print(error, text)] *)
Definition print (error : option exn) (text : string) : M unit :=
  fun w => (Ret tt, emit (Printed error text) w).

(** One exchange with the outside: the request is logged, the oracle
    answers for this moment. *)
Definition exchange {A} (r : request) (answer : oracle -> nat -> outcome A) : M A :=
  fun w => (answer (outside w) (length (log w)), emit (Sent r) w).

(** [datetime.datetime.utcnow()] *)
Definition utcnow : M datetime :=
  fun w => (Ret (clock (outside w) (length (log w))), emit ClockRead w).

(** [for x in xs: body], threading the local variables [s] of the loop. *)
Fixpoint for_each {A S} (xs : list A) (s : S) (body : S -> A -> M S) : M S :=
  match xs with
  | [] => ret s
  | x :: xs' => bind (body s x) (fun s' => for_each xs' s' body)
  end.

(** Calling an [async def] function without awaiting the result: a
    coroutine object is made and dropped, and the body never runs. *)
Definition call_without_await {A} (coroutine : M A) : M unit := ret tt.

End World.
Export World.

Notation "'do' x <- m ; k" := (bind m (fun x => k))
  (at level 10, x name, m at level 100, k at level 200).
Notation "m ;;; k" := (bind m (fun _ => k))
  (at level 100, k at level 200, right associativity).

(** [d.replace(microsecond=us)] *)
Definition replace_microsecond (d : datetime) (us : N) : datetime :=
  {| year := year d; month := month d; day := day d;
     hour := hour d; minute := minute d; second := second d;
     microsecond := us |}.

Definition digit_char (n : N) : ascii := ascii_of_N (48 + n mod 10).

Definition pad2 (n : N) : string :=
  String (digit_char (n / 10)) (String (digit_char n) EmptyString).

Definition pad4 (n : N) : string :=
  String (digit_char (n / 1000)) (String (digit_char (n / 100)) (pad2 n)).

Definition pad6 (n : N) : string :=
  String (digit_char (n / 100000)) (String (digit_char (n / 10000)) (pad4 n)).

(** [d.isoformat()]: [YYYY-MM-DDTHH:MM:SS], with [.ffffff] appended when
    the microseconds are not zero. *)
Definition isoformat (d : datetime) : string :=
  pad4 (year d) +:+ "-" +:+ pad2 (month d) +:+ "-" +:+ pad2 (day d) +:+ "T" +:+
  pad2 (hour d) +:+ ":" +:+ pad2 (minute d) +:+ ":" +:+ pad2 (second d) +:+
  (if (microsecond d =? 0)%N then "" else "." +:+ pad6 (microsecond d)).

(** ** seller.py *)

Module Seller.
Import Ozon.

(** [get_product_list]: one page of the catalogue.  A reply that is not a
    success raises; otherwise the ["result"] object is returned. *)
Definition get_product_list (last_id client_id seller_token : string) : M page :=
  exchange (OzonProductList client_id last_id)
           (fun o k => ozon_product_list o k client_id last_id).

(** The [while True] loop of [get_offer_ids], unrolled at most [fuel]
    times. *)
Fixpoint get_offer_ids_loop (fuel : nat) (last_id : string)
    (product_list : list product) (client_id seller_token : string)
    : M (list product) :=
  match fuel with
  | O => out_of_fuel
  | S fuel' =>
      do some_prod <- get_product_list last_id client_id seller_token;
      let product_list := product_list ++ items some_prod in
      let total := total some_prod in
      let last_id := Ozon.last_id some_prod in
      if (total =? Z.of_nat (length product_list))%Z then ret product_list
      else get_offer_ids_loop fuel' last_id product_list client_id seller_token
  end.

(** [get_offer_ids]: the result is a new list object. *)
Definition get_offer_ids (fuel : nat) (client_id seller_token : string) : M loc :=
  do product_list <- get_offer_ids_loop fuel "" [] client_id seller_token;
  do offer_ids <- for_each product_list []
                    (fun offer_ids product => ret (offer_ids ++ [offer_id product]));
  new_list offer_ids.

Definition update_price (prices : list price_entry) (client_id seller_token : string)
    : M unit :=
  exchange (OzonImportPrices client_id prices) (fun o k => ozon_import o k).

Definition update_stocks (stocks : list stock_entry) (client_id seller_token : string)
    : M unit :=
  exchange (OzonImportStocks client_id stocks) (fun o k => ozon_import o k).

(** [download_stock]: the download, the archive and the sheet are the
    provider's side; what comes back is the list of records, or the
    exception met on the way. *)
Definition download_stock : M (list watch) :=
  exchange FeedDownload (fun o k => feed o k).

(** The [if]/[elif]/[else] of [create_stocks] that turns the quantity of
    a feed record into a stock count. *)
Definition stock_of (watch : watch) : outcome Z :=
  let count := py_str (Kolichestvo watch) in
  if String.eqb count ">10" then Ret 100%Z
  else if String.eqb count "1" then Ret 0%Z
  else py_int (Kolichestvo watch).

(** [create_stocks]; [offer_ids] is the caller's list object and is
    changed in place. *)
Definition create_stocks (watch_remnants : list watch) (offer_ids : loc)
    : M (list stock_entry) :=
  do stocks <- for_each watch_remnants []
    (fun stocks watch =>
       do found <- list_contains offer_ids (py_str (Kod watch));
       if found : bool then
         do stock <- lift (stock_of watch);
         let stocks :=
           stocks ++ [{| stock_offer_id := py_str (Kod watch); stock := stock |}] in
         list_remove offer_ids (py_str (Kod watch)) ;;;
         ret stocks
       else ret stocks);
  do remaining <- list_read offer_ids;
  for_each remaining stocks
    (fun stocks offer_id =>
       ret (stocks ++ [{| stock_offer_id := offer_id; stock := 0 |}])).

(** [price_conversion]: [re.sub("[^0-9]", "", price.split(".")[0])].
    Only text has a [split] method. *)
Definition price_conversion (price : pyval) : outcome string :=
  match price with
  | PStr s =>
      obind (index (split "."%char s) 0) (fun head => Ret (re_sub_non_digits head))
  | _ => Raise AttributeError
  end.

(** [create_prices] *)
Definition create_prices (watch_remnants : list watch) (offer_ids : loc)
    : M (list price_entry) :=
  for_each watch_remnants []
    (fun prices watch =>
       do found <- list_contains offer_ids (py_str (Kod watch));
       if found : bool then
         do converted <- lift (price_conversion (Tsena watch));
         let price :=
           {| auto_action_enabled := "UNKNOWN";
              currency_code := "RUB";
              price_offer_id := py_str (Kod watch);
              old_price := "0";
              price := converted |} in
         ret (prices ++ [price])
       else ret prices).

(** [list(divide(lst, n))]: the batches the generator yields, in order.
    [range(0, len(lst), n)] raises for [n = 0] as soon as the generator is
    asked for its first batch. *)
Definition divide {A} (lst : list A) (n : Z) : outcome (list (list A)) :=
  obind (range 0 (Z.of_nat (length lst)) n)
        (fun starts => Ret ((fun i => slice lst i (i + n)) <$> starts)).

(** The body of the coroutine [upload_prices]. *)
Definition upload_prices (fuel : nat) (watch_remnants : list watch)
    (client_id seller_token : string) : M (list price_entry) :=
  do offer_ids <- get_offer_ids fuel client_id seller_token;
  do prices <- create_prices watch_remnants offer_ids;
  do batches <- lift (divide prices 1000);
  do _ <- for_each batches tt
            (fun _ some_price => update_price some_price client_id seller_token);
  ret prices.

(** The body of the coroutine [upload_stocks]: the entries with a stock
    other than zero, and all entries. *)
Definition upload_stocks (fuel : nat) (watch_remnants : list watch)
    (client_id seller_token : string) : M (list stock_entry * list stock_entry) :=
  do offer_ids <- get_offer_ids fuel client_id seller_token;
  do stocks <- create_stocks watch_remnants offer_ids;
  do batches <- lift (divide stocks 100);
  do _ <- for_each batches tt
            (fun _ some_stock => update_stocks some_stock client_id seller_token);
  let not_empty := List.filter (fun entry => negb (stock entry =? 0)%Z) stocks in
  ret (not_empty, stocks).

(** The three [except] clauses of [main]. *)
Definition report (error : exn) : M unit :=
  match error with
  | ReadTimeout => print None "Превышено время ожидания..."
  | ConnectionError => print (Some error) "Ошибка соединения"
  | _ => print (Some error) "ERROR_2"
  end.

(** [main], for given values of [SELLER_TOKEN] and [CLIENT_ID]. *)
Definition main (fuel : nat) (seller_token client_id : string) : M unit :=
  try_except
    (do offer_ids <- get_offer_ids fuel client_id seller_token;
     do watch_remnants <- download_stock;
     do stocks <- create_stocks watch_remnants offer_ids;
     do batches <- lift (divide stocks 100);
     do _ <- for_each batches tt
               (fun _ some_stock => update_stocks some_stock client_id seller_token);
     do prices <- create_prices watch_remnants offer_ids;
     do batches <- lift (divide prices 900);
     for_each batches tt
       (fun _ some_price => update_price some_price client_id seller_token))
    report.

End Seller.

(** ** market.py *)

Module Market.
Import Yandex.

(** [get_product_list]: one page of the offer mapping of a campaign. *)
Definition get_product_list (page campaign_id access_token : string)
    : M Yandex.page :=
  exchange (MarketOfferMappingEntries campaign_id page)
           (fun o k => market_offer_mapping o k campaign_id page).

Definition update_stocks (stocks : list sku_entry) (campaign_id access_token : string)
    : M unit :=
  exchange (MarketStocks campaign_id stocks) (fun o k => market_update o k).

Definition update_price (prices : list price_entry) (campaign_id access_token : string)
    : M unit :=
  exchange (MarketPriceUpdates campaign_id prices) (fun o k => market_update o k).

(** The [while True] loop of [get_offer_ids], unrolled at most [fuel]
    times.  [if not page] holds for [None] and for the empty text. *)
Fixpoint get_offer_ids_loop (fuel : nat) (page : string)
    (product_list : list entry) (campaign_id market_token : string)
    : M (list entry) :=
  match fuel with
  | O => out_of_fuel
  | S fuel' =>
      do some_prod <- get_product_list page campaign_id market_token;
      let product_list := product_list ++ offerMappingEntries some_prod in
      match nextPageToken some_prod with
      | None => ret product_list
      | Some page =>
          if String.eqb page "" then ret product_list
          else get_offer_ids_loop fuel' page product_list campaign_id market_token
      end
  end.

Definition get_offer_ids (fuel : nat) (campaign_id market_token : string) : M loc :=
  do product_list <- get_offer_ids_loop fuel "" [] campaign_id market_token;
  do offer_ids <- for_each product_list []
                    (fun offer_ids product => ret (offer_ids ++ [shopSku product]));
  new_list offer_ids.

(** The entry that [create_stocks] appends for one offer. *)
Definition sku_dict (code warehouse_id : string) (stock : Z) (date : string)
    : sku_entry :=
  {| sku := code;
     warehouseId := warehouse_id;
     sku_items := [{| count := stock; type := "FIT"; updatedAt := date |}] |}.

(** [create_stocks]; the clock is read once, before the first loop. *)
Definition create_stocks (watch_remnants : list watch) (offer_ids : loc)
    (warehouse_id : string) : M (list sku_entry) :=
  do now <- utcnow;
  let date := isoformat (replace_microsecond now 0) +:+ "Z" in
  do stocks <- for_each watch_remnants []
    (fun stocks watch =>
       do found <- list_contains offer_ids (py_str (Kod watch));
       if found : bool then
         do stock <- lift (Seller.stock_of watch);
         let stocks :=
           stocks ++ [sku_dict (py_str (Kod watch)) warehouse_id stock date] in
         list_remove offer_ids (py_str (Kod watch)) ;;;
         ret stocks
       else ret stocks);
  do remaining <- list_read offer_ids;
  for_each remaining stocks
    (fun stocks offer_id =>
       ret (stocks ++ [sku_dict offer_id warehouse_id 0 date])).

(** [create_prices]: the price is [int(price_conversion(...))]. *)
Definition create_prices (watch_remnants : list watch) (offer_ids : loc)
    : M (list price_entry) :=
  for_each watch_remnants []
    (fun prices watch =>
       do found <- list_contains offer_ids (py_str (Kod watch));
       if found : bool then
         do converted <- lift (Seller.price_conversion (Tsena watch));
         do value <- lift (int_of_str converted);
         let price :=
           {| offer := py_str (Kod watch);
              offer_price := {| value := value; currencyId := "RUR" |} |} in
         ret (prices ++ [price])
       else ret prices).

(** The body of the coroutine [upload_prices]. *)
Definition upload_prices (fuel : nat) (watch_remnants : list watch)
    (campaign_id market_token : string) : M (list price_entry) :=
  do offer_ids <- get_offer_ids fuel campaign_id market_token;
  do prices <- create_prices watch_remnants offer_ids;
  do batches <- lift (Seller.divide prices 500);
  do _ <- for_each batches tt
            (fun _ some_prices => update_price some_prices campaign_id market_token);
  ret prices.

(** The body of the coroutine [upload_stocks]: the entries whose first item
    has a count other than zero, and all entries. *)
Definition upload_stocks (fuel : nat) (watch_remnants : list watch)
    (campaign_id market_token warehouse_id : string)
    : M (list sku_entry * list sku_entry) :=
  do offer_ids <- get_offer_ids fuel campaign_id market_token;
  do stocks <- create_stocks watch_remnants offer_ids warehouse_id;
  do batches <- lift (Seller.divide stocks 2000);
  do _ <- for_each batches tt
            (fun _ some_stock => update_stocks some_stock campaign_id market_token);
  do not_empty <- for_each stocks []
                    (fun kept entry =>
                       do first <- lift (index (sku_items entry) 0);
                       ret (if (count first =? 0)%Z then kept else kept ++ [entry]));
  ret (not_empty, stocks).

(** One target inside [main]: the catalogue is listed, the stocks are
    built and sent in batches of 2000, and [upload_prices] is called
    without [await].  [main] writes these lines out twice, once for the
    FBS campaign and once for the DBS campaign. *)
Definition sync (fuel : nat) (watch_remnants : list watch)
    (campaign_id warehouse_id market_token : string) : M unit :=
  do offer_ids <- get_offer_ids fuel campaign_id market_token;
  do stocks <- create_stocks watch_remnants offer_ids warehouse_id;
  do batches <- lift (Seller.divide stocks 2000);
  do _ <- for_each batches tt
            (fun _ some_stock => update_stocks some_stock campaign_id market_token);
  call_without_await (upload_prices fuel watch_remnants campaign_id market_token).

Definition report (error : exn) : M unit :=
  match error with
  | ReadTimeout => print None "Превышено время ожидания..."
  | ConnectionError => print (Some error) "Ошибка соединения"
  | _ => print (Some error) "ERROR_2"
  end.

(** [main], for given values of the five environment variables.  The
    download is outside the [try]; both targets are inside one [try]. *)
Definition main (fuel : nat) (market_token campaign_fbs_id campaign_dbs_id
    warehouse_fbs_id warehouse_dbs_id : string) : M unit :=
  do watch_remnants <- Seller.download_stock;
  try_except
    (sync fuel watch_remnants campaign_fbs_id warehouse_fbs_id market_token ;;;
     sync fuel watch_remnants campaign_dbs_id warehouse_dbs_id market_token)
    report.

End Market.

(** ** Functions used to state the properties *)

Module Ref.

(** The first loop of either [create_stocks], on the contents [O] of the
    identifier list rather than on the store: the entries appended to
    [acc], and what is left of [O]. [mk] builds the entry of one offer. *)
Fixpoint reconcile {E} (mk : string -> Z -> E) (F : list watch)
    (O : list string) (acc : list E) : outcome (list E) * list string :=
  match F with
  | [] => (Ret acc, O)
  | watch :: F' =>
      match remove_first (py_str (Kod watch)) O with
      | None => reconcile mk F' O acc
      | Some O' =>
          match Seller.stock_of watch with
          | Ret z => reconcile mk F' O' (acc ++ [mk (py_str (Kod watch)) z])
          | Raise e => (Raise e, O)
          | OutOfFuel => (OutOfFuel, O)
          end
      end
  end.

(** The body of that loop, for any entry constructor. *)
Definition stocks_body {E} (mk : string -> Z -> E) (offer_ids : loc)
    (stocks : list E) (watch : watch) : M (list E) :=
  do found <- list_contains offer_ids (py_str (Kod watch));
  if found : bool then
    do stock <- lift (Seller.stock_of watch);
    let stocks := stocks ++ [mk (py_str (Kod watch)) stock] in
    list_remove offer_ids (py_str (Kod watch)) ;;;
    ret stocks
  else ret stocks.

Definition ozon_entry (code : string) (z : Z) : Ozon.stock_entry :=
  {| Ozon.stock_offer_id := code; Ozon.stock := z |}.

(** The text that [market.py] puts in ["updatedAt"] when the clock shows
    [now]. *)
Definition stamp (now : datetime) : string :=
  isoformat (replace_microsecond now 0) +:+ "Z".

(** An entry of the market payload with another ["updatedAt"]. *)
Definition restamp (date : string) (e : Yandex.sku_entry) : Yandex.sku_entry :=
  {| Yandex.sku := Yandex.sku e;
     Yandex.warehouseId := Yandex.warehouseId e;
     Yandex.sku_items :=
       (fun it => {| Yandex.count := Yandex.count it;
                     Yandex.type := Yandex.type it;
                     Yandex.updatedAt := date |}) <$> Yandex.sku_items e |}.

(** The codes of a feed, as [create_stocks] and [create_prices] read
    them. *)
Definition codes (F : list watch) : list string := (py_str ∘ Kod) <$> F.

(** [watch] is a record of the feed [F] and no earlier record of [F]
    carries its code. *)
Definition first_in_feed (F : list watch) (watch : watch) : Prop :=
  exists F1 F2, F = F1 ++ watch :: F2 /\ py_str (Kod watch) ∉ codes F1.

(** How often the code [c] occurs in [l]. *)
Fixpoint occurrences (c : string) (l : list string) : nat :=
  match l with
  | [] => 0
  | x :: l' => (if String.eqb x c then 1 else 0) + occurrences c l'
  end.

(** The feed records that are matched with an identifier of [O], in the
    order of the feed: a record is matched when [O] holds its code more
    often than the records before it carry it.  [seen] are the codes of
    the records before [F]. *)
Fixpoint matched_after (seen : list string) (F : list watch) (O : list string)
    : list watch :=
  match F with
  | [] => []
  | watch :: F' =>
      let later := matched_after (seen ++ [py_str (Kod watch)]) F' O in
      if (occurrences (py_str (Kod watch)) seen
          <? occurrences (py_str (Kod watch)) O)%nat
      then watch :: later
      else later
  end.

Definition matched (F : list watch) (O : list string) : list watch :=
  matched_after [] F O.

(** The identifiers of [O] that no feed record is matched with, in the
    order of [O]: an identifier stays when it occurs before this place of
    [O] at least as often as the feed [F] carries it.  [seen] are the
    identifiers before [O]. *)
Fixpoint unmatched_after (seen : list string) (F : list watch) (O : list string)
    : list string :=
  match O with
  | [] => []
  | c :: O' =>
      let later := unmatched_after (seen ++ [c]) F O' in
      if (occurrences c (codes F) <=? occurrences c seen)%nat
      then c :: later
      else later
  end.

Definition unmatched (F : list watch) (O : list string) : list string :=
  unmatched_after [] F O.

(** [out] lists first one entry per matched feed record, in the order of
    the feed [F], each with the count that [stock_of] gives for the
    record, and then one zero entry per unmatched identifier of [O], in
    the order of [O]. *)
Definition feed_then_rest {E} (mk : string -> Z -> E) (F : list watch)
    (O : list string) (out : list E) : Prop :=
  exists stocks : list Z,
    Forall2 (fun watch z => Seller.stock_of watch = Ret z) (matched F O) stocks
    /\ out = zip_with mk (codes (matched F O)) stocks
             ++ ((fun c => mk c 0%Z) <$> unmatched F O).

Definition outcome_map {A B} (f : A -> B) (o : outcome A) : outcome B :=
  obind o (fun a => Ret (f a)).

(** Text made of the digits [0] to [9] only. *)
Fixpoint all_digits (s : string) : bool :=
  match s with
  | EmptyString => true
  | String c s' => is_digit c && all_digits s'
  end.

(** The whole number that a text of digits denotes in base ten, read after
    the digits already summed up in [acc]. *)
Fixpoint decimal (acc : Z) (s : string) : Z :=
  match s with
  | EmptyString => acc
  | String c s' => decimal (acc * 10 + digit_value c) s'
  end.

(** The part of a text before its first full stop; the whole text when it
    has none. *)
Fixpoint before_dot (s : string) : string :=
  match s with
  | EmptyString => EmptyString
  | String c s' => if Ascii.eqb c "."%char then EmptyString else String c (before_dot s')
  end.




(** The event is a request to the campaign [c] of Yandex Market. *)
Definition targets (c : string) (e : event) : Prop :=
  match e with
  | Sent (MarketOfferMappingEntries c' _)
  | Sent (MarketStocks c' _)
  | Sent (MarketPriceUpdates c' _) => c' = c
  | _ => False
  end.

(** The event is a reading of the clock or a request to the campaign [c]. *)
Definition about (c : string) (e : event) : Prop :=
  e = ClockRead \/ targets c e.

(** Whatever the world, running [m] adds to the log only events that
    satisfy [P], and leaves the outside as it is. *)
Definition emits {A} (P : event -> Prop) (m : M A) : Prop :=
  forall w, exists evs,
    log (snd (m w)) = log w ++ evs /\ Forall P evs
    /\ outside (snd (m w)) = outside w.

(** What either [create_stocks] returns for a feed [F] and a list with the
    contents [O]. *)
Definition stocks_result {E} (mk : string -> Z -> E) (F : list watch)
    (O : list string) : outcome (list E) :=
  obind (fst (reconcile mk F O []))
        (fun out => Ret (out ++ ((fun c => mk c 0%Z) <$> snd (reconcile mk F O [])))).

(** Calling [create] on a fresh copy of the list [O]. *)
Definition on_copy {A} (create : loc -> M A) (O : list string) : M A :=
  do offer_ids <- new_list O; create offer_ids.

(** Two such calls, one after the other. *)
Definition twice {A} (create : loc -> M A) (O : list string) : M (A * A) :=
  do first <- on_copy create O;
  do second <- on_copy create O;
  ret (first, second).

End Ref.
Export Ref.

(** ** Scenarios

    Concrete feeds, catalogues and worlds on which the statements below are
    evaluated. *)

Module Scenario.

Definition text_record (code quantity price : string) : watch :=
  {| Kod := PStr code; Kolichestvo := PStr quantity; Tsena := PStr price |}.

Definition evening : datetime :=
  {| year := 2023; month := 8; day := 13;
     hour := 19; minute := 50; second := 21; microsecond := 0 |}.

(** A clock that moves on by one second with every event. *)
Definition ticking (k : nat) : datetime :=
  {| year := 2023; month := 8; day := 13;
     hour := 19; minute := 50; second := N.of_nat k mod 60; microsecond := 0 |}.

(** An outside in which every listing fails, every update succeeds and
    the feed is empty. *)
Definition unreachable (clock : nat -> datetime) : oracle :=
  {| ozon_product_list := fun _ _ _ => Raise HTTPError;
     ozon_import := fun _ => Ret tt;
     market_offer_mapping := fun _ _ _ => Raise HTTPError;
     market_update := fun _ => Ret tt;
     feed := fun _ => Ret [];
     clock := clock |}.

Definition start (o : oracle) : world :=
  {| heap := ∅; log := []; outside := o |}.

(** A world that already holds the list [O] at reference [0]. *)
Definition holding (O : list string) (o : oracle) : world :=
  {| heap := {[ 0%nat := O ]}; log := []; outside := o |}.

Definition abc : list string := ["A"; "B"; "C"].

Definition feed_ab : list watch :=
  [text_record "A" ">10" "24'570.00 руб."; text_record "B" "1" "1,234.56"].

(** A shop whose catalogue list [abc] sits at reference [0]. *)
Definition shop : world := holding abc (unreachable ticking).

(** A feed whose only record has a quantity that is not a number. *)
Definition feed_bad : list watch := [text_record "A" "abc" "10.00"].

Definition shop_a : world := holding ["A"] (unreachable ticking).

(** A catalogue of three products served in two pages. *)
Definition page_one : Ozon.page :=
  {| Ozon.items := [ {| Ozon.product_id := 223681945; Ozon.offer_id := "136748" |};
                     {| Ozon.product_id := 223681946; Ozon.offer_id := "168448" |} ];
     Ozon.total := 3;
     Ozon.last_id := "bnVsbA==" |}.

Definition page_two : Ozon.page :=
  {| Ozon.items := [ {| Ozon.product_id := 223681947; Ozon.offer_id := "528148" |} ];
     Ozon.total := 3;
     Ozon.last_id := "" |}.

Definition two_pages : oracle :=
  {| ozon_product_list := fun k _ _ =>
       match k with
       | O => Ret page_one
       | S O => Ret page_two
       | _ => Raise HTTPError
       end;
     ozon_import := fun _ => Ret tt;
     market_offer_mapping := fun _ _ _ => Raise HTTPError;
     market_update := fun _ => Ret tt;
     feed := fun _ => Ret [];
     clock := ticking |}.

(** The listing of the campaign ["fbs"] fails; the campaign ["dbs"] is in
    order and lists one offer. *)
Definition fbs_down : oracle :=
  {| ozon_product_list := fun _ _ _ => Raise HTTPError;
     ozon_import := fun _ => Ret tt;
     market_offer_mapping := fun _ campaign _ =>
       if String.eqb campaign "fbs" then Raise HTTPError
       else Ret {| Yandex.offerMappingEntries := [ {| Yandex.shopSku := "A" |} ];
                   Yandex.nextPageToken := None |};
     market_update := fun _ => Ret tt;
     feed := fun _ => Ret feed_ab;
     clock := ticking |}.

(** An Ozon shop that lists the offers A, B and C on one page, with the feed
    [feed_ab]. *)
Definition ozon_abc : oracle :=
  {| ozon_product_list := fun _ _ _ =>
       Ret {| Ozon.items := [ {| Ozon.product_id := 1; Ozon.offer_id := "A" |};
                              {| Ozon.product_id := 2; Ozon.offer_id := "B" |};
                              {| Ozon.product_id := 3; Ozon.offer_id := "C" |} ];
              Ozon.total := 3;
              Ozon.last_id := "" |};
     ozon_import := fun _ => Ret tt;
     market_offer_mapping := fun _ _ _ => Raise HTTPError;
     market_update := fun _ => Ret tt;
     feed := fun _ => Ret feed_ab;
     clock := ticking |}.

(** A world whose clock stands still. *)
Definition frozen : world := start (unreachable (fun _ => evening)).

(** A world whose clock moves on between any two events. *)
Definition running : world := start (unreachable ticking).

(** A feed that names ["A"] twice. *)
Definition feed_aa : list watch :=
  [text_record "A" "7" "10.00"; text_record "A" "abc" "x"; text_record "B" "0" "5"].

End Scenario.

(** ** Functions used to state further properties *)

Module More.

(** The loop of either [create_prices], on the contents [O] of the
    identifier list: [value] is what is computed for a record whose code is
    in [O], [mk] builds its entry. *)
Fixpoint join {E V} (value : watch -> outcome V) (mk : watch -> V -> E)
    (O : list string) (F : list watch) (acc : list E) : outcome (list E) :=
  match F with
  | [] => Ret acc
  | watch :: F' =>
      if contains (py_str (Kod watch)) O then
        match value watch with
        | Ret v => join value mk O F' (acc ++ [mk watch v])
        | Raise e => Raise e
        | OutOfFuel => OutOfFuel
        end
      else join value mk O F' acc
  end.

(** The price dictionary that [create_prices] of [seller.py] builds. *)
Definition ozon_price (watch : watch) (converted : string) : Ozon.price_entry :=
  {| Ozon.auto_action_enabled := "UNKNOWN";
     Ozon.currency_code := "RUB";
     Ozon.price_offer_id := py_str (Kod watch);
     Ozon.old_price := "0";
     Ozon.price := converted |}.

(** The price dictionary that [create_prices] of [market.py] builds. *)
Definition market_price (watch : watch) (value : Z) : Yandex.price_entry :=
  {| Yandex.offer := py_str (Kod watch);
     Yandex.offer_price := {| Yandex.value := value; Yandex.currencyId := "RUR" |} |}.

(** [int(price_conversion(watch.get("Цена")))], the price of [market.py]. *)
Definition unit_price (watch : watch) : outcome Z :=
  obind (Seller.price_conversion (Tsena watch)) int_of_str.

(** The price of the record is text with at least one digit before its
    first full stop. *)
Definition priced (watch : watch) : Prop :=
  exists s, Tsena watch = PStr s /\ re_sub_non_digits (before_dot s) <> "".

(** The stock requests of one Ozon client for a run of batches. *)
Definition stock_requests (client_id : string)
    (batches : list (list Ozon.stock_entry)) : list event :=
  (fun b => Sent (OzonImportStocks client_id b)) <$> batches.

(** The event is a price update, for Ozon or for Yandex Market. *)
Definition is_price_update (e : event) : Prop :=
  match e with
  | Sent (OzonImportPrices _ _) | Sent (MarketPriceUpdates _ _) => True
  | _ => False
  end.

(** The event is a request or a reading of the clock: anything but a
    printed line. *)
Definition is_silent (e : event) : Prop :=
  match e with
  | Printed _ _ => False
  | _ => True
  end.






(** The world [w] after the events [evs]. *)
Definition after (evs : list event) (w : world) : world :=
  {| heap := heap w; log := log w ++ evs; outside := outside w |}.

(** The price requests of one Ozon client for a run of batches. *)
Definition price_requests (client_id : string)
    (batches : list (list Ozon.price_entry)) : list event :=
  (fun b => Sent (OzonImportPrices client_id b)) <$> batches.

(** The stock requests of one Yandex Market campaign for a run of
    batches. *)
Definition market_stock_requests (campaign_id : string)
    (batches : list (list Yandex.sku_entry)) : list event :=
  (fun b => Sent (MarketStocks campaign_id b)) <$> batches.

(** The first item of the entry has a count other than zero. *)
Definition in_stock (e : Yandex.sku_entry) : bool :=
  match Yandex.sku_items e with
  | item :: _ => negb (Yandex.count item =? 0)%Z
  | [] => false
  end.

(** The stock entry of [market.py] that corresponds to a stock entry of
    [seller.py]. *)
Definition to_sku (warehouse_id date : string) (e : Ozon.stock_entry)
    : Yandex.sku_entry :=
  Market.sku_dict (Ozon.stock_offer_id e) warehouse_id (Ozon.stock e) date.

(** The feed provider and Ozon's import answer every request, with a
    reply or with an exception: no request is left hanging. *)
Definition answers (o : oracle) : Prop :=
  (forall k, feed o k <> OutOfFuel) /\ (forall k, ozon_import o k <> OutOfFuel).

(** In every world whose outside answers, [m] comes to an end -- it
    returns or raises -- and leaves the outside as it is. *)
Definition ends {A} (m : M A) : Prop :=
  forall w, answers (outside w) ->
    fst (m w) <> OutOfFuel /\ outside (snd (m w)) = outside w.

(** Between [w] and [w'] the outside is the same, every list object other
    than [l] is the same, and the list [l], which held [O], holds a
    subsequence of [O]. *)
Definition only_shrinks (l : loc) (O : list string) (w w' : world) : Prop :=
  outside w' = outside w
  /\ (forall l', l' <> l -> heap w' !! l' = heap w !! l')
  /\ exists O', heap w' !! l = Some O' /\ O' `sublist_of` O.

End More.
Export More.

(** ** More scenarios *)

Module Scenes.

Definition entries_one : Yandex.page :=
  {| Yandex.offerMappingEntries := [ {| Yandex.shopSku := "136748" |};
                                     {| Yandex.shopSku := "168448" |} ];
     Yandex.nextPageToken := Some "eyBuZXh0" |}.

Definition entries_two : Yandex.page :=
  {| Yandex.offerMappingEntries := [ {| Yandex.shopSku := "528148" |} ];
     Yandex.nextPageToken := None |}.

(** A campaign that lists three offers on two pages. *)
Definition market_two_pages : oracle :=
  {| ozon_product_list := fun _ _ _ => Raise HTTPError;
     ozon_import := fun _ => Ret tt;
     market_offer_mapping := fun k _ _ =>
       match k with
       | O => Ret entries_one
       | S O => Ret entries_two
       | _ => Raise HTTPError
       end;
     market_update := fun _ => Ret tt;
     feed := fun _ => Ret [];
     clock := Scenario.ticking |}.




(** The Ozon shop of [Scenario.ozon_abc], where the second update request
    is refused (the first request of a run is the listing, the second the
    download). *)
Definition refuses_update (k : nat) : oracle :=
  {| ozon_product_list := ozon_product_list Scenario.ozon_abc;
     ozon_import := fun i => if Nat.eqb i k then Raise HTTPError else Ret tt;
     market_offer_mapping := fun _ _ _ => Raise HTTPError;
     market_update := fun _ => Ret tt;
     feed := fun _ => Ret Scenario.feed_ab;
     clock := Scenario.ticking |}.

(** The feed cannot be downloaded. *)
Definition no_feed : oracle :=
  {| ozon_product_list := ozon_product_list Scenario.ozon_abc;
     ozon_import := fun _ => Ret tt;
     market_offer_mapping := market_offer_mapping market_two_pages;
     market_update := fun _ => Ret tt;
     feed := fun _ => Raise ConnectionError;
     clock := Scenario.ticking |}.

End Scenes.

(** * Properties *)

(** ** Lists of identifiers *)

Lemma contains_true (x : string) (O : list string) :
  contains x O = true <-> x ∈ O.
Proof.
  unfold contains. rewrite existsb_exists. split.
  - intros (y & Hy & Heq). apply String.eqb_eq in Heq. subst y.
    by apply list_elem_of_In.
  - intros Hx. exists x. split; [by apply list_elem_of_In | apply String.eqb_refl].
Qed.

Lemma contains_false (x : string) (O : list string) :
  contains x O = false <-> x ∉ O.
Proof.
  rewrite <- contains_true. destruct (contains x O); split; congruence.
Qed.

Lemma remove_first_None (x : string) (O : list string) :
  remove_first x O = None <-> x ∉ O.
Proof.
  induction O as [|y O IH]; simpl.
  - split; [intros _; apply not_elem_of_nil | done].
  - destruct (String.eqb_spec y x) as [->|Hne].
    + split; [done | intros H; exfalso; apply H; left].
    + rewrite not_elem_of_cons. destruct (remove_first x O) eqn:E; simpl.
      * split; [done | intros [_ H]; by apply IH in H].
      * split; [intros _; split; [congruence | by apply IH] | done].
Qed.

Lemma remove_first_Some (x : string) (O O' : list string) :
  remove_first x O = Some O' ->
  x ∈ O /\ O ≡ₚ x :: O' /\ O' `sublist_of` O.
Proof.
  revert O'. induction O as [|y O IH]; simpl; intros O' H; [done|].
  destruct (String.eqb_spec y x) as [->|Hne].
  - injection H as <-. split; [left|]. split; [done | by apply sublist_cons].
  - destruct (remove_first x O) as [O1|] eqn:E; simpl in H; [|done].
    injection H as <-. destruct (IH O1 eq_refl) as (Hin & Hperm & Hsub).
    split; [by right|]. split.
    + rewrite Hperm. apply Permutation_swap.
    + by apply sublist_skip.
Qed.

(** ** The world *)

Lemma set_heap_id (w : world) (l : loc) (O : list string) :
  heap w !! l = Some O -> set_heap (<[l := O]> (heap w)) w = w.
Proof.
  intros H. destruct w as [h lg o]. unfold set_heap. simpl in *.
  by rewrite insert_id.
Qed.

Lemma set_heap_set_heap (w : world) (l : loc) (O1 O2 : list string) :
  set_heap (<[l := O2]> (heap (set_heap (<[l := O1]> (heap w)) w)))
           (set_heap (<[l := O1]> (heap w)) w)
  = set_heap (<[l := O2]> (heap w)) w.
Proof. unfold set_heap. simpl. by rewrite insert_insert_eq. Qed.

Lemma contents_set_heap (w : world) (l : loc) (O : list string) :
  contents l (set_heap (<[l := O]> (heap w)) w) = O.
Proof. unfold contents, set_heap. simpl. by rewrite lookup_insert_eq. Qed.

Lemma contents_lookup (w : world) (l : loc) (O : list string) :
  heap w !! l = Some O -> contents l w = O.
Proof. unfold contents. by intros ->. Qed.

(** A loop whose body only appends to its local list. *)
Lemma for_each_append {A B} (f : A -> B) (xs : list A) (acc : list B) (w : world) :
  for_each xs acc (fun acc x => ret (acc ++ [f x])) w = (Ret (acc ++ (f <$> xs)), w).
Proof.
  revert acc. induction xs as [|x xs IH]; intros acc; simpl.
  - by rewrite app_nil_r.
  - unfold bind, ret at 1. rewrite IH. by rewrite <- app_assoc.
Qed.

(** ** The first loop of [create_stocks] *)

Lemma stocks_loop {E} (mk : string -> Z -> E) (l : loc) (F : list watch) :
  forall (O : list string) (acc : list E) (w : world),
    heap w !! l = Some O ->
    for_each F acc (stocks_body mk l) w
    = (fst (reconcile mk F O acc),
       set_heap (<[l := snd (reconcile mk F O acc)]> (heap w)) w).
Proof.
  induction F as [|watch F IH]; intros O acc w Hl; simpl.
  - by rewrite set_heap_id.
  - unfold bind at 1, stocks_body at 1, bind at 1, list_contains.
    rewrite (contents_lookup _ _ _ Hl).
    destruct (remove_first (py_str (Kod watch)) O) as [O'|] eqn:Hrm.
    + destruct (remove_first_Some _ _ _ Hrm) as (Hin & _ & _).
      apply contains_true in Hin. rewrite Hin.
      unfold bind at 1, lift.
      destruct (Seller.stock_of watch) as [z|e|]; simpl;
        [| by rewrite set_heap_id | by rewrite set_heap_id].
      unfold bind at 1, list_remove. rewrite (contents_lookup _ _ _ Hl), Hrm.
      unfold ret at 1. rewrite (IH O').
      * by rewrite set_heap_set_heap.
      * unfold set_heap. simpl. apply lookup_insert_eq.
    + apply remove_first_None, contains_false in Hrm. rewrite Hrm.
      unfold ret at 1. by apply IH.
Qed.

Lemma reconcile_app {E} (mk : string -> Z -> E) (F1 F2 : list watch) :
  forall O acc,
    reconcile mk (F1 ++ F2) O acc
    = match reconcile mk F1 O acc with
      | (Ret acc', O') => reconcile mk F2 O' acc'
      | r => r
      end.
Proof.
  induction F1 as [|watch F1 IH]; intros O acc; simpl; [done|].
  destruct (remove_first _ O) as [O'|]; [|apply IH].
  destruct (Seller.stock_of watch); [apply IH | done | done].
Qed.

(** What the loop returns, when it returns: the entries already in [acc],
    then one entry per claimed record, in feed order; the identifiers not
    claimed stay, in their order. *)
Lemma reconcile_Ret {E} (mk : string -> Z -> E) (F : list watch) :
  forall O acc out O',
    reconcile mk F O acc = (Ret out, O') ->
    exists claimed : list (watch * Z),
      out = acc ++ ((fun p => mk (py_str (Kod p.1)) p.2) <$> claimed)
      /\ claimed.*1 `sublist_of` F
      /\ Forall (fun p => Seller.stock_of p.1 = Ret p.2 /\ py_str (Kod p.1) ∈ O) claimed
      /\ O' `sublist_of` O
      /\ ((fun p => py_str (Kod p.1)) <$> claimed) ++ O' ≡ₚ O.
Proof.
  induction F as [|watch F IH]; intros O acc out O' H; simpl in H.
  - injection H as <- <-. exists []. simpl. by rewrite app_nil_r.
  - destruct (remove_first _ O) as [O1|] eqn:Hrm.
    + destruct (Seller.stock_of watch) as [z|e|] eqn:Hz; [|done|done].
      destruct (remove_first_Some _ _ _ Hrm) as (Hin & Hperm & Hsub).
      destruct (IH _ _ _ _ H) as (cl & -> & Hs & Hall & Hsub' & Hp).
      exists ((watch, z) :: cl). simpl. split; [by rewrite <- app_assoc|].
      split; [by apply sublist_skip|]. split.
      * constructor; [done|]. eapply Forall_impl; [exact Hall|].
        simpl. intros p [? Hp1]. split; [done|].
        rewrite Hperm. by right.
      * split; [by etrans|]. by rewrite Hp, Hperm.
    + destruct (IH _ _ _ _ H) as (cl & -> & Hs & Hall & Hsub' & Hp).
      exists cl. split; [done|]. split; [by apply sublist_cons|]. done.
Qed.

Lemma filter_ext_elem {A} (P Q : A -> Prop) `{!forall x, Decision (P x)}
    `{!forall x, Decision (Q x)} (l : list A) :
  (forall x, x ∈ l -> (P x <-> Q x)) -> filter P l = filter Q l.
Proof.
  induction l as [|x l IH]; intros Hext; [done|].
  rewrite !filter_cons. rewrite IH by (intros y Hy; apply Hext; by right).
  assert (Hx : P x <-> Q x) by (apply Hext; left).
  destruct (decide (P x)), (decide (Q x)); tauto.
Qed.

Lemma filter_all {A} (P : A -> Prop) `{!forall x, Decision (P x)} (l : list A) :
  (forall x, x ∈ l -> P x) -> filter P l = l.
Proof.
  induction l as [|x l IH]; intros Hall; [done|].
  rewrite filter_cons_True by (apply Hall; left).
  rewrite IH; [done|]. intros y Hy. apply Hall. by right.
Qed.

Lemma remove_first_NoDup (c : string) (O O1 : list string) :
  NoDup O -> remove_first c O = Some O1 -> O1 = filter (fun a => a ≠ c) O.
Proof.
  revert O1. induction O as [|y O IH]; intros O1 Hnd H; simpl in H; [done|].
  apply NoDup_cons in Hnd as [Hy Hnd].
  destruct (String.eqb_spec y c) as [->|Hne].
  - injection H as <-. rewrite filter_cons_False by (intros ?; done).
    symmetry. apply filter_all. intros x Hx ->. done.
  - destruct (remove_first c O) as [O2|]; simpl in H; [|done].
    injection H as <-. rewrite filter_cons_True by done.
    by rewrite <- (IH O2).
Qed.

Lemma reconcile_NoDup {E} (mk : string -> Z -> E) (F : list watch) :
  forall O acc out O',
    NoDup O -> reconcile mk F O acc = (Ret out, O') ->
    O' = filter (fun c => c ∉ codes F) O.
Proof.
  induction F as [|watch F IH]; intros O acc out O' Hnd H; simpl in H.
  - injection H as <- <-.
    symmetry. apply filter_all. intros x _. apply not_elem_of_nil.
  - destruct (remove_first _ O) as [O1|] eqn:Hrm.
    + destruct (Seller.stock_of watch) as [z|e|]; [|done|done].
      rewrite (remove_first_NoDup _ _ _ Hnd Hrm) in H.
      rewrite (IH _ _ _ _ (NoDup_filter _ _ Hnd) H).
      rewrite list_filter_filter. apply list_filter_iff.
      intros c. simpl. rewrite not_elem_of_cons. tauto.
    + rewrite (IH _ _ _ _ Hnd H).
      apply remove_first_None in Hrm.
      apply filter_ext_elem. intros c Hc. simpl.
      rewrite not_elem_of_cons. split; [|tauto].
      intros ?. split; [|done]. intros ->. done.
Qed.

(** The loop returns when the first record of every code in [O] has a
    quantity that [stock_of] accepts. *)
Lemma reconcile_total {E} (mk : string -> Z -> E) (F : list watch) :
  forall O acc,
    NoDup O ->
    (forall watch, first_in_feed F watch -> py_str (Kod watch) ∈ O ->
                   exists z, Seller.stock_of watch = Ret z) ->
    exists out O', reconcile mk F O acc = (Ret out, O').
Proof.
  induction F as [|watch F IH]; intros O acc Hnd Hok; simpl; [eauto|].
  destruct (remove_first _ O) as [O1|] eqn:Hrm.
  - destruct (remove_first_Some _ _ _ Hrm) as (Hin & Hperm & Hsub).
    destruct (Hok watch) as [z ->];
      [exists [], F; split; [done | apply not_elem_of_nil] | done |].
    assert (Hnd1 : NoDup (py_str (Kod watch) :: O1)) by by rewrite <- Hperm.
    apply NoDup_cons in Hnd1 as [Hnot Hnd1].
    apply IH; [done|]. intros w' (F1 & F2 & -> & Hfirst) Hc. apply Hok.
    + exists (watch :: F1), F2. split; [done|].
      unfold codes. rewrite fmap_cons, not_elem_of_cons. split; [|done].
      simpl. intros Heq. rewrite Heq in Hc. done.
    + rewrite Hperm. by right.
  - apply remove_first_None in Hrm.
    apply IH; [done|]. intros w' (F1 & F2 & -> & Hfirst) Hc. apply Hok; [|done].
    exists (watch :: F1), F2. split; [done|].
    unfold codes. rewrite fmap_cons, not_elem_of_cons. split; [|done].
    simpl. intros Heq. rewrite Heq in Hc. done.
Qed.

(** ** [create_stocks] as a function of the feed and of the list contents *)

Lemma seller_create_stocks_run (F : list watch) (O : list string) (l : loc) (w : world) :
  heap w !! l = Some O ->
  Seller.create_stocks F l w
  = (obind (fst (reconcile ozon_entry F O []))
           (fun out => Ret (out ++ ((fun c => ozon_entry c 0) <$>
                                       snd (reconcile ozon_entry F O [])))),
     set_heap (<[l := snd (reconcile ozon_entry F O [])]> (heap w)) w).
Proof.
  intros Hl. unfold Seller.create_stocks.
  change (for_each F [] _) with (for_each F [] (stocks_body ozon_entry l)).
  unfold bind at 1. rewrite (stocks_loop _ _ _ O [] w Hl).
  destruct (reconcile ozon_entry F O []) as [[out|e|] O']; simpl; [|done|done].
  unfold bind at 1, list_read. rewrite contents_set_heap.
  apply (for_each_append (fun c => ozon_entry c 0)).
Qed.

Lemma market_create_stocks_run (F : list watch) (O : list string) (l : loc)
    (warehouse_id : string) (w : world) :
  heap w !! l = Some O ->
  let date := stamp (clock (outside w) (length (log w))) in
  let mk := fun c z => Market.sku_dict c warehouse_id z date in
  Market.create_stocks F l warehouse_id w
  = (obind (fst (reconcile mk F O []))
           (fun out => Ret (out ++ ((fun c => mk c 0%Z) <$> snd (reconcile mk F O [])))),
     set_heap (<[l := snd (reconcile mk F O [])]> (heap w)) (emit ClockRead w)).
Proof.
  intros Hl date mk. unfold Market.create_stocks.
  unfold bind at 1, utcnow. fold date.
  change (for_each F [] _) with (for_each F [] (stocks_body mk l)).
  unfold bind at 1.
  rewrite (stocks_loop _ _ _ O [] (emit ClockRead w)) by done.
  destruct (reconcile mk F O []) as [[out|e|] O']; simpl; [|done|done].
  unfold bind at 1, list_read.
  change (heap w) with (heap (emit ClockRead w)).
  rewrite contents_set_heap.
  apply (for_each_append (fun c => mk c 0%Z)).
Qed.

(** ** [create_prices] *)

Lemma seller_create_prices_world (F : list watch) (l : loc) (w : world) :
  snd (Seller.create_prices F l w) = w.
Proof.
  unfold Seller.create_prices.
  match goal with |- context [for_each F [] ?b] => set (body := b) end.
  generalize (@nil Ozon.price_entry).
  induction F as [|watch F IH]; intros acc; simpl; [done|].
  unfold bind at 1, body at 1, bind at 1, list_contains.
  destruct (contains _ _); [|apply IH].
  unfold bind at 1, lift.
  destruct (Seller.price_conversion (Tsena watch)); simpl; [apply IH|done|done].
Qed.

Lemma market_create_prices_world (F : list watch) (l : loc) (w : world) :
  snd (Market.create_prices F l w) = w.
Proof.
  unfold Market.create_prices.
  match goal with |- context [for_each F [] ?b] => set (body := b) end.
  generalize (@nil Yandex.price_entry).
  induction F as [|watch F IH]; intros acc; simpl; [done|].
  unfold bind at 1, body at 1, bind at 1, list_contains.
  destruct (contains _ _); [|apply IH].
  unfold bind at 1, lift.
  destruct (Seller.price_conversion (Tsena watch)) as [converted| |]; simpl;
    [|done|done].
  unfold bind at 1.
  destruct (int_of_str converted); simpl; [apply IH|done|done].
Qed.

(** When no code of the feed is in the list, no price entry is built. *)
Lemma seller_create_prices_no_match (F : list watch) (l : loc) (w : world) :
  (forall c, c ∈ codes F -> c ∉ contents l w) ->
  Seller.create_prices F l w = (Ret [], w).
Proof.
  unfold Seller.create_prices.
  match goal with |- context [for_each F [] ?b] => set (body := b) end.
  generalize (@nil Ozon.price_entry).
  induction F as [|watch F IH]; intros acc Hno; simpl; [done|].
  unfold bind at 1, body at 1, bind at 1, list_contains.
  assert (Hc : contains (py_str (Kod watch)) (contents l w) = false).
  { apply contains_false, Hno. left. }
  rewrite Hc. unfold ret at 1. apply IH.
  intros c Hin. apply Hno. by right.
Qed.

(** C6: [create_prices], in [seller.py] and in [market.py], leaves the world
    as it found it -- the store, and with it the identifier list passed in,
    is the same after the call as before, whether the call returns or
    raises. *)
Theorem create_prices_leaves_identifiers :
  forall (F : list watch) (offer_ids : loc) (w : world),
    (snd (Seller.create_prices F offer_ids w) = w
     /\ contents offer_ids (snd (Seller.create_prices F offer_ids w))
        = contents offer_ids w)
    /\ (snd (Market.create_prices F offer_ids w) = w
        /\ contents offer_ids (snd (Market.create_prices F offer_ids w))
           = contents offer_ids w).
Proof.
  intros F l w.
  rewrite seller_create_prices_world, market_create_prices_world. done.
Qed.

(** C10: after [create_stocks] has returned, the list it was given holds
    exactly the identifiers that occur nowhere in the feed, and
    [create_prices] called on that same list returns the empty list. *)
Theorem prices_empty_after_stocks :
  forall (F : list watch) (O : list string) (offer_ids : loc) (w w' : world)
         (stocks : list Ozon.stock_entry),
    NoDup O ->
    heap w !! offer_ids = Some O ->
    Seller.create_stocks F offer_ids w = (Ret stocks, w') ->
    heap w' !! offer_ids = Some (filter (fun c => c ∉ codes F) O)
    /\ Seller.create_prices F offer_ids w' = (Ret [], w').
Proof.
  intros F O l w w' stocks Hnd Hl Hrun.
  rewrite (seller_create_stocks_run F O l w Hl) in Hrun.
  destruct (reconcile ozon_entry F O []) as [[out|e|] O'] eqn:HR;
    simpl in Hrun; [|done|done].
  injection Hrun as _ <-.
  pose proof (reconcile_NoDup _ _ _ _ _ _ Hnd HR) as ->.
  assert (Hl' : heap (set_heap (<[l := filter (fun c => c ∉ codes F) O]> (heap w)) w)
                  !! l = Some (filter (fun c => c ∉ codes F) O))
    by apply lookup_insert_eq.
  split; [done|].
  apply seller_create_prices_no_match.
  intros c Hc. rewrite (contents_lookup _ _ _ Hl').
  rewrite list_elem_of_filter. tauto.
Qed.

Lemma prices_empty_after_stocks_witness :
  heap (snd (Seller.create_stocks Scenario.feed_ab 0%nat Scenario.shop)) !! 0%nat
  = Some (filter (fun c => c ∉ codes Scenario.feed_ab) Scenario.abc)
  /\ Seller.create_prices Scenario.feed_ab 0%nat
       (snd (Seller.create_stocks Scenario.feed_ab 0%nat Scenario.shop))
     = (Ret [], snd (Seller.create_stocks Scenario.feed_ab 0%nat Scenario.shop)).
Proof.
  eapply (prices_empty_after_stocks Scenario.feed_ab Scenario.abc 0%nat Scenario.shop).
  - compute_done.
  - reflexivity.
  - vm_compute. reflexivity.
Defined.

(** A run of [main] of [seller.py]: the catalogue lists A, B and C, the feed
    has prices for A and B, and yet the only update sent is the one with the
    stocks; no price is sent. *)
Example seller_main_sends_no_price :
  Seller.main 1 "key" "client" (Scenario.start Scenario.ozon_abc)
  = (Ret tt,
     {| heap := {[ 0%nat := ["C"] ]};
        log := [ Sent (OzonProductList "client" "");
                 Sent FeedDownload;
                 Sent (OzonImportStocks "client"
                         [ ozon_entry "A" 100; ozon_entry "B" 0; ozon_entry "C" 0 ]) ];
        outside := Scenario.ozon_abc |}).
Proof. vm_compute. reflexivity. Qed.

(** ** What [create_stocks] returns *)

Lemma reconcile_skip {E} (mk : string -> Z -> E) (F1 F2 : list watch) (dup : watch)
    (O : list string) :
  NoDup O ->
  py_str (Kod dup) ∈ codes F1 ->
  reconcile mk (F1 ++ dup :: F2) O [] = reconcile mk (F1 ++ F2) O [].
Proof.
  intros Hnd Hdup. rewrite !reconcile_app.
  destruct (reconcile mk F1 O []) as [[acc'|e|] O1] eqn:HR; [|done|done].
  simpl. pose proof (reconcile_NoDup _ _ _ _ _ _ Hnd HR) as HO1.
  assert (Hno : py_str (Kod dup) ∉ O1).
  { rewrite HO1, list_elem_of_filter. tauto. }
  apply remove_first_None in Hno. by rewrite Hno.
Qed.

Lemma reconcile_codes {E} (mk : string -> Z -> E) (code : E -> string)
    (F : list watch) (O O' : list string) (out : list E) :
  (forall c z, code (mk c z) = c) ->
  reconcile mk F O [] = (Ret out, O') ->
  code <$> (out ++ ((fun c => mk c 0%Z) <$> O')) ≡ₚ O.
Proof.
  intros Hcode HR.
  destruct (reconcile_Ret _ _ _ _ _ _ HR) as (cl & -> & _ & _ & _ & Hperm).
  simpl. rewrite fmap_app, <- !list_fmap_compose.
  rewrite (list_fmap_ext _ (fun p => py_str (Kod p.1)) cl)
    by (intros ? p _; apply Hcode).
  rewrite (list_fmap_ext _ id O') by (intros ? c _; apply Hcode).
  by rewrite list_fmap_id.
Qed.

(** C1, as amended: when, for every code in the duplicate-free list [O],
    the first feed record with that code has a quantity that the
    normalization accepts,
    [create_stocks] (of [seller.py] and of [market.py]) returns exactly [|O|]
    entries whose codes are a rearrangement of [O], hence without duplicate
    or omission; and a feed record whose code already occurred earlier in
    the feed is skipped: the call behaves as if the record were not in the
    feed. *)
Theorem create_stocks_covers_catalogue :
  forall (F : list watch) (O : list string) (offer_ids : loc) (w : world)
         (warehouse_id : string),
    NoDup O ->
    heap w !! offer_ids = Some O ->
    (forall watch, first_in_feed F watch -> py_str (Kod watch) ∈ O ->
                   exists z, Seller.stock_of watch = Ret z) ->
    (exists out w',
        Seller.create_stocks F offer_ids w = (Ret out, w')
        /\ length out = length O
        /\ Ozon.stock_offer_id <$> out ≡ₚ O
        /\ NoDup (Ozon.stock_offer_id <$> out))
    /\ (exists out w',
           Market.create_stocks F offer_ids warehouse_id w = (Ret out, w')
           /\ length out = length O
           /\ Yandex.sku <$> out ≡ₚ O
           /\ NoDup (Yandex.sku <$> out))
    /\ (forall F1 dup F2,
           F = F1 ++ dup :: F2 ->
           py_str (Kod dup) ∈ codes F1 ->
           Seller.create_stocks F offer_ids w
           = Seller.create_stocks (F1 ++ F2) offer_ids w
           /\ Market.create_stocks F offer_ids warehouse_id w
              = Market.create_stocks (F1 ++ F2) offer_ids warehouse_id w).
Proof.
  intros F O l w wh Hnd Hl Hok. split; [|split].
  - rewrite (seller_create_stocks_run F O l w Hl).
    destruct (reconcile_total ozon_entry F O [] Hnd Hok) as (out & O' & HR).
    rewrite HR. simpl. eexists _, _. split; [reflexivity|].
    pose proof (reconcile_codes ozon_entry Ozon.stock_offer_id F O O' out
                  (fun _ _ => eq_refl) HR) as Hperm.
    split; [|split; [done | by rewrite Hperm]].
    apply Permutation_length in Hperm. by rewrite length_fmap in Hperm.
  - pose proof (market_create_stocks_run F O l wh w Hl) as Hrun.
    cbv zeta in Hrun. revert Hrun.
    set (mk := fun c z => Market.sku_dict c wh z _). intros ->.
    destruct (reconcile_total mk F O [] Hnd Hok) as (out & O' & HR).
    rewrite HR. simpl. eexists _, _. split; [reflexivity|].
    pose proof (reconcile_codes mk Yandex.sku F O O' out
                  (fun _ _ => eq_refl) HR) as Hperm.
    split; [|split; [done | by rewrite Hperm]].
    apply Permutation_length in Hperm. by rewrite length_fmap in Hperm.
  - intros F1 dup F2 -> Hdup. split.
    + rewrite !(seller_create_stocks_run _ O l w Hl).
      by rewrite (reconcile_skip _ _ _ _ _ Hnd Hdup).
    + rewrite !(market_create_stocks_run _ O l wh w Hl).
      by rewrite (reconcile_skip _ _ _ _ _ Hnd Hdup).
Qed.

Lemma create_stocks_covers_catalogue_witness :
  (exists out w',
      Seller.create_stocks Scenario.feed_aa 0%nat Scenario.shop = (Ret out, w')
      /\ length out = length Scenario.abc
      /\ Ozon.stock_offer_id <$> out ≡ₚ Scenario.abc
      /\ NoDup (Ozon.stock_offer_id <$> out))
  /\ Seller.create_stocks Scenario.feed_aa 0%nat Scenario.shop
     = Seller.create_stocks
         ([Scenario.text_record "A" "7" "10.00"] ++ [Scenario.text_record "B" "0" "5"])
         0%nat Scenario.shop.
Proof.
  destruct (create_stocks_covers_catalogue Scenario.feed_aa Scenario.abc 0%nat
              Scenario.shop "wh") as (Hs & _ & Hskip).
  - compute_done.
  - reflexivity.
  - intros watch (F1 & F2 & HF & Hfirst) _. unfold Scenario.feed_aa in HF.
    destruct F1 as [|r1 [|r2 [|r3 F1]]]; simpl in HF.
    + injection HF as <- _. by exists 7%Z.
    + injection HF as <- <- _. exfalso. apply Hfirst. vm_compute. left.
    + injection HF as <- <- <- _. by exists 0%Z.
    + injection HF as _ _ _ HF. by destruct F1.
  - split; [exact Hs|].
    apply (Hskip [Scenario.text_record "A" "7" "10.00"]
                 (Scenario.text_record "A" "abc" "x")
                 [Scenario.text_record "B" "0" "5"]); [reflexivity|].
    vm_compute. left.
Defined.

(** C1, as stated, fails: on the catalogue [["A"]] and a feed whose record
    for ["A"] carries the quantity ["abc"], both [create_stocks] raise
    [ValueError] and return no entry at all. *)
Lemma create_stocks_raises_on_bad_quantity :
  NoDup ["A"]
  /\ heap Scenario.shop_a !! 0%nat = Some ["A"]
  /\ fst (Seller.create_stocks Scenario.feed_bad 0%nat Scenario.shop_a)
     = Raise ValueError
  /\ fst (Market.create_stocks Scenario.feed_bad 0%nat "wh" Scenario.shop_a)
     = Raise ValueError
  /\ ~ (exists out w',
          Seller.create_stocks Scenario.feed_bad 0%nat Scenario.shop_a = (Ret out, w')
          /\ length out = length ["A"]).
Proof.
  split; [compute_done|]. split; [reflexivity|].
  split; [vm_compute; reflexivity|]. split; [vm_compute; reflexivity|].
  intros (out & w' & H & _).
  apply (f_equal fst) in H. vm_compute in H. discriminate.
Qed.

(** The loop returns, whatever the list, when every record whose code is in
    the list has a quantity that [stock_of] accepts. *)
Lemma reconcile_returns {E} (mk : string -> Z -> E) (F : list watch) :
  forall O acc,
    (forall watch, watch ∈ F -> py_str (Kod watch) ∈ O ->
                   exists z, Seller.stock_of watch = Ret z) ->
    exists out O', reconcile mk F O acc = (Ret out, O').
Proof.
  induction F as [|watch F IH]; intros O acc Hok; simpl; [eauto|].
  destruct (remove_first _ O) as [O1|] eqn:Hrm.
  - destruct (remove_first_Some _ _ _ Hrm) as (Hin & Hperm & Hsub).
    destruct (Hok watch) as [z ->]; [left | done |].
    apply IH. intros w' Hw' Hc. apply Hok; [by right|].
    rewrite Hperm. by right.
  - apply IH. intros w' Hw' Hc. apply Hok; [by right | done].
Qed.

(** *** Which records are matched, and which identifiers are left *)

Lemma occurrences_app (c : string) (l1 l2 : list string) :
  occurrences c (l1 ++ l2) = occurrences c l1 + occurrences c l2.
Proof. induction l1 as [|x l1 IH]; simpl; [done|]. rewrite IH. lia. Qed.

Lemma occurrences_snoc (c x : string) (l : list string) :
  occurrences c (l ++ [x]) = occurrences c l + (if String.eqb x c then 1 else 0).
Proof. rewrite occurrences_app. simpl. lia. Qed.

Lemma remove_first_None_occurrences (c : string) (O : list string) :
  remove_first c O = None -> occurrences c O = 0.
Proof.
  induction O as [|o O IH]; simpl; [done|].
  destruct (String.eqb o c); [done|].
  destruct (remove_first c O); [done|]. intros _. by rewrite IH.
Qed.

Lemma remove_first_Some_occurrences (c : string) (O O1 : list string) :
  remove_first c O = Some O1 ->
  forall d, occurrences d O = (if String.eqb c d then 1 else 0) + occurrences d O1.
Proof.
  revert O1. induction O as [|o O IH]; intros O1; simpl; [done|].
  destruct (String.eqb_spec o c) as [->|Hne].
  - by intros [= <-] d.
  - destruct (remove_first c O) as [O2|]; [|done].
    intros [= <-] d. simpl. rewrite (IH O2 eq_refl d). lia.
Qed.

(** Whether a record is matched depends on [seen] and on the list only
    through the number of identifiers still to be had. *)
Lemma matched_after_same (F : list watch) :
  forall (seen seen1 O O1 : list string),
    (forall d k, (occurrences d seen + k <? occurrences d O)%nat
                 = (occurrences d seen1 + k <? occurrences d O1)%nat) ->
    matched_after seen F O = matched_after seen1 F O1.
Proof.
  induction F as [|watch F IH]; intros seen seen1 O O1 H; simpl; [done|].
  pose proof (H (py_str (Kod watch)) 0) as H0. rewrite !Nat.add_0_r in H0.
  rewrite H0.
  rewrite (IH (seen ++ [py_str (Kod watch)]) (seen1 ++ [py_str (Kod watch)]) O O1);
    [done|].
  intros d k. rewrite !occurrences_snoc, <- !Nat.add_assoc. apply H.
Qed.

Lemma occurrences_cons (c x : string) (l : list string) :
  occurrences c (x :: l) = (if String.eqb x c then 1 else 0) + occurrences c l.
Proof. reflexivity. Qed.

Lemma codes_cons (F : list watch) (record : watch) :
  codes (record :: F) = py_str (Kod record) :: codes F.
Proof. reflexivity. Qed.

Ltac compare_counts :=
  apply Bool.eq_iff_eq_true; rewrite ?Nat.leb_le, ?Nat.ltb_lt; lia.

Lemma matched_claims (F : list watch) (watch : watch) (O O1 : list string) :
  remove_first (py_str (Kod watch)) O = Some O1 ->
  matched (watch :: F) O = watch :: matched F O1.
Proof.
  intros Hrm. pose proof (remove_first_Some_occurrences _ _ _ Hrm) as Hocc.
  unfold matched. cbn [matched_after].
  assert ((occurrences (py_str (Kod watch)) [] <? occurrences (py_str (Kod watch)) O)%nat
          = true) as ->.
  { apply Nat.ltb_lt. rewrite (Hocc (py_str (Kod watch))), String.eqb_refl.
    cbn [occurrences]. lia. }
  f_equal. apply matched_after_same. intros d k.
  rewrite occurrences_snoc, (Hocc d). cbn [occurrences].
  destruct (String.eqb (py_str (Kod watch)) d); compare_counts.
Qed.

Lemma matched_skips (F : list watch) (watch : watch) (O : list string) :
  remove_first (py_str (Kod watch)) O = None ->
  matched (watch :: F) O = matched F O.
Proof.
  intros Hrm. apply remove_first_None_occurrences in Hrm.
  unfold matched. cbn [matched_after]. rewrite Hrm. cbn [occurrences Nat.ltb Nat.leb].
  apply matched_after_same. intros d k.
  rewrite occurrences_snoc. cbn [occurrences].
  destruct (String.eqb_spec (py_str (Kod watch)) d) as [<-|_];
    [rewrite Hrm|]; compare_counts.
Qed.

(** Whether an identifier stays depends on the feed only through the
    number of records that carry it. *)
Lemma unmatched_after_same (O : list string) :
  forall (seen seen1 : list string) (F F1 : list watch),
    (forall d k, d ∈ O ->
       (occurrences d (codes F) <=? occurrences d seen + k)%nat
       = (occurrences d (codes F1) <=? occurrences d seen1 + k)%nat) ->
    unmatched_after seen F O = unmatched_after seen1 F1 O.
Proof.
  induction O as [|c O IH]; intros seen seen1 F F1 H; simpl; [done|].
  pose proof (H c 0 ltac:(left)) as H0. rewrite !Nat.add_0_r in H0. rewrite H0.
  rewrite (IH (seen ++ [c]) (seen1 ++ [c]) F F1); [done|].
  intros d k Hd. rewrite !occurrences_snoc, <- !Nat.add_assoc. apply H. by right.
Qed.

Lemma unmatched_no_feed (O : list string) :
  forall seen, unmatched_after seen [] O = O.
Proof.
  induction O as [|c O IH]; intros seen; simpl; [done|]. by rewrite IH.
Qed.

Lemma unmatched_after_claims (F : list watch) (watch : watch) (O : list string) :
  forall (seen O1 : list string),
    remove_first (py_str (Kod watch)) O = Some O1 ->
    occurrences (py_str (Kod watch)) seen <= occurrences (py_str (Kod watch)) (codes F) ->
    unmatched_after seen (watch :: F) O = unmatched_after seen F O1.
Proof.
  induction O as [|o O IH]; intros seen O1; cbn [remove_first]; [done|].
  destruct (String.eqb_spec o (py_str (Kod watch))) as [->|Hne].
  - intros [= <-] Hseen. cbn [unmatched_after].
    assert ((occurrences (py_str (Kod watch)) (codes (watch :: F))
             <=? occurrences (py_str (Kod watch)) seen)%nat = false) as ->.
    { apply Nat.leb_gt. rewrite codes_cons, occurrences_cons, String.eqb_refl. lia. }
    apply unmatched_after_same. intros d k _.
    rewrite occurrences_snoc, codes_cons, occurrences_cons.
    destruct (String.eqb (py_str (Kod watch)) d); compare_counts.
  - destruct (remove_first _ O) as [O2|] eqn:Hrm; [|done].
    intros [= <-] Hseen. cbn [unmatched_after].
    assert (Hno : String.eqb (py_str (Kod watch)) o = false).
    { apply String.eqb_neq. congruence. }
    assert (Hno' : String.eqb o (py_str (Kod watch)) = false)
      by by apply String.eqb_neq.
    rewrite codes_cons, occurrences_cons, Hno, Nat.add_0_l.
    rewrite (IH (seen ++ [o]) O2 eq_refl); [done|].
    rewrite occurrences_snoc, Hno'. lia.
Qed.

Lemma unmatched_claims (F : list watch) (watch : watch) (O O1 : list string) :
  remove_first (py_str (Kod watch)) O = Some O1 ->
  unmatched (watch :: F) O = unmatched F O1.
Proof.
  intros Hrm. apply (unmatched_after_claims F watch O [] O1 Hrm). simpl. lia.
Qed.

Lemma unmatched_skips (F : list watch) (watch : watch) (O : list string) :
  remove_first (py_str (Kod watch)) O = None ->
  unmatched (watch :: F) O = unmatched F O.
Proof.
  intros Hrm. apply remove_first_None in Hrm.
  apply unmatched_after_same. intros d k Hd.
  rewrite codes_cons, occurrences_cons.
  assert (String.eqb (py_str (Kod watch)) d = false) as ->; [|done].
  apply String.eqb_neq. intros <-. done.
Qed.

(** The loop of [create_stocks] appends the entries of the matched records
    and leaves the unmatched identifiers in the list. *)
Lemma reconcile_order {E} (mk : string -> Z -> E) (F : list watch) :
  forall (O : list string) (acc out : list E) (O' : list string),
    reconcile mk F O acc = (Ret out, O') ->
    exists stocks : list Z,
      Forall2 (fun watch z => Seller.stock_of watch = Ret z) (matched F O) stocks
      /\ out = acc ++ zip_with mk (codes (matched F O)) stocks
      /\ O' = unmatched F O.
Proof.
  induction F as [|watch F IH]; intros O acc out O' HR; simpl in HR.
  - injection HR as <- <-. exists []. split; [constructor|].
    split; [by rewrite app_nil_r|]. symmetry. apply unmatched_no_feed.
  - destruct (remove_first _ O) as [O1|] eqn:Hrm.
    + destruct (Seller.stock_of watch) as [z|e|] eqn:Hz; [|done|done].
      destruct (IH _ _ _ _ HR) as (stocks & Hall & -> & ->).
      exists (z :: stocks).
      rewrite (matched_claims _ _ _ _ Hrm), (unmatched_claims _ _ _ _ Hrm).
      split; [by constructor|]. split; [|done].
      by rewrite <- app_assoc.
    + destruct (IH _ _ _ _ HR) as (stocks & Hall & -> & ->).
      exists stocks.
      by rewrite (matched_skips _ _ _ Hrm), (unmatched_skips _ _ _ Hrm).
Qed.

Lemma reconcile_feed_then_rest {E} (mk : string -> Z -> E) (F : list watch)
    (O O' : list string) (out : list E) :
  reconcile mk F O [] = (Ret out, O') ->
  feed_then_rest mk F O (out ++ ((fun c => mk c 0%Z) <$> O')).
Proof.
  intros HR. destruct (reconcile_order mk F O [] out O' HR) as (stocks & Hall & -> & ->).
  by exists stocks.
Qed.

(** The relation leaves no choice: it holds of one list only. *)
Lemma feed_then_rest_unique {E} (mk : string -> Z -> E) (F : list watch)
    (O : list string) (out1 out2 : list E) :
  feed_then_rest mk F O out1 -> feed_then_rest mk F O out2 -> out1 = out2.
Proof.
  intros (s1 & H1 & ->) (s2 & H2 & ->). do 2 f_equal.
  revert s2 H2. induction H1 as [|watch z ws zs Hz _ IH]; intros s2 H2;
    inversion H2 as [|? z' ? zs' Hz' Hrest]; subst; [done|].
  f_equal; [congruence | by apply IH].
Qed.

(** The order is that of the feed, not that of the list: with the
    identifiers A, B and a feed that has B before A, the entries come as
    B, A, and the list of zero entries in identifier order does not
    qualify. *)
Example feed_order_comes_first :
  let F := [Scenario.text_record "B" "5" "1.00"; Scenario.text_record "A" "7" "1.00"] in
  fst (Seller.create_stocks F 0%nat (Scenario.holding ["A"; "B"] Scenario.two_pages))
  = Ret [ozon_entry "B" 5; ozon_entry "A" 7]
  /\ feed_then_rest ozon_entry F ["A"; "B"] [ozon_entry "B" 5; ozon_entry "A" 7]
  /\ ~ feed_then_rest ozon_entry F ["A"; "B"] [ozon_entry "A" 0; ozon_entry "B" 0].
Proof.
  intros F.
  assert (Hreal : feed_then_rest ozon_entry F ["A"; "B"]
                    [ozon_entry "B" 5; ozon_entry "A" 7]).
  { exists [5%Z; 7%Z]. split; [by repeat constructor | reflexivity]. }
  split; [reflexivity|]. split; [exact Hreal|].
  intros Hzero. by pose proof (feed_then_rest_unique _ _ _ _ _ Hreal Hzero).
Qed.

(** A record at a given place of the feed is matched exactly when the list
    holds its code more often than the records before it carry it. *)
Lemma matched_after_app (F1 F2 : list watch) (O : list string) :
  forall seen,
    matched_after seen (F1 ++ F2) O
    = matched_after seen F1 O ++ matched_after (seen ++ codes F1) F2 O.
Proof.
  induction F1 as [|watch F1 IH]; intros seen; simpl.
  - by rewrite app_nil_r.
  - rewrite IH, <- app_assoc. simpl.
    by destruct (_ <? _)%nat.
Qed.

(** With a duplicate-free list the identifiers left are those that the
    feed does not carry. *)
Lemma unmatched_after_NoDup (F : list watch) (O : list string) :
  forall seen,
    NoDup O -> (forall c, c ∈ O -> occurrences c seen = 0) ->
    unmatched_after seen F O = filter (fun c => c ∉ codes F) O.
Proof.
  assert (Hzero : forall c l, occurrences c l = 0 <-> c ∉ l).
  { intros c l. induction l as [|x l IH]; simpl.
    - split; [intros _; apply not_elem_of_nil | done].
    - rewrite not_elem_of_cons, <- IH.
      destruct (String.eqb_spec x c) as [->|Hne]; simpl; [|split; [|tauto]].
      + split; [lia | intros [? _]; done].
      + intros ->. split; [congruence | done]. }
  induction O as [|c O IH]; intros seen Hnd Hseen; simpl; [done|].
  apply NoDup_cons in Hnd as [Hc Hnd].
  rewrite (Hseen c) by left.
  rewrite IH; [|done|].
  - rewrite filter_cons.
    destruct (Nat.leb_spec (occurrences c (codes F)) 0) as [Hle|Hgt].
    + rewrite decide_True; [done|]. apply Hzero. lia.
    + rewrite decide_False; [done|]. intros Hno. apply Hzero in Hno. lia.
  - intros d Hd. rewrite occurrences_snoc, (Hseen d) by by right.
    assert (String.eqb c d = false) as ->; [|done].
    apply String.eqb_neq. intros ->. done.
Qed.

(** C2: whatever list [create_stocks] returns consists of the entries of
    the matched feed records -- every record that finds its code still in
    the list, and no other -- in feed order, each with the count that the
    normalization gives for it, followed by the zero entries of the
    identifiers that no record was matched with, in the order of the
    identifier list; it does return a list when the quantities of the
    records whose code is in the list are accepted by the normalization;
    and for the catalogue A, B, C with a feed that gives A the quantity
    [">10"] and B the quantity ["1"], the result is A:100, B:0, C:0. *)
Theorem create_stocks_order :
  forall (F : list watch) (O : list string) (offer_ids : loc) (w : world)
         (warehouse_id : string),
    heap w !! offer_ids = Some O ->
    (forall out w',
        Seller.create_stocks F offer_ids w = (Ret out, w') ->
        feed_then_rest ozon_entry F O out)
    /\ (forall out w',
           Market.create_stocks F offer_ids warehouse_id w = (Ret out, w') ->
           exists date,
             feed_then_rest (fun c z => Market.sku_dict c warehouse_id z date) F O out)
    /\ ((forall watch, watch ∈ F -> py_str (Kod watch) ∈ O ->
                       exists z, Seller.stock_of watch = Ret z) ->
        (exists out w', Seller.create_stocks F offer_ids w = (Ret out, w'))
        /\ (exists out w',
               Market.create_stocks F offer_ids warehouse_id w = (Ret out, w')))
    /\ fst (Seller.create_stocks Scenario.feed_ab 0%nat Scenario.shop)
       = Ret [ {| Ozon.stock_offer_id := "A"; Ozon.stock := 100 |};
               {| Ozon.stock_offer_id := "B"; Ozon.stock := 0 |};
               {| Ozon.stock_offer_id := "C"; Ozon.stock := 0 |} ]
    /\ fst (Market.create_stocks Scenario.feed_ab 0%nat "143645" Scenario.shop)
       = Ret [ Market.sku_dict "A" "143645" 100 "2023-08-13T19:50:00Z";
               Market.sku_dict "B" "143645" 0 "2023-08-13T19:50:00Z";
               Market.sku_dict "C" "143645" 0 "2023-08-13T19:50:00Z" ].
Proof.
  intros F O l w wh Hl. split; [|split; [|split; [|split]]].
  - intros out w'. rewrite (seller_create_stocks_run F O l w Hl).
    destruct (reconcile ozon_entry F O []) as [[o|e|] O'] eqn:HR; simpl;
      [|done|done].
    intros [= <- _]. by apply reconcile_feed_then_rest.
  - intros out w'.
    pose proof (market_create_stocks_run F O l wh w Hl) as Hrun.
    cbv zeta in Hrun. revert Hrun.
    set (date := stamp _).
    set (mk := fun c z => Market.sku_dict c wh z date). intros ->.
    destruct (reconcile mk F O []) as [[o|e|] O'] eqn:HR; simpl; [|done|done].
    intros [= <- _]. exists date. by apply (reconcile_feed_then_rest mk).
  - intros Hok. split.
    + rewrite (seller_create_stocks_run F O l w Hl).
      destruct (reconcile_returns ozon_entry F O [] Hok) as (out & O' & ->).
      simpl. eauto.
    + pose proof (market_create_stocks_run F O l wh w Hl) as Hrun.
      cbv zeta in Hrun. revert Hrun.
      set (mk := fun c z => Market.sku_dict c wh z _). intros ->.
      destruct (reconcile_returns mk F O [] Hok) as (out & O' & ->).
      simpl. eauto.
  - vm_compute. reflexivity.
  - vm_compute. reflexivity.
Qed.

Lemma create_stocks_order_witness :
  heap Scenario.shop !! 0%nat = Some Scenario.abc
  /\ feed_then_rest ozon_entry Scenario.feed_ab Scenario.abc
       [ ozon_entry "A" 100; ozon_entry "B" 0; ozon_entry "C" 0 ].
Proof.
  split; [reflexivity|].
  destruct (create_stocks_order Scenario.feed_ab Scenario.abc 0%nat Scenario.shop
              "143645" eq_refl) as (Hs & _).
  eapply Hs. vm_compute. reflexivity.
Defined.

(** ** Calling [create_stocks] twice *)

Lemma twice_fst {A} (create : loc -> M A) (O : list string) (w : world) :
  fst (twice create O w)
  = obind (fst (on_copy create O w))
      (fun r1 => obind (fst (on_copy create O (snd (on_copy create O w))))
                   (fun r2 => Ret (r1, r2))).
Proof.
  unfold twice, bind.
  destruct (on_copy create O w) as [[r1|e|] w1]; simpl; [|done|done].
  destruct (on_copy create O w1) as [[r2|e|] w2]; done.
Qed.

Lemma seller_on_copy (F : list watch) (O : list string) (w : world) :
  fst (on_copy (Seller.create_stocks F) O w) = stocks_result ozon_entry F O.
Proof.
  unfold on_copy, bind, new_list.
  by rewrite (seller_create_stocks_run F O) by apply lookup_insert_eq.
Qed.

Lemma market_on_copy (F : list watch) (O : list string) (warehouse_id : string)
    (w : world) :
  fst (on_copy (fun l => Market.create_stocks F l warehouse_id) O w)
  = stocks_result
      (fun c z => Market.sku_dict c warehouse_id z
                    (stamp (clock (outside w) (length (log w))))) F O
  /\ log (snd (on_copy (fun l => Market.create_stocks F l warehouse_id) O w))
     = log w ++ [ClockRead]
  /\ outside (snd (on_copy (fun l => Market.create_stocks F l warehouse_id) O w))
     = outside w.
Proof.
  unfold on_copy, bind, new_list.
  by rewrite (market_create_stocks_run F O) by apply lookup_insert_eq.
Qed.

Lemma reconcile_map {E E'} (g : E -> E') (mk : string -> Z -> E) (F : list watch) :
  forall O acc,
    reconcile (fun c z => g (mk c z)) F O (g <$> acc)
    = (outcome_map (fmap g) (fst (reconcile mk F O acc)),
       snd (reconcile mk F O acc)).
Proof.
  induction F as [|watch F IH]; intros O acc; simpl; [done|].
  destruct (remove_first _ O) as [O1|]; [|apply IH].
  destruct (Seller.stock_of watch) as [z|e|]; [|done|done].
  rewrite <- IH. by rewrite fmap_app.
Qed.

Lemma stocks_result_map {E E'} (g : E -> E') (mk : string -> Z -> E)
    (F : list watch) (O : list string) :
  stocks_result (fun c z => g (mk c z)) F O
  = outcome_map (fmap g) (stocks_result mk F O).
Proof.
  unfold stocks_result.
  pose proof (reconcile_map g mk F O []) as Hmap.
  rewrite fmap_nil in Hmap. rewrite Hmap. simpl.
  destruct (reconcile mk F O []) as [[out|e|] O']; simpl; [|done|done].
  by rewrite fmap_app, <- list_fmap_compose.
Qed.

(** C7, as amended: two calls of [create_stocks] of [seller.py], each on a
    fresh copy of the same list, end alike: both return the same list, or
    the first already raises.  For [create_stocks] of [market.py] this holds
    when the clock shows the same second at both calls; in general the
    second result is the first one with the second call's time stamp. *)
Theorem create_stocks_repeatable :
  forall (F : list watch) (O : list string) (warehouse_id : string) (w : world),
    fst (twice (Seller.create_stocks F) O w)
    = obind (fst (on_copy (Seller.create_stocks F) O w)) (fun r => Ret (r, r))
    /\ (stamp (clock (outside w) (length (log w)))
        = stamp (clock (outside w) (S (length (log w)))) ->
        fst (twice (fun l => Market.create_stocks F l warehouse_id) O w)
        = obind (fst (on_copy (fun l => Market.create_stocks F l warehouse_id) O w))
                (fun r => Ret (r, r)))
    /\ (forall r1 r2,
           fst (twice (fun l => Market.create_stocks F l warehouse_id) O w)
           = Ret (r1, r2) ->
           r2 = restamp (stamp (clock (outside w) (S (length (log w))))) <$> r1).
Proof.
  intros F O wh w. split; [|split].
  - rewrite twice_fst, !seller_on_copy.
    by destruct (stocks_result ozon_entry F O).
  - intros Hsame. rewrite twice_fst.
    destruct (market_on_copy F O wh w) as (-> & Hlog & Hout).
    destruct (market_on_copy F O wh
                (snd (on_copy (fun l => Market.create_stocks F l wh) O w)))
      as (-> & _ & _).
    rewrite Hlog, Hout, length_app, Nat.add_1_r, <- Hsame.
    by destruct (stocks_result _ F O).
  - intros r1 r2. rewrite twice_fst.
    destruct (market_on_copy F O wh w) as (-> & Hlog & Hout).
    destruct (market_on_copy F O wh
                (snd (on_copy (fun l => Market.create_stocks F l wh) O w)))
      as (-> & _ & _).
    rewrite Hlog, Hout, length_app, Nat.add_1_r.
    set (d1 := stamp (clock (outside w) (length (log w)))).
    set (d2 := stamp (clock (outside w) (S (length (log w))))).
    change (fun c z => Market.sku_dict c wh z d2)
      with (fun c z => restamp d2 (Market.sku_dict c wh z d1)).
    rewrite (stocks_result_map (restamp d2)).
    destruct (stocks_result _ F O) as [out|e|]; simpl; [|done|done].
    by intros [= <- <-].
Qed.

Lemma create_stocks_repeatable_witness :
  stamp (clock (outside Scenario.frozen) (length (log Scenario.frozen)))
  = stamp (clock (outside Scenario.frozen) (S (length (log Scenario.frozen))))
  /\ fst (twice (fun l => Market.create_stocks Scenario.feed_ab l "143645")
            Scenario.abc Scenario.frozen)
     = obind (fst (on_copy (fun l => Market.create_stocks Scenario.feed_ab l "143645")
                     Scenario.abc Scenario.frozen))
             (fun r => Ret (r, r)).
Proof.
  split; [reflexivity|].
  apply (create_stocks_repeatable Scenario.feed_ab Scenario.abc "143645" Scenario.frozen).
  reflexivity.
Defined.

(** C7, as stated, fails for [market.py]: with a clock that has moved on by
    a second between the two calls, the same feed, the same warehouse and a
    fresh copy of the same list give two different results. *)
Lemma market_create_stocks_depends_on_clock :
  exists r1 r2,
    fst (twice (fun l => Market.create_stocks Scenario.feed_ab l "143645")
           Scenario.abc Scenario.running)
    = Ret (r1, r2)
    /\ r1 <> r2.
Proof.
  eexists _, _. split; [vm_compute; reflexivity|]. discriminate.
Qed.

(** ** Text and numbers *)

Lemma digit_not_space (c : ascii) : is_digit c = true -> is_space c = false.
Proof.
  unfold is_digit, is_space. intros H.
  apply andb_true_iff in H as [H1 H2].
  apply Nat.leb_le in H1, H2.
  apply orb_false_iff. split; [apply andb_false_iff; right|].
  - apply Nat.leb_gt. lia.
  - apply Nat.eqb_neq. lia.
Qed.

Lemma digits_ascii (s : string) : all_digits s = true -> is_ascii s = true.
Proof.
  induction s as [|c s IH]; simpl; [done|].
  intros H. apply andb_true_iff in H as [Hc Hs].
  rewrite (IH Hs), andb_true_r.
  unfold is_digit in Hc. apply andb_true_iff in Hc as [_ Hc].
  apply Nat.leb_le in Hc. apply Nat.ltb_lt. lia.
Qed.

(** On ASCII text [int] is the parser itself. *)
Lemma int_of_ascii (s : string) :
  is_ascii s = true -> int_of_str s = long_from_string s.
Proof. intros H. unfold int_of_str. by rewrite H. Qed.

(** The parser ends with a number or with [ValueError]. *)
Lemma long_from_string_outcome (s : string) :
  (exists z, long_from_string s = Ret z) \/ long_from_string s = Raise ValueError.
Proof.
  unfold long_from_string.
  destruct (match strip s with
            | String "+"%char r => parse_digits 0 false r
            | String "-"%char r => Z.opp <$> parse_digits 0 false r
            | t => parse_digits 0 false t
            end); [left; eauto | by right].
Qed.

Lemma int_of_str_outcome (s : string) :
  (exists z, int_of_str s = Ret z) \/ int_of_str s = Raise ValueError.
Proof.
  unfold int_of_str. destruct (is_ascii s); [apply long_from_string_outcome|].
  destruct (code_points s); [apply long_from_string_outcome | by right].
Qed.

Lemma digit_not_sign (c : ascii) :
  is_digit c = true -> c <> "+"%char /\ c <> "-"%char /\ c <> "_"%char.
Proof.
  intros H. repeat split; intros ->; vm_compute in H; discriminate.
Qed.

Lemma rstrip_digits (s : string) : all_digits s = true -> rstrip s = s.
Proof.
  induction s as [|c s IH]; simpl; [done|].
  intros H. apply andb_true_iff in H as [Hc Hs].
  rewrite (IH Hs), (digit_not_space c Hc). by destruct s.
Qed.

Lemma strip_digits (s : string) : all_digits s = true -> strip s = s.
Proof.
  intros H. unfold strip.
  assert (lstrip s = s) as ->; [|by apply rstrip_digits].
  destruct s as [|c s]; simpl; [done|].
  simpl in H. apply andb_true_iff in H as [Hc _].
  by rewrite (digit_not_space c Hc).
Qed.

Lemma parse_digits_all (s : string) :
  forall acc, all_digits s = true -> parse_digits acc true s = Some (decimal acc s).
Proof.
  induction s as [|c s IH]; intros acc H; simpl; [done|].
  simpl in H. apply andb_true_iff in H as [Hc Hs].
  rewrite Hc. by apply IH.
Qed.

(** [int] of a non-empty text of digits is the number the text denotes. *)
Lemma int_of_digits (s : string) :
  all_digits s = true -> s <> "" -> int_of_str s = Ret (decimal 0 s).
Proof.
  intros H Hne. rewrite (int_of_ascii s (digits_ascii s H)).
  unfold long_from_string. rewrite (strip_digits s H).
  destruct s as [|c s]; [done|].
  simpl in H. apply andb_true_iff in H as [Hc Hs].
  destruct (digit_not_sign c Hc) as (Hplus & Hminus & _).
  assert (Hparse : parse_digits 0 false (String c s) = Some (decimal 0 (String c s))).
  { simpl. rewrite Hc. by apply parse_digits_all. }
  destruct c as [[] [] [] [] [] [] [] []]; try (by rewrite Hparse); done.
Qed.

Lemma int_of_empty : int_of_str "" = Raise ValueError.
Proof. reflexivity. Qed.

(** [int] reads the decimal digits of every script (here the Arabic-Indic
    digits one and two, and a fullwidth seven) and skips the white space of
    Unicode (here a no-break space), takes a sign and single underscores
    between digits, but does not skip the separators [0x1c] to [0x1f]. *)
Example int_of_other_scripts :
  int_of_str "١٢" = Ret 12%Z
  /\ int_of_str "７" = Ret 7%Z
  /\ int_of_str (String "194"%char (String "160"%char "7")) = Ret 7%Z
  /\ int_of_str " -1_000 " = Ret (-1000)%Z
  /\ int_of_str (String "028"%char "7") = Raise ValueError
  /\ int_of_str "١٢ шт" = Raise ValueError.
Proof. repeat split. Qed.

(** C3, as amended: the quantity normalization of [create_stocks] maps the
    text [">10"] to 100, the text ["1"] to 0 and every other non-empty text
    of decimal digits to the number it denotes (["7"] to 7, ["0"] to 0); on
    any other text it is [int] of that text, and it ends either with a
    number or with [ValueError]. *)
Theorem stock_of_policy :
  forall (watch : watch) (s : string),
    Kolichestvo watch = PStr s ->
    (s = ">10" -> Seller.stock_of watch = Ret 100%Z)
    /\ (s = "1" -> Seller.stock_of watch = Ret 0%Z)
    /\ (all_digits s = true -> s <> "" -> s <> "1" ->
        Seller.stock_of watch = Ret (decimal 0 s))
    /\ (s = "7" -> Seller.stock_of watch = Ret 7%Z)
    /\ (s = "0" -> Seller.stock_of watch = Ret 0%Z)
    /\ (s <> ">10" -> s <> "1" -> Seller.stock_of watch = int_of_str s)
    /\ ((exists z, Seller.stock_of watch = Ret z)
        \/ Seller.stock_of watch = Raise ValueError).
Proof.
  intros watch s Hq. unfold Seller.stock_of. rewrite Hq. simpl.
  assert (Hother : s <> ">10" -> s <> "1" ->
            (if String.eqb s ">10" then Ret 100%Z
             else if String.eqb s "1" then Ret 0%Z else int_of_str s)
            = int_of_str s).
  { intros H1 H2. apply String.eqb_neq in H1, H2. by rewrite H1, H2. }
  repeat split.
  - by intros ->.
  - by intros ->.
  - intros Hd Hne H1. rewrite Hother; [by apply int_of_digits | | done].
    intros ->. discriminate.
  - by intros ->.
  - by intros ->.
  - done.
  - destruct (String.eqb s ">10"); [left; eauto|].
    destruct (String.eqb s "1"); [left; eauto|].
    apply int_of_str_outcome.
Qed.

Lemma stock_of_policy_witness :
  Kolichestvo (Scenario.text_record "48852" "12" "5.00") = PStr "12"
  /\ Seller.stock_of (Scenario.text_record "48852" "12" "5.00") = Ret 12%Z.
Proof.
  split; [reflexivity|].
  destruct (stock_of_policy (Scenario.text_record "48852" "12" "5.00") "12" eq_refl)
    as (_ & _ & Hdigits & _).
  apply Hdigits; [reflexivity | discriminate | discriminate].
Defined.

(** C3, as stated, fails: the normalization is not total.  On the quantity
    ["abc"], and on the empty quantity of an empty cell, it raises
    [ValueError]. *)
Lemma stock_of_not_total :
  Seller.stock_of (Scenario.text_record "A" "abc" "10.00") = Raise ValueError
  /\ Seller.stock_of (Scenario.text_record "A" "" "10.00") = Raise ValueError
  /\ ~ (forall s, exists z, Seller.stock_of (Scenario.text_record "A" s "10.00") = Ret z).
Proof.
  split; [reflexivity|]. split; [reflexivity|].
  intros H. destruct (H "abc") as [z Hz]. vm_compute in Hz. discriminate.
Qed.

(** ** Prices *)

Lemma split_before_dot (s : string) :
  exists tail, split "."%char s = before_dot s :: tail.
Proof.
  induction s as [|c s [tail IH]]; simpl; [by exists []|].
  destruct (Ascii.eqb c "."%char); [eauto|].
  rewrite IH. eauto.
Qed.

Lemma re_sub_filter (t : string) :
  list_ascii_of_string (re_sub_non_digits t)
  = List.filter is_digit (list_ascii_of_string t).
Proof.
  induction t as [|c t IH]; simpl; [done|].
  destruct (is_digit c); simpl; by rewrite IH.
Qed.

Lemma re_sub_all_digits (t : string) : all_digits (re_sub_non_digits t) = true.
Proof.
  induction t as [|c t IH]; simpl; [done|].
  destruct (is_digit c) eqn:Hc; simpl; [by rewrite Hc|done].
Qed.

Lemma price_conversion_text (s : string) :
  Seller.price_conversion (PStr s) = Ret (re_sub_non_digits (before_dot s)).
Proof.
  unfold Seller.price_conversion, index.
  destruct (split_before_dot s) as [tail ->]. reflexivity.
Qed.

Lemma int_of_price_digits (t : string) :
  int_of_str (re_sub_non_digits t)
  = if String.eqb (re_sub_non_digits t) "" then Raise ValueError
    else Ret (decimal 0 (re_sub_non_digits t)).
Proof.
  destruct (String.eqb_spec (re_sub_non_digits t) "") as [->|Hne]; [done|].
  apply int_of_digits; [apply re_sub_all_digits | done].
Qed.

(** C4, as amended: [price_conversion] takes the part of the text before
    the first full stop, deletes every character that is not one of the
    digits 0-9 and returns what is left, as text -- the empty text when no
    digit is left, without failing; [create_prices] of [seller.py] sends
    that text as the price.  [create_prices] of [market.py] reads the text
    as a base-ten number, and raises [ValueError] when the text is empty. *)
Theorem price_conversion_digits :
  forall (watch : watch) (s : string) (offer_ids : loc) (w : world),
    Tsena watch = PStr s ->
    py_str (Kod watch) ∈ contents offer_ids w ->
    Seller.price_conversion (Tsena watch) = Ret (re_sub_non_digits (before_dot s))
    /\ list_ascii_of_string (re_sub_non_digits (before_dot s))
       = List.filter is_digit (list_ascii_of_string (before_dot s))
    /\ fst (Seller.create_prices [watch] offer_ids w)
       = Ret [ {| Ozon.auto_action_enabled := "UNKNOWN";
                  Ozon.currency_code := "RUB";
                  Ozon.price_offer_id := py_str (Kod watch);
                  Ozon.old_price := "0";
                  Ozon.price := re_sub_non_digits (before_dot s) |} ]
    /\ fst (Market.create_prices [watch] offer_ids w)
       = (if String.eqb (re_sub_non_digits (before_dot s)) ""
          then Raise ValueError
          else Ret [ {| Yandex.offer := py_str (Kod watch);
                        Yandex.offer_price :=
                          {| Yandex.value := decimal 0 (re_sub_non_digits (before_dot s));
                             Yandex.currencyId := "RUR" |} |} ])
    /\ Seller.price_conversion (PStr "24'570.00 руб.") = Ret "24570"
    /\ obind (Seller.price_conversion (PStr "24'570.00 руб.")) int_of_str = Ret 24570%Z
    /\ Seller.price_conversion (PStr "1,234.56") = Ret "1234"
    /\ obind (Seller.price_conversion (PStr "1,234.56")) int_of_str = Ret 1234%Z
    /\ Seller.price_conversion (PStr "abc.00") = Ret ""
    /\ obind (Seller.price_conversion (PStr "abc.00")) int_of_str = Raise ValueError.
Proof.
  intros watch s l w Hp Hin. apply contains_true in Hin.
  split; [by rewrite Hp, price_conversion_text|].
  split; [apply re_sub_filter|].
  split; [|split].
  - unfold Seller.create_prices. simpl.
    unfold bind at 1, bind at 1, list_contains. rewrite Hin.
    unfold bind at 1, lift. by rewrite Hp, price_conversion_text.
  - unfold Market.create_prices. simpl.
    unfold bind at 1, bind at 1, list_contains. rewrite Hin.
    unfold bind at 1, lift at 1. rewrite Hp, price_conversion_text.
    unfold bind at 1, lift. rewrite int_of_price_digits.
    by destruct (String.eqb _ "").
  - repeat split; reflexivity.
Qed.

Lemma price_conversion_digits_witness :
  Tsena (Scenario.text_record "A" ">10" "24'570.00 руб.") = PStr "24'570.00 руб."
  /\ "A" ∈ contents 0%nat Scenario.shop
  /\ fst (Market.create_prices [Scenario.text_record "A" ">10" "24'570.00 руб."]
            0%nat Scenario.shop)
     = Ret [ {| Yandex.offer := "A";
                Yandex.offer_price :=
                  {| Yandex.value := 24570; Yandex.currencyId := "RUR" |} |} ].
Proof.
  assert (Hin : "A" ∈ contents 0%nat Scenario.shop) by (vm_compute; left).
  split; [reflexivity|]. split; [exact Hin|].
  destruct (price_conversion_digits (Scenario.text_record "A" ">10" "24'570.00 руб.")
              "24'570.00 руб." 0%nat Scenario.shop eq_refl Hin)
    as (_ & _ & _ & Hmarket & _).
  exact Hmarket.
Defined.

(** C4, as stated, fails for [seller.py]: on ["abc.00"] the price
    normalization returns a value, the empty text, and [create_prices]
    builds a price entry with it; nothing is raised. *)
Lemma price_conversion_returns_empty_text :
  Seller.price_conversion (PStr "abc.00") = Ret ""
  /\ fst (Seller.create_prices [Scenario.text_record "A" "5" "abc.00"] 0%nat
            Scenario.shop_a)
     = Ret [ {| Ozon.auto_action_enabled := "UNKNOWN";
                Ozon.currency_code := "RUB";
                Ozon.price_offer_id := "A";
                Ozon.old_price := "0";
                Ozon.price := "" |} ]
  /\ ~ (exists e, Seller.price_conversion (PStr "abc.00") = Raise e).
Proof.
  split; [reflexivity|]. split; [vm_compute; reflexivity|].
  intros [e He]. vm_compute in He. discriminate.
Qed.

(** ** Batches *)

Lemma concat_chunks {A} (lst : list A) (N m : nat) :
  concat ((fun k => take N (drop (k * N) lst)) <$> seq 0 m) = take (m * N) lst.
Proof.
  induction m as [|m IH]; [done|].
  rewrite seq_S, fmap_app, concat_app, IH. simpl.
  rewrite app_nil_r, take_take_drop. f_equal. lia.
Qed.

(** A slice that starts inside the list is a [take] after a [drop]. *)
Lemma slice_chunk {A} (lst : list A) (n : Z) (k : nat) :
  (0 < n)%Z -> k * Z.to_nat n <= length lst ->
  slice lst (0 + Z.of_nat k * n) (0 + Z.of_nat k * n + n)
  = take (Z.to_nat n) (drop (k * Z.to_nat n) lst).
Proof.
  intros Hn Hk. unfold slice.
  set (L := Z.of_nat (length lst)).
  assert (Hstart : (0 + Z.of_nat k * n)%Z = Z.of_nat (k * Z.to_nat n)).
  { rewrite Nat2Z.inj_mul, Z2Nat.id; lia. }
  rewrite Hstart. generalize dependent (k * Z.to_nat n). intros start Hk _.
  assert ((Z.of_nat start <? 0)%Z = false) as -> by lia.
  assert ((Z.of_nat start + n <? 0)%Z = false) as -> by lia.
  rewrite (Z.min_l (Z.of_nat start) L) by lia.
  rewrite Nat2Z.id.
  destruct (Z.le_gt_cases (Z.of_nat start + n) L) as [Hle|Hgt].
  - rewrite Z.min_l by lia. f_equal. lia.
  - rewrite Z.min_r by lia.
    rewrite !take_ge; [done | |]; rewrite length_drop; lia.
Qed.

(** For a positive [n], [range(0, L, n)] has [m] elements with
    [(m - 1) * n < L <= m * n]. *)
Lemma range_steps (L : nat) (n : Z) :
  (0 < n)%Z ->
  exists m : nat,
    range 0 (Z.of_nat L) n = Ret ((fun k => (0 + Z.of_nat k * n)%Z) <$> seq 0 m)
    /\ L <= m * Z.to_nat n
    /\ (forall k, k < m -> k * Z.to_nat n < L).
Proof.
  intros Hn. unfold range.
  assert ((n =? 0)%Z = false) as -> by lia.
  assert ((0 <? n)%Z = true) as -> by lia.
  destruct L as [|L'].
  - exists 0. simpl. split; [done|]. split; lia.
  - set (L := S L').
    assert ((0 <? Z.of_nat L)%Z = true) as -> by lia.
    set (q := ((Z.of_nat L - 0 - 1) / n)%Z).
    assert (Hq1 : (n * q <= Z.of_nat L - 0 - 1)%Z) by (apply Z.mul_div_le; lia).
    assert (Hq2 : (Z.of_nat L - 0 - 1 < n * Z.succ q)%Z)
      by (apply Z.mul_succ_div_gt; lia).
    assert (Hq0 : (0 <= q)%Z) by (apply Z.div_pos; lia).
    exists (Z.to_nat (q + 1)). split; [done|]. split.
    + nia.
    + intros k Hk. nia.
Qed.

Lemma divide_chunks {A} (lst : list A) (n : Z) :
  (0 < n)%Z ->
  exists m : nat,
    Seller.divide lst n
    = Ret ((fun k => take (Z.to_nat n) (drop (k * Z.to_nat n) lst)) <$> seq 0 m)
    /\ length lst <= m * Z.to_nat n
    /\ (forall k, k < m -> k * Z.to_nat n < length lst).
Proof.
  intros Hn. destruct (range_steps (length lst) n Hn) as (m & Hr & Hcover & Hin).
  exists m. split; [|done].
  unfold Seller.divide. rewrite Hr. simpl. f_equal.
  rewrite <- list_fmap_compose. apply list_fmap_ext.
  intros i k Hik. apply lookup_seq in Hik as [-> Hlt]. simpl.
  apply slice_chunk; [done|]. specialize (Hin i Hlt). lia.
Qed.

(** Runs the call on the left of [H : divide ... = Ret ...]. *)
Ltac evaluate_divide H :=
  match type of H with
  | ?call = _ =>
      let v := eval vm_compute in call in
      change call with v in H
  end.

(** C5: for a positive [n], [divide(lst, n)] yields batches whose
    concatenation, in order, is [lst]; each batch has at most [n] elements
    and is the run of [lst] that starts at [k * n], for the [k]-th batch;
    the empty list gives no batch; nine elements in threes give three
    batches of three, and seven elements give batches of 3, 3 and 1. *)
Theorem divide_batches {A : Type} :
  forall (lst : list A) (n : Z),
    (0 < n)%Z ->
    exists batches : list (list A),
      Seller.divide lst n = Ret batches
      /\ concat batches = lst
      /\ Forall (fun b => (Z.of_nat (length b) <= n)%Z) batches
      /\ (forall k b, batches !! k = Some b ->
                      b = take (Z.to_nat n) (drop (k * Z.to_nat n) lst))
      /\ (lst = [] -> batches = [])
      /\ (length lst = 9 -> n = 3%Z -> length <$> batches = [3; 3; 3])
      /\ (length lst = 7 -> n = 3%Z -> length <$> batches = [3; 3; 1]).
Proof.
  intros lst n Hn.
  destruct (divide_chunks lst n Hn) as (m & Hdiv & Hcover & Hin).
  eexists. split; [exact Hdiv|]. split; [|split; [|split; [|split; [|split]]]].
  - rewrite concat_chunks. by apply take_ge.
  - apply Forall_fmap, Forall_forall. intros k _. simpl.
    rewrite length_take. lia.
  - intros k b Hb. rewrite list_lookup_fmap in Hb.
    destruct (seq 0 m !! k) as [k'|] eqn:Hk; [|done].
    apply lookup_seq in Hk as [-> _]. simpl in Hb. by injection Hb as <-.
  - intros ->. destruct m as [|m]; [done|].
    specialize (Hin 0). simpl in Hin. lia.
  - intros Hlen ->.
    do 10 (destruct lst as [|? lst]; try discriminate Hlen).
    evaluate_divide Hdiv. injection Hdiv as <-. reflexivity.
  - intros Hlen ->.
    do 8 (destruct lst as [|? lst]; try discriminate Hlen).
    evaluate_divide Hdiv. injection Hdiv as <-. reflexivity.
Qed.

Lemma divide_batches_witness :
  (0 < 3)%Z
  /\ Seller.divide [1; 2; 3; 4; 5; 6; 7] 3 = Ret [[1; 2; 3]; [4; 5; 6]; [7]]
  /\ exists batches : list (list nat),
       Seller.divide [1; 2; 3; 4; 5; 6; 7] 3 = Ret batches
       /\ concat batches = [1; 2; 3; 4; 5; 6; 7].
Proof.
  split; [lia|]. split; [reflexivity|].
  destruct (divide_batches [1; 2; 3; 4; 5; 6; 7] 3%Z) as (batches & Hdiv & Hcat & _);
    [lia|].
  exists batches. split; assumption.
Defined.

(** ** The counted pager of [seller.py] *)








(** ** What a computation adds to the log *)

Lemma emits_ret {A} (P : event -> Prop) (a : A) : emits P (ret a).
Proof. intros w. exists []. simpl. by rewrite app_nil_r. Qed.

Lemma emits_lift {A} (P : event -> Prop) (o : outcome A) : emits P (lift o).
Proof. intros w. exists []. simpl. by rewrite app_nil_r. Qed.

Lemma emits_out_of_fuel {A} (P : event -> Prop) : emits P (@out_of_fuel A).
Proof. intros w. exists []. simpl. by rewrite app_nil_r. Qed.

Lemma emits_bind {A B} (P : event -> Prop) (m : M A) (k : A -> M B) :
  emits P m -> (forall a, emits P (k a)) -> emits P (bind m k).
Proof.
  intros Hm Hk w. unfold bind.
  destruct (Hm w) as (evs & Hlog & HP & Hout).
  destruct (m w) as [[a|e|] w1]; simpl in *; [|by exists evs|by exists evs].
  destruct (Hk a w1) as (evs' & Hlog' & HP' & Hout').
  exists (evs ++ evs'). rewrite Hlog', Hlog, Hout', Hout, app_assoc.
  split; [done|]. split; [by apply Forall_app|done].
Qed.

Lemma emits_for_each {A S} (P : event -> Prop) (xs : list A)
    (body : S -> A -> M S) :
  (forall s x, emits P (body s x)) -> forall s, emits P (for_each xs s body).
Proof.
  intros Hbody. induction xs as [|x xs IH]; intros s; simpl.
  - apply emits_ret.
  - apply emits_bind; [apply Hbody | apply IH].
Qed.

Lemma emits_exchange {A} (P : event -> Prop) (r : request)
    (answer : oracle -> nat -> outcome A) :
  P (Sent r) -> emits P (exchange r answer).
Proof. intros HP w. exists [Sent r]. simpl. by repeat constructor. Qed.

Lemma emits_utcnow (P : event -> Prop) : P ClockRead -> emits P utcnow.
Proof. intros HP w. exists [ClockRead]. simpl. by repeat constructor. Qed.

Lemma emits_new_list (P : event -> Prop) (xs : list string) : emits P (new_list xs).
Proof. intros w. exists []. simpl. by rewrite app_nil_r. Qed.

Lemma emits_list_read (P : event -> Prop) (l : loc) : emits P (list_read l).
Proof. intros w. exists []. simpl. by rewrite app_nil_r. Qed.

Lemma emits_list_contains (P : event -> Prop) (l : loc) (x : string) :
  emits P (list_contains l x).
Proof. intros w. exists []. simpl. by rewrite app_nil_r. Qed.

Lemma emits_list_remove (P : event -> Prop) (l : loc) (x : string) :
  emits P (list_remove l x).
Proof.
  intros w. exists []. unfold list_remove.
  destruct (remove_first x (contents l w)); simpl; by rewrite app_nil_r.
Qed.

Create HintDb emits discriminated.
#[local] Hint Resolve emits_ret emits_lift emits_out_of_fuel emits_new_list
  emits_list_read emits_list_contains emits_list_remove : emits.

(** ** One target of [market.py] *)

Lemma market_pager_emits (campaign_id market_token : string) (fuel : nat) :
  forall page acc,
    emits (about campaign_id)
      (Market.get_offer_ids_loop fuel page acc campaign_id market_token).
Proof.
  induction fuel as [|fuel IH]; intros page acc; simpl; [auto with emits|].
  apply emits_bind.
  - apply emits_exchange. by right.
  - intros some_prod. destruct (Yandex.nextPageToken some_prod) as [next|];
      [|auto with emits].
    destruct (String.eqb next ""); [auto with emits | apply IH].
Qed.

Lemma market_sync_emits (fuel : nat) (F : list watch)
    (campaign_id warehouse_id market_token : string) :
  emits (about campaign_id)
    (Market.sync fuel F campaign_id warehouse_id market_token).
Proof.
  unfold Market.sync. apply emits_bind.
  { unfold Market.get_offer_ids. apply emits_bind; [apply market_pager_emits|].
    intros product_list. apply emits_bind; [|auto with emits].
    apply emits_for_each. auto with emits. }
  intros offer_ids. apply emits_bind.
  { unfold Market.create_stocks. apply emits_bind; [apply emits_utcnow; by left|].
    intros now. apply emits_bind.
    - apply emits_for_each. intros stocks watch.
      apply emits_bind; [auto with emits|]. intros [|]; [|auto with emits].
      apply emits_bind; [auto with emits|]. intros stock.
      apply emits_bind; auto with emits.
    - intros stocks. apply emits_bind; [auto with emits|]. intros remaining.
      apply emits_for_each. auto with emits. }
  intros stocks. apply emits_bind; [auto with emits|].
  intros batches. apply emits_bind.
  { apply emits_for_each. intros _ some_stock.
    apply emits_exchange. by right. }
  intros _. unfold call_without_await. auto with emits.
Qed.

(** C9, as amended: when the sync of the first target (FBS) raises, [main]
    of [market.py] catches the exception in its single [try], prints one
    line and returns; nothing else happens, so the sequence of the second
    target (DBS) is not executed and no request to the DBS campaign is
    sent. *)
Theorem main_stops_at_first_failure :
  forall (fuel : nat)
         (market_token campaign_fbs_id campaign_dbs_id
          warehouse_fbs_id warehouse_dbs_id : string)
         (w w1 : world) (watch_remnants : list watch) (error : exn),
    feed (outside w) (length (log w)) = Ret watch_remnants ->
    Market.sync fuel watch_remnants campaign_fbs_id warehouse_fbs_id market_token
      (emit (Sent FeedDownload) w)
    = (Raise error, w1) ->
    Market.main fuel market_token campaign_fbs_id campaign_dbs_id
      warehouse_fbs_id warehouse_dbs_id w
    = Market.report error w1
    /\ fst (Market.report error w1) = Ret tt
    /\ exists evs text,
         log (snd (Market.report error w1))
         = log w ++ [Sent FeedDownload] ++ evs ++ [text]
         /\ (exists e msg, text = Printed e msg)
         /\ (campaign_fbs_id <> campaign_dbs_id ->
             Forall (fun ev => ~ targets campaign_dbs_id ev) evs).
Proof.
  intros fuel tok fbs dbs wf wd w w1 F e Hfeed Hsync.
  split; [|split].
  - unfold Market.main, bind at 1, Seller.download_stock, exchange.
    rewrite Hfeed. unfold try_except, bind. by rewrite Hsync.
  - by destruct e.
  - destruct (market_sync_emits fuel F fbs wf tok (emit (Sent FeedDownload) w))
      as (evs & Hlog & Habout & _).
    rewrite Hsync in Hlog. simpl in Hlog.
    exists evs.
    assert (Hrep : exists text,
               log (snd (Market.report e w1)) = log w1 ++ [text]
               /\ exists e' msg, text = Printed e' msg).
    { destruct e; simpl; eauto. }
    destruct Hrep as (text & Hrep & Htext).
    exists text. rewrite Hrep, Hlog, <- !app_assoc. split; [done|].
    split; [done|]. intros Hne.
    eapply Forall_impl; [exact Habout|]. simpl.
    intros ev [->|Hev] Hdbs; [done|].
    destruct ev as [[]| |]; simpl in *; congruence.
Qed.

Lemma main_stops_at_first_failure_witness :
  feed (outside (Scenario.start Scenario.fbs_down))
       (length (log (Scenario.start Scenario.fbs_down)))
  = Ret Scenario.feed_ab
  /\ Market.main 3 "token" "fbs" "dbs" "143645" "143646"
       (Scenario.start Scenario.fbs_down)
     = Market.report HTTPError
         (emit (Sent (MarketOfferMappingEntries "fbs" ""))
            (emit (Sent FeedDownload) (Scenario.start Scenario.fbs_down))).
Proof.
  split; [reflexivity|].
  apply (main_stops_at_first_failure 3 "token" "fbs" "dbs" "143645" "143646"
           (Scenario.start Scenario.fbs_down) _ Scenario.feed_ab HTTPError).
  - reflexivity.
  - vm_compute. reflexivity.
Defined.

(** C9, as stated, fails: the FBS listing is refused while the DBS campaign
    is in order, and [main] ends after the FBS failure with one printed
    line; the DBS listing, the first step of the second target, is never
    requested, although on its own the DBS sync would have gone through. *)
Lemma main_skips_second_target :
  fst (Market.sync 3 Scenario.feed_ab "fbs" "143645" "token"
         (emit (Sent FeedDownload) (Scenario.start Scenario.fbs_down)))
  = Raise HTTPError
  /\ log (snd (Market.main 3 "token" "fbs" "dbs" "143645" "143646"
                 (Scenario.start Scenario.fbs_down)))
     = [ Sent FeedDownload;
         Sent (MarketOfferMappingEntries "fbs" "");
         Printed (Some HTTPError) "ERROR_2" ]
  /\ Sent (MarketOfferMappingEntries "dbs" "")
     ∉ log (snd (Market.main 3 "token" "fbs" "dbs" "143645" "143646"
                   (Scenario.start Scenario.fbs_down)))
  /\ fst (Market.sync 3 Scenario.feed_ab "dbs" "143646" "token"
            (emit (Sent FeedDownload) (Scenario.start Scenario.fbs_down)))
     = Ret tt.
Proof.
  split; [vm_compute; reflexivity|].
  assert (Hlog : log (snd (Market.main 3 "token" "fbs" "dbs" "143645" "143646"
                             (Scenario.start Scenario.fbs_down)))
                 = [ Sent FeedDownload;
                     Sent (MarketOfferMappingEntries "fbs" "");
                     Printed (Some HTTPError) "ERROR_2" ])
    by (vm_compute; reflexivity).
  split; [exact Hlog|]. split; [|vm_compute; reflexivity].
  rewrite Hlog. rewrite !not_elem_of_cons. repeat split; try discriminate.
  apply not_elem_of_nil.
Qed.

(** * Further properties *)

(** ** More on batches *)

(** X1: [divide] with a step that is not positive: a zero step raises
    [ValueError] (from [range]) for every list, the empty one included; a
    negative step yields no batch at all, whatever the list holds. *)
Theorem divide_without_positive_step {A : Type} :
  forall (lst : list A) (n : Z),
    (n <= 0)%Z ->
    Seller.divide lst n = if (n =? 0)%Z then Raise ValueError else Ret [].
Proof.
  intros lst n Hn. unfold Seller.divide, range.
  destruct (n =? 0)%Z eqn:H0; [done|].
  apply Z.eqb_neq in H0.
  assert ((0 <? n)%Z = false) as -> by lia.
  assert ((Z.of_nat (length lst) <? 0)%Z = false) as ->
    by (apply Z.ltb_ge; lia).
  reflexivity.
Qed.

Lemma divide_without_positive_step_witness :
  (-3 <= 0)%Z /\ Seller.divide [1; 2; 3; 4] (-3) = Ret [].
Proof.
  split; [lia|].
  apply (divide_without_positive_step [1; 2; 3; 4] (-3)%Z). lia.
Defined.

(** X2: for a positive [n], [divide] yields [ceil(len(lst) / n)] batches,
    none of them empty, and every batch but the last has exactly [n]
    elements. *)
Theorem divide_batch_sizes {A : Type} :
  forall (lst : list A) (n : Z),
    (0 < n)%Z ->
    exists batches : list (list A),
      Seller.divide lst n = Ret batches
      /\ Z.of_nat (length batches) = ((Z.of_nat (length lst) + n - 1) / n)%Z
      /\ Forall (fun b => b <> []) batches
      /\ (forall k b, batches !! k = Some b -> S k < length batches ->
                      Z.of_nat (length b) = n).
Proof.
  intros lst n Hn.
  destruct (divide_chunks lst n Hn) as (m & Hdiv & Hcover & Hin).
  eexists. split; [exact Hdiv|].
  rewrite length_fmap, length_seq. split; [|split].
  - apply (Z.div_unique_pos _ _ _ (Z.of_nat (length lst) + n - 1
                                     - n * Z.of_nat m)); [|lia].
    destruct m as [|m]; [lia|].
    specialize (Hin m ltac:(lia)). nia.
  - apply Forall_fmap, Forall_forall. intros k Hk. simpl.
    apply elem_of_seq in Hk. specialize (Hin k ltac:(lia)).
    intros Hnil. apply (f_equal length) in Hnil.
    rewrite length_take, length_drop in Hnil. simpl in Hnil. lia.
  - intros k b Hb Hlast. rewrite list_lookup_fmap in Hb.
    destruct (seq 0 m !! k) as [k'|] eqn:Hk; [|done].
    apply lookup_seq in Hk as [-> _]. simpl in Hb. injection Hb as <-.
    specialize (Hin (S k) Hlast).
    rewrite length_take, length_drop. nia.
Qed.

Lemma divide_batch_sizes_witness :
  (0 < 3)%Z
  /\ exists batches : list (list nat),
       Seller.divide [1; 2; 3; 4; 5; 6; 7] 3 = Ret batches
       /\ Z.of_nat (length batches) = 3%Z.
Proof.
  split; [lia|].
  destruct (divide_batch_sizes [1; 2; 3; 4; 5; 6; 7] 3%Z) as (b & Hd & Hlen & _);
    [lia|].
  exists b. split; [exact Hd | exact Hlen].
Defined.

(** ** More on [create_prices] *)

Lemma seller_create_prices_join (F : list watch) (l : loc) (w : world) :
  Seller.create_prices F l w
  = (join (fun watch => Seller.price_conversion (Tsena watch)) ozon_price
          (contents l w) F [], w).
Proof.
  unfold Seller.create_prices.
  match goal with |- context [for_each F [] ?b] => set (body := b) end.
  generalize (@nil Ozon.price_entry).
  induction F as [|watch F IH]; intros acc; simpl; [done|].
  unfold bind at 1, body at 1, bind at 1, list_contains.
  destruct (contains _ _); [|apply IH].
  unfold bind at 1, lift.
  destruct (Seller.price_conversion (Tsena watch)); simpl; [apply IH|done|done].
Qed.

Lemma market_create_prices_join (F : list watch) (l : loc) (w : world) :
  Market.create_prices F l w = (join unit_price market_price (contents l w) F [], w).
Proof.
  unfold Market.create_prices.
  match goal with |- context [for_each F [] ?b] => set (body := b) end.
  generalize (@nil Yandex.price_entry).
  induction F as [|watch F IH]; intros acc; simpl; [done|].
  unfold bind at 1, body at 1, bind at 1, list_contains.
  destruct (contains _ _); [|apply IH].
  unfold bind at 1, lift, unit_price.
  destruct (Seller.price_conversion (Tsena watch)) as [converted| |]; simpl;
    [|done|done].
  unfold bind at 1.
  destruct (int_of_str converted); simpl; [apply IH|done|done].
Qed.

(** When every record whose code is in the list has a value, the loop
    returns one entry per such record, in feed order. *)
Lemma join_all {E V} (value : watch -> outcome V) (mk : watch -> V -> E)
    (v : watch -> V) (O : list string) (F : list watch) :
  forall acc,
    (forall watch, watch ∈ F -> py_str (Kod watch) ∈ O -> value watch = Ret (v watch)) ->
    join value mk O F acc
    = Ret (acc ++ ((fun watch => mk watch (v watch))
                     <$> filter (fun watch => py_str (Kod watch) ∈ O) F)).
Proof.
  induction F as [|watch F IH]; intros acc Hok; simpl.
  - by rewrite app_nil_r.
  - rewrite filter_cons.
    destruct (decide (py_str (Kod watch) ∈ O)) as [Hin|Hout].
    + rewrite (proj2 (contains_true _ _) Hin).
      rewrite (Hok watch) by (done || left).
      rewrite IH by (intros w' Hw'; apply Hok; by right).
      by rewrite <- app_assoc.
    + rewrite (proj2 (contains_false _ _) Hout).
      apply IH. intros w' Hw'. apply Hok. by right.
Qed.

(** The loop stops at the first record whose code is in the list and whose
    value raises. *)
Lemma join_first_failure {E V} (value : watch -> outcome V) (mk : watch -> V -> E)
    (O : list string) (F1 F2 : list watch) (bad : watch) (e : exn) :
  forall acc,
    (forall watch, watch ∈ F1 -> py_str (Kod watch) ∈ O ->
                   exists x, value watch = Ret x) ->
    py_str (Kod bad) ∈ O ->
    value bad = Raise e ->
    join value mk O (F1 ++ bad :: F2) acc = Raise e.
Proof.
  induction F1 as [|watch F1 IH]; intros acc Hok Hin Hbad; simpl.
  - by rewrite (proj2 (contains_true _ _) Hin), Hbad.
  - destruct (contains (py_str (Kod watch)) O) eqn:Hc.
    + apply contains_true in Hc.
      destruct (Hok watch) as [x ->]; [left | done |].
      apply IH; [|done|done]. intros w' Hw'. apply Hok. by right.
    + apply IH; [|done|done]. intros w' Hw'. apply Hok. by right.
Qed.

Lemma fmap_filter_codes {E} (code : E -> string) (g : watch -> E)
    (O : list string) (F : list watch) :
  (forall watch, code (g watch) = py_str (Kod watch)) ->
  code <$> (g <$> filter (fun watch => py_str (Kod watch) ∈ O) F)
  = filter (fun c => c ∈ O) (codes F).
Proof.
  intros Hcode. unfold codes. induction F as [|watch F IH]; [done|].
  rewrite fmap_cons, !filter_cons. simpl.
  destruct (decide (py_str (Kod watch) ∈ O)).
  - rewrite !fmap_cons, Hcode. by f_equal.
  - done.
Qed.

Lemma decimal_nonneg (s : string) :
  forall acc, (0 <= acc)%Z -> all_digits s = true -> (0 <= decimal acc s)%Z.
Proof.
  induction s as [|c s IH]; intros acc Hacc H; simpl; [done|].
  simpl in H. apply andb_true_iff in H as [Hc Hs].
  apply IH; [|done].
  unfold is_digit in Hc. apply andb_true_iff in Hc as [Hc _].
  apply Nat.leb_le in Hc. unfold digit_value. lia.
Qed.

(** X3: [create_prices] of [seller.py] is an inner join that keeps
    duplicates.  When the price of every feed record whose code is in the
    list is text, it returns one entry per such record -- as many entries
    for a code as the feed has records for it -- in feed order, leaves the
    world as it is, and every entry has a price made of digits only (maybe
    none), the currency RUB, the old price ["0"] and the action flag
    UNKNOWN. *)
Theorem seller_create_prices_inner_join :
  forall (F : list watch) (offer_ids : loc) (w : world),
    (forall watch, watch ∈ F -> py_str (Kod watch) ∈ contents offer_ids w ->
                   exists s, Tsena watch = PStr s) ->
    exists prices,
      Seller.create_prices F offer_ids w = (Ret prices, w)
      /\ Ozon.price_offer_id <$> prices
         = filter (fun c => c ∈ contents offer_ids w) (codes F)
      /\ Forall (fun e => all_digits (Ozon.price e) = true
                          /\ Ozon.currency_code e = "RUB"
                          /\ Ozon.old_price e = "0"
                          /\ Ozon.auto_action_enabled e = "UNKNOWN") prices.
Proof.
  intros F l w Htext.
  rewrite seller_create_prices_join.
  set (v := fun watch => match Tsena watch with
                         | PStr s => re_sub_non_digits (before_dot s)
                         | _ => ""
                         end).
  rewrite (join_all _ ozon_price v).
  2:{ intros watch Hw Hin. destruct (Htext watch Hw Hin) as [s Hs].
      unfold v. rewrite Hs. apply price_conversion_text. }
  simpl. eexists. split; [reflexivity|]. split.
  - by apply fmap_filter_codes.
  - apply Forall_fmap, Forall_forall. intros watch _. simpl.
    split; [|done]. unfold v. destruct (Tsena watch); try done.
    apply re_sub_all_digits.
Qed.

Lemma seller_create_prices_inner_join_witness :
  exists prices,
    Seller.create_prices
      [ Scenario.text_record "A" "1" "10.50"; Scenario.text_record "Z" "1" "7";
        Scenario.text_record "A" "1" "12 руб." ] 0%nat Scenario.shop
    = (Ret prices, Scenario.shop)
    /\ Ozon.price_offer_id <$> prices = ["A"; "A"].
Proof.
  destruct (seller_create_prices_inner_join
              [ Scenario.text_record "A" "1" "10.50"; Scenario.text_record "Z" "1" "7";
                Scenario.text_record "A" "1" "12 руб." ] 0%nat Scenario.shop)
    as (prices & Hrun & Hcodes & _).
  - intros watch Hw _. rewrite !elem_of_cons, elem_of_nil in Hw.
    destruct Hw as [->|[->|[->|[]]]]; simpl; eauto.
  - exists prices. split; [exact Hrun|]. rewrite Hcodes. reflexivity.
Defined.

(** X4: [create_prices] of [market.py]: when every feed record whose code
    is in the list has a price text with a digit before its first full
    stop, it returns one entry per such record, duplicates included, in feed
    order, leaves the world as it is, and every entry has a price that is
    not negative and the currency RUR. *)
Theorem market_create_prices_inner_join :
  forall (F : list watch) (offer_ids : loc) (w : world),
    (forall watch, watch ∈ F -> py_str (Kod watch) ∈ contents offer_ids w ->
                   priced watch) ->
    exists prices,
      Market.create_prices F offer_ids w = (Ret prices, w)
      /\ Yandex.offer <$> prices
         = filter (fun c => c ∈ contents offer_ids w) (codes F)
      /\ Forall (fun e => (0 <= Yandex.value (Yandex.offer_price e))%Z
                          /\ Yandex.currencyId (Yandex.offer_price e) = "RUR") prices.
Proof.
  intros F l w Hpriced.
  rewrite market_create_prices_join.
  set (v := fun watch => match Tsena watch with
                         | PStr s => decimal 0 (re_sub_non_digits (before_dot s))
                         | _ => 0%Z
                         end).
  rewrite (join_all _ market_price v).
  2:{ intros watch Hw Hin. destruct (Hpriced watch Hw Hin) as (s & Hs & Hdigit).
      unfold v, unit_price. rewrite Hs, price_conversion_text. simpl.
      rewrite int_of_price_digits.
      apply String.eqb_neq in Hdigit. by rewrite Hdigit. }
  simpl. eexists. split; [reflexivity|]. split.
  - by apply fmap_filter_codes.
  - apply Forall_fmap, Forall_forall. intros watch _. simpl.
    split; [|done]. unfold v. destruct (Tsena watch); try done.
    apply decimal_nonneg; [done | apply re_sub_all_digits].
Qed.

Lemma market_create_prices_inner_join_witness :
  exists prices,
    Market.create_prices Scenario.feed_ab 0%nat Scenario.shop
    = (Ret prices, Scenario.shop)
    /\ Yandex.offer <$> prices = ["A"; "B"].
Proof.
  destruct (market_create_prices_inner_join Scenario.feed_ab 0%nat Scenario.shop)
    as (prices & Hrun & Hcodes & _).
  - intros watch Hw _. unfold Scenario.feed_ab in Hw.
    rewrite !elem_of_cons, elem_of_nil in Hw.
    destruct Hw as [->|[->|[]]]; eexists; (split; [reflexivity|]);
      vm_compute; discriminate.
  - exists prices. split; [exact Hrun|]. rewrite Hcodes. reflexivity.
Defined.

(** X5: one bad price cell costs the whole price payload.  If the records
    before [bad] are in order, the code of [bad] is in the list, and the
    price of [bad] is not text (a number, or the key is missing), both
    [create_prices] raise [AttributeError]; if it is text without any digit
    before its first full stop, [create_prices] of [market.py] raises
    [ValueError].  Nothing is returned for the records before or after
    [bad], and the world is as it was. *)
Theorem create_prices_aborts_on_bad_price :
  forall (F1 F2 : list watch) (bad : watch) (offer_ids : loc) (w : world),
    (forall watch, watch ∈ F1 -> py_str (Kod watch) ∈ contents offer_ids w ->
                   priced watch) ->
    py_str (Kod bad) ∈ contents offer_ids w ->
    ((forall s, Tsena bad <> PStr s) ->
     Seller.create_prices (F1 ++ bad :: F2) offer_ids w = (Raise AttributeError, w)
     /\ Market.create_prices (F1 ++ bad :: F2) offer_ids w = (Raise AttributeError, w))
    /\ (forall s, Tsena bad = PStr s -> re_sub_non_digits (before_dot s) = "" ->
        Market.create_prices (F1 ++ bad :: F2) offer_ids w = (Raise ValueError, w)).
Proof.
  intros F1 F2 bad l w Hok Hin.
  assert (Hseller : forall watch, watch ∈ F1 -> py_str (Kod watch) ∈ contents l w ->
            exists x, Seller.price_conversion (Tsena watch) = Ret x).
  { intros watch Hw Hc. destruct (Hok watch Hw Hc) as (s & -> & _).
    rewrite price_conversion_text. eauto. }
  assert (Hmarket : forall watch, watch ∈ F1 -> py_str (Kod watch) ∈ contents l w ->
            exists x, unit_price watch = Ret x).
  { intros watch Hw Hc. destruct (Hok watch Hw Hc) as (s & Hs & Hdigit).
    unfold unit_price. rewrite Hs, price_conversion_text. simpl.
    rewrite int_of_price_digits. apply String.eqb_neq in Hdigit.
    rewrite Hdigit. eauto. }
  split.
  - intros Hnot.
    assert (Hconv : Seller.price_conversion (Tsena bad) = Raise AttributeError).
    { destruct (Tsena bad) as [|s|z]; [done| |done]. by destruct (Hnot s). }
    rewrite seller_create_prices_join, market_create_prices_join.
    rewrite (join_first_failure _ _ _ F1 F2 bad AttributeError [] Hseller Hin Hconv).
    rewrite (join_first_failure _ _ _ F1 F2 bad AttributeError [] Hmarket Hin);
      [done|].
    unfold unit_price. by rewrite Hconv.
  - intros s Hs Hempty.
    rewrite market_create_prices_join.
    rewrite (join_first_failure _ _ _ F1 F2 bad ValueError [] Hmarket Hin); [done|].
    unfold unit_price. rewrite Hs, price_conversion_text. simpl.
    by rewrite Hempty.
Qed.

Lemma create_prices_aborts_on_bad_price_witness :
  Market.create_prices
    ([Scenario.text_record "A" "5" "10.00"]
       ++ Scenario.text_record "B" "5" "по запросу" :: [Scenario.text_record "C" "5" "7"])
    0%nat Scenario.shop
  = (Raise ValueError, Scenario.shop).
Proof.
  destruct (create_prices_aborts_on_bad_price
              [Scenario.text_record "A" "5" "10.00"] [Scenario.text_record "C" "5" "7"]
              (Scenario.text_record "B" "5" "по запросу") 0%nat Scenario.shop)
    as (_ & Hvalue).
  - intros watch Hw _. rewrite elem_of_cons, elem_of_nil in Hw.
    destruct Hw as [->|[]]. eexists. split; [reflexivity|]. vm_compute. discriminate.
  - vm_compute. right. left.
  - apply (Hvalue "по запросу"); reflexivity.
Defined.

(** ** More on [create_stocks] *)

Lemma reconcile_snd_sublist {E} (mk : string -> Z -> E) (F : list watch) :
  forall O acc, snd (reconcile mk F O acc) `sublist_of` O.
Proof.
  induction F as [|watch F IH]; intros O acc; simpl; [done|].
  destruct (remove_first _ O) as [O1|] eqn:Hrm; [|apply IH].
  destruct (remove_first_Some _ _ _ Hrm) as (_ & _ & Hsub).
  destruct (Seller.stock_of watch); [|done|done].
  etrans; [apply IH | done].
Qed.

Lemma set_heap_only_shrinks (l : loc) (O O' : list string) (w w0 : world) :
  heap w0 = heap w -> outside w0 = outside w ->
  O' `sublist_of` O ->
  only_shrinks l O w (set_heap (<[l := O']> (heap w)) w0).
Proof.
  intros Hh Ho Hsub. unfold only_shrinks, set_heap. simpl.
  split; [done|]. split.
  - intros l' Hne. by rewrite lookup_insert_ne.
  - exists O'. by rewrite lookup_insert_eq.
Qed.

(** X6: identifiers listed twice.  For any identifier list, duplicates
    allowed, in which every feed record whose code is in the list has a
    quantity that the normalization accepts, both [create_stocks] return
    entries whose codes are a rearrangement of the list: an identifier that
    the catalogue lists twice gets two entries. *)
Theorem create_stocks_keeps_multiplicity :
  forall (F : list watch) (O : list string) (offer_ids : loc) (w : world)
         (warehouse_id : string),
    heap w !! offer_ids = Some O ->
    (forall watch, watch ∈ F -> py_str (Kod watch) ∈ O ->
                   exists z, Seller.stock_of watch = Ret z) ->
    (exists out w',
        Seller.create_stocks F offer_ids w = (Ret out, w')
        /\ Ozon.stock_offer_id <$> out ≡ₚ O)
    /\ (exists out w',
           Market.create_stocks F offer_ids warehouse_id w = (Ret out, w')
           /\ Yandex.sku <$> out ≡ₚ O).
Proof.
  intros F O l w wh Hl Hok. split.
  - rewrite (seller_create_stocks_run F O l w Hl).
    destruct (reconcile_returns ozon_entry F O [] Hok) as (out & O' & HR).
    rewrite HR. simpl. eexists _, _. split; [reflexivity|].
    by apply (reconcile_codes ozon_entry Ozon.stock_offer_id F O O' out).
  - pose proof (market_create_stocks_run F O l wh w Hl) as Hrun.
    cbv zeta in Hrun. revert Hrun.
    set (mk := fun c z => Market.sku_dict c wh z _). intros ->.
    destruct (reconcile_returns mk F O [] Hok) as (out & O' & HR).
    rewrite HR. simpl. eexists _, _. split; [reflexivity|].
    by apply (reconcile_codes mk Yandex.sku F O O' out).
Qed.

Lemma create_stocks_keeps_multiplicity_witness :
  exists out w',
    Seller.create_stocks [Scenario.text_record "A" "7" "1"] 0%nat
      (Scenario.holding ["A"; "B"; "A"] (Scenario.unreachable Scenario.ticking))
    = (Ret out, w')
    /\ Ozon.stock_offer_id <$> out ≡ₚ ["A"; "B"; "A"].
Proof.
  destruct (create_stocks_keeps_multiplicity [Scenario.text_record "A" "7" "1"]
              ["A"; "B"; "A"] 0%nat
              (Scenario.holding ["A"; "B"; "A"] (Scenario.unreachable Scenario.ticking))
              "wh") as (Hs & _).
  - reflexivity.
  - intros watch Hw _. rewrite elem_of_cons, elem_of_nil in Hw.
    destruct Hw as [->|[]]. by exists 7%Z.
  - exact Hs.
Defined.

(** X7: the mutation of [create_stocks] stays on the list it was given.
    Whether it returns or raises, the outside and every other list object
    in the store are as before and the list it was given holds a
    subsequence of what it held; [create_stocks] of [seller.py] adds nothing
    to the log, [create_stocks] of [market.py] exactly one reading of the
    clock. *)
Theorem create_stocks_touches_only_its_list :
  forall (F : list watch) (O : list string) (offer_ids : loc) (w : world)
         (warehouse_id : string),
    heap w !! offer_ids = Some O ->
    (only_shrinks offer_ids O w (snd (Seller.create_stocks F offer_ids w))
     /\ log (snd (Seller.create_stocks F offer_ids w)) = log w)
    /\ (only_shrinks offer_ids O w
          (snd (Market.create_stocks F offer_ids warehouse_id w))
        /\ log (snd (Market.create_stocks F offer_ids warehouse_id w))
           = log w ++ [ClockRead]).
Proof.
  intros F O l w wh Hl. split.
  - rewrite (seller_create_stocks_run F O l w Hl). simpl.
    split; [|done].
    apply set_heap_only_shrinks; [done | done | apply reconcile_snd_sublist].
  - rewrite (market_create_stocks_run F O l wh w Hl). simpl.
    split; [|done].
    apply set_heap_only_shrinks; [done | done | apply reconcile_snd_sublist].
Qed.

Lemma create_stocks_touches_only_its_list_witness :
  heap Scenario.shop !! 0%nat = Some Scenario.abc
  /\ only_shrinks 0%nat Scenario.abc Scenario.shop
       (snd (Seller.create_stocks Scenario.feed_ab 0%nat Scenario.shop)).
Proof.
  split; [reflexivity|].
  destruct (create_stocks_touches_only_its_list Scenario.feed_ab Scenario.abc
              0%nat Scenario.shop "wh" eq_refl) as ((Hs & _) & _).
  exact Hs.
Defined.

(** X8: a failure half way leaves the caller's list half consumed.  With a
    duplicate-free list, if the records before [bad] are in order and
    [bad] is the first record of its code, a code of the list, with a
    quantity on which the normalization raises [e], then both
    [create_stocks] raise [e], return no entry, and leave in the list
    exactly the identifiers that none of the records before [bad]
    carries. *)
Theorem create_stocks_failure_leaves_list_consumed :
  forall (F1 F2 : list watch) (bad : watch) (O : list string) (offer_ids : loc)
         (w : world) (warehouse_id : string) (e : exn),
    NoDup O ->
    heap w !! offer_ids = Some O ->
    (forall watch, watch ∈ F1 -> py_str (Kod watch) ∈ O ->
                   exists z, Seller.stock_of watch = Ret z) ->
    py_str (Kod bad) ∈ O ->
    py_str (Kod bad) ∉ codes F1 ->
    Seller.stock_of bad = Raise e ->
    Seller.create_stocks (F1 ++ bad :: F2) offer_ids w
    = (Raise e,
       set_heap (<[offer_ids := filter (fun c => c ∉ codes F1) O]> (heap w)) w)
    /\ Market.create_stocks (F1 ++ bad :: F2) offer_ids warehouse_id w
       = (Raise e,
          set_heap (<[offer_ids := filter (fun c => c ∉ codes F1) O]> (heap w))
                   (emit ClockRead w)).
Proof.
  intros F1 F2 bad O l w wh e Hnd Hl Hok Hin Hfirst Hbad.
  assert (Hloop : forall E (mk : string -> Z -> E),
            reconcile mk (F1 ++ bad :: F2) O []
            = (Raise e, filter (fun c => c ∉ codes F1) O)).
  { intros E mk. rewrite reconcile_app.
    destruct (reconcile_returns mk F1 O [] Hok) as (out & O1 & HR).
    rewrite HR. simpl.
    pose proof (reconcile_NoDup _ _ _ _ _ _ Hnd HR) as ->.
    assert (Hstill : py_str (Kod bad) ∈ filter (fun c => c ∉ codes F1) O)
      by (apply list_elem_of_filter; done).
    destruct (remove_first (py_str (Kod bad)) _) as [O2|] eqn:Hrm.
    - by rewrite Hbad.
    - by apply remove_first_None in Hrm. }
  split.
  - rewrite (seller_create_stocks_run _ O l w Hl). by rewrite Hloop.
  - pose proof (market_create_stocks_run (F1 ++ bad :: F2) O l wh w Hl) as Hrun.
    cbv zeta in Hrun. rewrite Hrun. by rewrite Hloop.
Qed.

Lemma create_stocks_failure_leaves_list_consumed_witness :
  Seller.create_stocks
    ([Scenario.text_record "A" "7" "1"]
       ++ Scenario.text_record "B" "" "1" :: [Scenario.text_record "C" "2" "1"])
    0%nat Scenario.shop
  = (Raise ValueError,
     set_heap (<[0%nat := filter (fun c => c ∉ codes [Scenario.text_record "A" "7" "1"])
                            Scenario.abc]> (heap Scenario.shop)) Scenario.shop).
Proof.
  apply (create_stocks_failure_leaves_list_consumed
           [Scenario.text_record "A" "7" "1"] [Scenario.text_record "C" "2" "1"]
           (Scenario.text_record "B" "" "1") Scenario.abc 0%nat Scenario.shop "wh"
           ValueError).
  - compute_done.
  - reflexivity.
  - intros watch Hw _. rewrite elem_of_cons, elem_of_nil in Hw.
    destruct Hw as [->|[]]. by exists 7%Z.
  - vm_compute. right. left.
  - unfold codes. simpl. intros Hc.
    apply elem_of_cons in Hc as [[=]|Hc]. by apply elem_of_nil in Hc.
  - reflexivity.
Defined.

(** ** More on the quantity *)

Lemma str_of_int_not_gt10 (z : Z) : String.eqb (py_str (PInt z)) ">10" = false.
Proof.
  apply String.eqb_neq. simpl. intros Heq.
  pose proof (NilEmpty.isi (Z.to_int z)) as Hisi.
  rewrite Heq in Hisi.
  change (NilEmpty.int_of_string ">10") with (@None Decimal.signed_int) in Hisi.
  discriminate.
Qed.

Lemma str_of_int_is_1 (z : Z) : String.eqb (py_str (PInt z)) "1" = (z =? 1)%Z.
Proof.
  destruct (Z.eqb_spec z 1) as [->|Hne]; [reflexivity|].
  apply String.eqb_neq. simpl. intros Heq. apply Hne.
  apply DecimalZ.to_int_inj.
  pose proof (NilEmpty.isi (Z.to_int z)) as Hisi.
  rewrite Heq in Hisi.
  change (NilEmpty.int_of_string "1") with (Some (Z.to_int 1)) in Hisi.
  by injection Hisi as <-.
Qed.

(** X9: quantities that are not text.  For a cell that holds the whole
    number [z], the stock is 0 when [z] is 1 and [z] itself otherwise (so a
    numeric 1 is zeroed like the text ["1"]); for a record without the
    quantity key the normalization raises [TypeError]. *)
Theorem stock_of_number_or_missing :
  forall (watch : watch),
    (forall z, Kolichestvo watch = PInt z ->
               Seller.stock_of watch = Ret (if (z =? 1)%Z then 0%Z else z))
    /\ (Kolichestvo watch = PNone -> Seller.stock_of watch = Raise TypeError).
Proof.
  intros watch. split.
  - intros z Hq. unfold Seller.stock_of. rewrite Hq.
    rewrite str_of_int_not_gt10, str_of_int_is_1.
    by destruct (z =? 1)%Z.
  - intros Hq. unfold Seller.stock_of. by rewrite Hq.
Qed.

Lemma stock_of_number_or_missing_witness :
  Seller.stock_of {| Kod := PInt 48852; Kolichestvo := PInt 12; Tsena := PNone |}
  = Ret 12%Z
  /\ Seller.stock_of {| Kod := PInt 48852; Kolichestvo := PNone; Tsena := PNone |}
     = Raise TypeError.
Proof.
  destruct (stock_of_number_or_missing
              {| Kod := PInt 48852; Kolichestvo := PInt 12; Tsena := PNone |})
    as [Hint _].
  destruct (stock_of_number_or_missing
              {| Kod := PInt 48852; Kolichestvo := PNone; Tsena := PNone |})
    as [_ Hnone].
  split; [exact (Hint 12%Z eq_refl) | exact (Hnone eq_refl)].
Defined.

(** X10: no lower bound.  A quantity text that is a minus sign followed by
    digits is accepted and gives the negative number it denotes: the
    normalization passes negative stock on. *)
Theorem stock_of_accepts_negative_text :
  forall (watch : watch) (digits : string),
    Kolichestvo watch = PStr (String "-"%char digits) ->
    all_digits digits = true ->
    digits <> "" ->
    Seller.stock_of watch = Ret (- decimal 0 digits)%Z.
Proof.
  intros watch digits Hq Hd Hne. unfold Seller.stock_of. rewrite Hq. simpl.
  rewrite int_of_ascii by (simpl; apply (digits_ascii digits Hd)).
  unfold long_from_string, strip. simpl.
  rewrite (rstrip_digits digits Hd).
  destruct digits as [|c digits]; [done|].
  simpl in Hd. apply andb_true_iff in Hd as [Hc Hs].
  simpl. rewrite Hc, (parse_digits_all digits _ Hs). reflexivity.
Qed.

Lemma stock_of_accepts_negative_text_witness :
  Seller.stock_of (Scenario.text_record "A" "-5" "1") = Ret (-5)%Z.
Proof.
  apply (stock_of_accepts_negative_text (Scenario.text_record "A" "-5" "1") "5");
    [reflexivity | reflexivity | discriminate].
Defined.

(** ** More on the entries of [market.py] *)

Lemma stamp_length (now : datetime) : String.length (stamp now) = 20.
Proof. reflexivity. Qed.

(** X11: the shape of the stock payload of [market.py].  Every entry that
    [create_stocks] returns carries the warehouse it was called with and
    exactly one item, of type FIT, and all entries of one call carry one
    and the same time stamp: the clock reading taken when the call began,
    cut to the second -- twenty characters, whatever the microseconds. *)
Theorem market_stock_entries_shape :
  forall (F : list watch) (O : list string) (offer_ids : loc) (w w' : world)
         (warehouse_id : string) (out : list Yandex.sku_entry),
    heap w !! offer_ids = Some O ->
    Market.create_stocks F offer_ids warehouse_id w = (Ret out, w') ->
    Forall (fun e =>
              Yandex.warehouseId e = warehouse_id
              /\ exists count,
                   Yandex.sku_items e
                   = [ {| Yandex.count := count;
                          Yandex.type := "FIT";
                          Yandex.updatedAt :=
                            stamp (clock (outside w) (length (log w))) |} ]) out
    /\ String.length (stamp (clock (outside w) (length (log w)))) = 20
    /\ stamp (clock (outside w) (length (log w)))
       = stamp (replace_microsecond (clock (outside w) (length (log w))) 999999).
Proof.
  intros F O l w w' wh out Hl Hrun.
  split; [|split; [apply stamp_length | reflexivity]].
  pose proof (market_create_stocks_run F O l wh w Hl) as Hspec.
  cbv zeta in Hspec. rewrite Hspec in Hrun. clear Hspec.
  set (date := stamp (clock (outside w) (length (log w)))) in *.
  set (mk := fun c z => Market.sku_dict c wh z date) in *.
  destruct (reconcile mk F O []) as [[o|e|] O'] eqn:HR; simpl in Hrun;
    [|done|done].
  injection Hrun as <- _.
  destruct (reconcile_Ret _ _ _ _ _ _ HR) as (cl & -> & _).
  simpl. apply Forall_app. split; apply Forall_fmap, Forall_forall;
    intros ? _; simpl; eauto.
Qed.

Lemma market_stock_entries_shape_witness :
  Forall (fun e =>
            Yandex.warehouseId e = "143645"
            /\ exists count,
                 Yandex.sku_items e
                 = [ {| Yandex.count := count;
                        Yandex.type := "FIT";
                        Yandex.updatedAt :=
                          stamp (clock (outside Scenario.shop)
                                       (length (log Scenario.shop))) |} ])
         [ Market.sku_dict "A" "143645" 100 "2023-08-13T19:50:00Z";
           Market.sku_dict "B" "143645" 0 "2023-08-13T19:50:00Z";
           Market.sku_dict "C" "143645" 0 "2023-08-13T19:50:00Z" ].
Proof.
  eapply (market_stock_entries_shape Scenario.feed_ab Scenario.abc 0%nat
            Scenario.shop _ "143645").
  - reflexivity.
  - vm_compute. reflexivity.
Defined.

(** ** More on the pagers *)

Lemma after_nil (w : world) : after [] w = w.
Proof. destruct w. unfold after. simpl. by rewrite app_nil_r. Qed.

Lemma after_emit (e : event) (evs : list event) (w : world) :
  after evs (emit e w) = after (e :: evs) w.
Proof. unfold after, emit. simpl. by rewrite <- app_assoc. Qed.















(** ** More on sending batches *)

(** A loop of requests whose answers are all in order. *)
Lemma for_each_exchange_all {B} (req : B -> request)
    (answer : oracle -> nat -> outcome unit) (bs : list B) :
  forall w,
    (forall i, i < length bs -> answer (outside w) (length (log w) + i) = Ret tt) ->
    for_each bs tt (fun _ b => exchange (req b) answer) w
    = (Ret tt, after ((Sent ∘ req) <$> bs) w).
Proof.
  induction bs as [|b bs IH]; intros w Hok; simpl.
  - by rewrite after_nil.
  - unfold bind, exchange at 1.
    rewrite <- (Nat.add_0_r (length (log w))) at 1.
    rewrite (Hok 0) by (simpl; lia).
    rewrite IH, after_emit; [done|].
    intros i Hi. unfold emit. simpl. rewrite length_app. simpl.
    replace (length (log w) + 1 + i) with (length (log w) + S i) by lia.
    apply Hok. simpl. lia.
Qed.

(** A loop of requests of which the one at index [k] is the first to
    fail. *)
Lemma for_each_exchange_fails {B} (req : B -> request)
    (answer : oracle -> nat -> outcome unit) (bs : list B) (e : exn) :
  forall k w,
    k < length bs ->
    (forall i, i < k -> answer (outside w) (length (log w) + i) = Ret tt) ->
    answer (outside w) (length (log w) + k) = Raise e ->
    for_each bs tt (fun _ b => exchange (req b) answer) w
    = (Raise e, after ((Sent ∘ req) <$> take (S k) bs) w).
Proof.
  induction bs as [|b bs IH]; intros k w Hk Hok Hfail; simpl in Hk; [lia|].
  simpl for_each. unfold bind, exchange at 1.
  destruct k as [|k].
  - rewrite Nat.add_0_r in Hfail. by rewrite Hfail.
  - rewrite <- (Nat.add_0_r (length (log w))) at 1.
    rewrite (Hok 0) by lia.
    rewrite (IH k), after_emit; [done|lia| |].
    + intros i Hi. unfold emit. simpl. rewrite length_app. simpl.
      replace (length (log w) + 1 + i) with (length (log w) + S i) by lia.
      apply Hok. lia.
    + unfold emit. simpl. rewrite length_app. simpl.
      replace (length (log w) + 1 + k) with (length (log w) + S k) by lia.
      exact Hfail.
Qed.

(** Whatever the answers, such a loop sends a first part of its requests,
    in order, and does nothing else. *)
Lemma for_each_exchange_any {B} (req : B -> request)
    (answer : oracle -> nat -> outcome unit) (bs : list B) :
  forall w, exists n,
    snd (for_each bs tt (fun _ b => exchange (req b) answer) w)
    = after ((Sent ∘ req) <$> take n bs) w.
Proof.
  induction bs as [|b bs IH]; intros w; simpl.
  - exists 0. by rewrite after_nil.
  - unfold bind, exchange at 1.
    destruct (answer (outside w) (length (log w))) as [[]|e|].
    + destruct (IH (emit (Sent (req b)) w)) as [n Hn].
      exists (S n). by rewrite Hn, after_emit.
    + by exists 1.
    + by exists 1.
Qed.

Lemma divide_positive_returns {A} (lst : list A) (n : Z) :
  (0 < n)%Z ->
  exists batches, Seller.divide lst n = Ret batches /\ concat batches = lst.
Proof.
  intros Hn. destruct (divide_chunks lst n Hn) as (m & Hdiv & Hcover & _).
  eexists. split; [exact Hdiv|]. rewrite concat_chunks. by apply take_ge.
Qed.

(** X17: [upload_stocks] of [seller.py] sends everything, once.  If the
    catalogue has been listed and the stocks built, and Ozon accepts every
    update, the coroutine sends the stock entries in batches whose
    concatenation, in order, is the whole payload, and returns the entries
    with a stock other than zero together with all entries. *)
Theorem upload_stocks_sends_whole_payload :
  forall (fuel : nat) (watch_remnants : list watch) (client_id seller_token : string)
         (w w1 w2 : world) (offer_ids : loc) (stocks : list Ozon.stock_entry),
    Seller.get_offer_ids fuel client_id seller_token w = (Ret offer_ids, w1) ->
    Seller.create_stocks watch_remnants offer_ids w1 = (Ret stocks, w2) ->
    (forall i, ozon_import (outside w2) (length (log w2) + i) = Ret tt) ->
    exists batches,
      Seller.divide stocks 100 = Ret batches
      /\ concat batches = stocks
      /\ Seller.upload_stocks fuel watch_remnants client_id seller_token w
         = (Ret (List.filter (fun e => negb (Ozon.stock e =? 0)%Z) stocks, stocks),
            after (stock_requests client_id batches) w2).
Proof.
  intros fuel F cid tok w w1 w2 l stocks Hlist Hstocks Hok.
  destruct (divide_positive_returns stocks 100%Z ltac:(lia)) as (batches & Hdiv & Hcat).
  exists batches. split; [done|]. split; [done|].
  unfold Seller.upload_stocks.
  unfold bind at 1. rewrite Hlist.
  unfold bind at 1. rewrite Hstocks.
  unfold bind at 1, lift. rewrite Hdiv.
  unfold bind at 1.
  change (fun (_ : unit) (some_stock : list Ozon.stock_entry) =>
            Seller.update_stocks some_stock cid tok)
    with (fun (_ : unit) (b : list Ozon.stock_entry) =>
            exchange (OzonImportStocks cid b) (fun o k => ozon_import o k)).
  rewrite (for_each_exchange_all (OzonImportStocks cid)); [done|].
  intros i _. apply Hok.
Qed.

Lemma upload_stocks_sends_whole_payload_witness :
  exists batches,
    Seller.divide [ozon_entry "A" 100; ozon_entry "B" 0; ozon_entry "C" 0] 100
    = Ret batches
    /\ concat batches = [ozon_entry "A" 100; ozon_entry "B" 0; ozon_entry "C" 0]
    /\ fst (Seller.upload_stocks 1 Scenario.feed_ab "client" "key"
              (Scenario.start Scenario.ozon_abc))
       = Ret ([ozon_entry "A" 100],
              [ozon_entry "A" 100; ozon_entry "B" 0; ozon_entry "C" 0]).
Proof.
  destruct (upload_stocks_sends_whole_payload 1 Scenario.feed_ab "client" "key"
              (Scenario.start Scenario.ozon_abc)
              (snd (Seller.get_offer_ids 1 "client" "key"
                      (Scenario.start Scenario.ozon_abc)))
              (snd (Seller.create_stocks Scenario.feed_ab 0%nat
                      (snd (Seller.get_offer_ids 1 "client" "key"
                              (Scenario.start Scenario.ozon_abc)))))
              0%nat [ozon_entry "A" 100; ozon_entry "B" 0; ozon_entry "C" 0])
    as (batches & Hdiv & Hcat & Hrun).
  - vm_compute. reflexivity.
  - vm_compute. reflexivity.
  - reflexivity.
  - exists batches. split; [done|]. split; [done|]. by rewrite Hrun.
Defined.

(** X18: a refused batch stops the upload.  If Ozon accepts the first [k]
    batches and refuses the next one with [e], [upload_stocks] of
    [seller.py] raises [e]; the batches up to and including the refused one
    have been sent and stay sent, the batches after it are never sent, and
    nothing is returned. *)
Theorem upload_stocks_stops_at_refused_batch :
  forall (fuel : nat) (watch_remnants : list watch) (client_id seller_token : string)
         (w w1 w2 : world) (offer_ids : loc) (stocks : list Ozon.stock_entry)
         (batches : list (list Ozon.stock_entry)) (k : nat) (e : exn),
    Seller.get_offer_ids fuel client_id seller_token w = (Ret offer_ids, w1) ->
    Seller.create_stocks watch_remnants offer_ids w1 = (Ret stocks, w2) ->
    Seller.divide stocks 100 = Ret batches ->
    k < length batches ->
    (forall i, i < k -> ozon_import (outside w2) (length (log w2) + i) = Ret tt) ->
    ozon_import (outside w2) (length (log w2) + k) = Raise e ->
    Seller.upload_stocks fuel watch_remnants client_id seller_token w
    = (Raise e, after (stock_requests client_id (take (S k) batches)) w2).
Proof.
  intros fuel F cid tok w w1 w2 l stocks batches k e Hlist Hstocks Hdiv Hk Hok Hfail.
  unfold Seller.upload_stocks.
  unfold bind at 1. rewrite Hlist.
  unfold bind at 1. rewrite Hstocks.
  unfold bind at 1, lift. rewrite Hdiv.
  unfold bind at 1.
  change (fun (_ : unit) (some_stock : list Ozon.stock_entry) =>
            Seller.update_stocks some_stock cid tok)
    with (fun (_ : unit) (b : list Ozon.stock_entry) =>
            exchange (OzonImportStocks cid b) (fun o k => ozon_import o k)).
  by rewrite (for_each_exchange_fails (OzonImportStocks cid) _ batches e k).
Qed.

Lemma upload_stocks_stops_at_refused_batch_witness :
  Seller.upload_stocks 1 Scenario.feed_ab "client" "key"
    (Scenario.start (Scenes.refuses_update 1))
  = (Raise HTTPError,
     after (stock_requests "client"
              (take 1 [[ozon_entry "A" 100; ozon_entry "B" 0; ozon_entry "C" 0]]))
           (snd (Seller.create_stocks Scenario.feed_ab 0%nat
                   (snd (Seller.get_offer_ids 1 "client" "key"
                           (Scenario.start (Scenes.refuses_update 1))))))).
Proof.
  apply (upload_stocks_stops_at_refused_batch 1 Scenario.feed_ab "client" "key"
           (Scenario.start (Scenes.refuses_update 1))
           (snd (Seller.get_offer_ids 1 "client" "key"
                   (Scenario.start (Scenes.refuses_update 1))))
           _ 0%nat [ozon_entry "A" 100; ozon_entry "B" 0; ozon_entry "C" 0]
           _ 0 HTTPError).
  - vm_compute. reflexivity.
  - vm_compute. reflexivity.
  - vm_compute. reflexivity.
  - simpl. lia.
  - intros i Hi. lia.
  - reflexivity.
Defined.

(** ** More on the two [main] *)

Lemma emits_try_except {A} (P : event -> Prop) (body : M A) (handler : exn -> M A) :
  emits P body -> (forall e, emits P (handler e)) -> emits P (try_except body handler).
Proof.
  intros Hb Hh w. unfold try_except.
  destruct (Hb w) as (evs & Hlog & HP & Hout).
  destruct (body w) as [[a|e|] w1]; simpl in *; [by exists evs| |by exists evs].
  destruct (Hh e w1) as (evs' & Hlog' & HP' & Hout').
  exists (evs ++ evs'). rewrite Hlog', Hlog, Hout', Hout, app_assoc.
  split; [done|]. split; [by apply Forall_app|done].
Qed.

Lemma emits_print (P : event -> Prop) (error : option exn) (text : string) :
  P (Printed error text) -> emits P (print error text).
Proof. intros HP w. exists [Printed error text]. simpl. by repeat constructor. Qed.

Lemma seller_pager_emits (P : event -> Prop) (client_id seller_token : string)
    (fuel : nat) :
  (forall c, P (Sent (OzonProductList client_id c))) ->
  forall cursor acc,
    emits P (Seller.get_offer_ids_loop fuel cursor acc client_id seller_token).
Proof.
  intros HP. induction fuel as [|fuel IH]; intros cursor acc; simpl;
    [auto with emits|].
  apply emits_bind; [by apply emits_exchange|].
  intros some_prod. destruct (_ =? _)%Z; [auto with emits | apply IH].
Qed.

Lemma seller_get_offer_ids_emits (P : event -> Prop) (client_id seller_token : string)
    (fuel : nat) :
  (forall c, P (Sent (OzonProductList client_id c))) ->
  emits P (Seller.get_offer_ids fuel client_id seller_token).
Proof.
  intros HP. unfold Seller.get_offer_ids.
  apply emits_bind; [by apply seller_pager_emits|].
  intros product_list. apply emits_bind; [|auto with emits].
  apply emits_for_each. auto with emits.
Qed.

Lemma seller_create_stocks_emits (P : event -> Prop) (F : list watch) (l : loc) :
  emits P (Seller.create_stocks F l).
Proof.
  unfold Seller.create_stocks. apply emits_bind.
  - apply emits_for_each. intros stocks watch.
    apply emits_bind; [auto with emits|]. intros [|]; [|auto with emits].
    apply emits_bind; [auto with emits|]. intros stock.
    apply emits_bind; auto with emits.
  - intros stocks. apply emits_bind; [auto with emits|]. intros remaining.
    apply emits_for_each. auto with emits.
Qed.

Lemma seller_create_prices_emits (P : event -> Prop) (F : list watch) (l : loc) :
  emits P (Seller.create_prices F l).
Proof.
  unfold Seller.create_prices. apply emits_for_each. intros prices watch.
  apply emits_bind; [auto with emits|]. intros [|]; [|auto with emits].
  apply emits_bind; auto with emits.
Qed.

Lemma seller_report_emits (P : event -> Prop) (e : exn) :
  (forall err msg, P (Printed err msg)) -> emits P (Seller.report e).
Proof. intros HP. destruct e; simpl; by apply emits_print. Qed.

Lemma market_report_emits (P : event -> Prop) (e : exn) :
  (forall err msg, P (Printed err msg)) -> emits P (Market.report e).
Proof. intros HP. destruct e; simpl; by apply emits_print. Qed.

(** The body of the [try] of [main] of [seller.py]. *)
Lemma seller_main_body_emits (fuel : nat) (seller_token client_id : string) :
  emits is_silent
    (do offer_ids <- Seller.get_offer_ids fuel client_id seller_token;
     do watch_remnants <- Seller.download_stock;
     do stocks <- Seller.create_stocks watch_remnants offer_ids;
     do batches <- lift (Seller.divide stocks 100);
     do _ <- for_each batches tt
               (fun _ some_stock =>
                  Seller.update_stocks some_stock client_id seller_token);
     do prices <- Seller.create_prices watch_remnants offer_ids;
     do batches <- lift (Seller.divide prices 900);
     for_each batches tt
       (fun _ some_price => Seller.update_price some_price client_id seller_token)).
Proof.
  apply emits_bind; [by apply seller_get_offer_ids_emits|]. intros l.
  apply emits_bind; [by apply emits_exchange|]. intros F.
  apply emits_bind; [apply seller_create_stocks_emits|]. intros stocks.
  apply emits_bind; [auto with emits|]. intros batches.
  apply emits_bind; [apply emits_for_each; intros; by apply emits_exchange|].
  intros _.
  apply emits_bind; [apply seller_create_prices_emits|]. intros prices.
  apply emits_bind; [auto with emits|]. intros batches'.
  apply emits_for_each. intros. by apply emits_exchange.
Qed.

(** *** What comes to an end *)

Lemma ends_ret {A} (a : A) : ends (ret a).
Proof. by intros w _. Qed.

Lemma ends_lift {A} (o : outcome A) : o <> OutOfFuel -> ends (lift o).
Proof. by intros Ho w _. Qed.

Lemma ends_bind {A B} (m : M A) (k : A -> M B) :
  ends m -> (forall a, ends (k a)) -> ends (bind m k).
Proof.
  intros Hm Hk w Hw. unfold bind.
  destruct (Hm w Hw) as [Hfuel Hout].
  destruct (m w) as [[a|e|] w1]; simpl in *; [|done|done].
  destruct (Hk a w1) as [Hfuel' Hout']; [by rewrite Hout|].
  by rewrite Hout'.
Qed.

Lemma ends_for_each {A S} (xs : list A) (body : S -> A -> M S) :
  (forall s x, ends (body s x)) -> forall s, ends (for_each xs s body).
Proof.
  intros Hbody. induction xs as [|x xs IH]; intros s; simpl.
  - apply ends_ret.
  - apply ends_bind; [apply Hbody | apply IH].
Qed.

Lemma ends_list_contains (l : loc) (x : string) : ends (list_contains l x).
Proof. by intros w _. Qed.

Lemma ends_list_read (l : loc) : ends (list_read l).
Proof. by intros w _. Qed.

Lemma ends_list_remove (l : loc) (x : string) : ends (list_remove l x).
Proof.
  intros w _. unfold list_remove. by destruct (remove_first x (contents l w)).
Qed.

Lemma ends_download_stock : ends Seller.download_stock.
Proof. intros w [Hfeed _]. split; [apply Hfeed | done]. Qed.

Lemma ends_ozon_import (r : request) :
  ends (exchange r (fun o k => ozon_import o k)).
Proof. intros w [_ Himport]. split; [apply Himport | done]. Qed.

Lemma stock_of_ends (watch : watch) : Seller.stock_of watch <> OutOfFuel.
Proof.
  unfold Seller.stock_of.
  destruct (String.eqb _ ">10"); [done|]. destruct (String.eqb _ "1"); [done|].
  destruct (Kolichestvo watch) as [|s|z]; simpl; [done| |done].
  by destruct (int_of_str_outcome s) as [[z ->]| ->].
Qed.

Lemma price_conversion_ends (price : pyval) :
  Seller.price_conversion price <> OutOfFuel.
Proof.
  destruct price as [|s|z]; [done| |done]. by rewrite price_conversion_text.
Qed.

Lemma divide_ends {A} (lst : list A) (n : Z) : Seller.divide lst n <> OutOfFuel.
Proof.
  unfold Seller.divide, range. by destruct (n =? 0)%Z.
Qed.

Lemma seller_create_stocks_ends (F : list watch) (l : loc) :
  ends (Seller.create_stocks F l).
Proof.
  unfold Seller.create_stocks.
  apply ends_bind.
  - apply ends_for_each. intros stocks watch.
    apply ends_bind; [apply ends_list_contains|]. intros [|]; [|apply ends_ret].
    apply ends_bind; [apply ends_lift, stock_of_ends|]. intros stock.
    apply ends_bind; [apply ends_list_remove|]. intros _. apply ends_ret.
  - intros stocks. apply ends_bind; [apply ends_list_read|]. intros remaining.
    apply ends_for_each. intros. apply ends_ret.
Qed.

Lemma seller_create_prices_ends (F : list watch) (l : loc) :
  ends (Seller.create_prices F l).
Proof.
  unfold Seller.create_prices. apply ends_for_each. intros prices watch.
  apply ends_bind; [apply ends_list_contains|]. intros [|]; [|apply ends_ret].
  apply ends_bind; [apply ends_lift, price_conversion_ends|]. intros converted.
  apply ends_ret.
Qed.

(** What [main] of [seller.py] does once the catalogue is listed. *)
Lemma seller_main_rest_ends (seller_token client_id : string) (offer_ids : loc) :
  ends (do watch_remnants <- Seller.download_stock;
        do stocks <- Seller.create_stocks watch_remnants offer_ids;
        do batches <- lift (Seller.divide stocks 100);
        do _ <- for_each batches tt
                  (fun _ some_stock =>
                     Seller.update_stocks some_stock client_id seller_token);
        do prices <- Seller.create_prices watch_remnants offer_ids;
        do batches <- lift (Seller.divide prices 900);
        for_each batches tt
          (fun _ some_price => Seller.update_price some_price client_id seller_token)).
Proof.
  apply ends_bind; [apply ends_download_stock|]. intros F.
  apply ends_bind; [apply seller_create_stocks_ends|]. intros stocks.
  apply ends_bind; [apply ends_lift, divide_ends|]. intros batches.
  apply ends_bind; [apply ends_for_each; intros; apply ends_ozon_import|].
  intros _.
  apply ends_bind; [apply seller_create_prices_ends|]. intros prices.
  apply ends_bind; [apply ends_lift, divide_ends|]. intros batches'.
  apply ends_for_each. intros. apply ends_ozon_import.
Qed.

Lemma seller_report_returns (e : exn) (w : world) : fst (Seller.report e w) = Ret tt.
Proof. by destruct e. Qed.

(** X19: [main] of [seller.py] lets no exception out.  Once the two
    environment variables are read, whatever the catalogue, the feed
    provider and Ozon answer, and however far the loop of the catalogue
    listing is unrolled, [main] does not raise.  It returns whenever the
    catalogue listing comes to an end -- with a list or with an exception
    -- and the feed provider and Ozon leave no request hanging; so the one
    way for [main] not to end is a catalogue listing that does not end.
    All it adds to the log is requests, followed by at most one printed
    line -- the line of the [except] clause, printed when something in the
    [try] raised. *)
Theorem seller_main_never_raises :
  forall (fuel : nat) (seller_token client_id : string) (w : world),
    (forall e, fst (Seller.main fuel seller_token client_id w) <> Raise e)
    /\ (answers (outside w) ->
        fst (Seller.get_offer_ids fuel client_id seller_token w) <> OutOfFuel ->
        fst (Seller.main fuel seller_token client_id w) = Ret tt)
    /\ exists evs tail,
         log (snd (Seller.main fuel seller_token client_id w)) = log w ++ evs ++ tail
         /\ Forall is_silent evs
         /\ (tail = [] \/ exists e msg, tail = [Printed e msg]).
Proof.
  intros fuel tok cid w. split; [|split].
  - intros e0. unfold Seller.main, try_except.
    match goal with |- context [match ?b w with _ => _ end] => set (body := b) in * end.
    destruct (body w) as [[[]|e|] w1]; simpl; [done| |done].
    by rewrite seller_report_returns.
  - intros Hw Hlist. unfold Seller.main, try_except. unfold bind at 1.
    destruct (seller_get_offer_ids_emits (fun _ => True) cid tok fuel
                ltac:(done) w) as (_ & _ & _ & Hout).
    destruct (Seller.get_offer_ids fuel cid tok w) as [[l|e|] w1]; simpl in *;
      [| by rewrite seller_report_returns | done].
    destruct (seller_main_rest_ends tok cid l w1) as [Hfuel _]; [by rewrite Hout|].
    match goal with |- context [match ?b w1 with _ => _ end] => set (rest := b) in * end.
    destruct (rest w1) as [[[]|e|] w2]; simpl in *; [done| |done].
    by rewrite seller_report_returns.
  - unfold Seller.main, try_except.
    destruct (seller_main_body_emits fuel tok cid w) as (evs & Hlog & Hsilent & _).
    match goal with |- context [match ?b w with _ => _ end] => set (body := b) in * end.
    destruct (body w) as [[[]|e|] w1]; simpl in *.
    + exists evs, []. rewrite app_nil_r. eauto.
    + assert (Hrep : exists err msg,
                 log (snd (Seller.report e w1)) = log w1 ++ [Printed err msg]).
      { destruct e; simpl; eauto. }
      destruct Hrep as (err & msg & Hprint).
      exists evs, [Printed err msg].
      rewrite Hprint, Hlog, <- app_assoc. eauto 6.
    + exists evs, []. rewrite app_nil_r. eauto.
Qed.

Lemma seller_main_never_raises_witness :
  answers (outside (Scenario.start Scenario.ozon_abc))
  /\ fst (Seller.get_offer_ids 1 "client" "key" (Scenario.start Scenario.ozon_abc))
     <> OutOfFuel
  /\ fst (Seller.main 1 "key" "client" (Scenario.start Scenario.ozon_abc)) = Ret tt.
Proof.
  assert (Ha : answers (outside (Scenario.start Scenario.ozon_abc))).
  { split; intros k; simpl; discriminate. }
  assert (Hl : fst (Seller.get_offer_ids 1 "client" "key"
                      (Scenario.start Scenario.ozon_abc)) <> OutOfFuel).
  { vm_compute. discriminate. }
  split; [exact Ha|]. split; [exact Hl|].
  destruct (seller_main_never_raises 1 "key" "client"
              (Scenario.start Scenario.ozon_abc)) as (_ & Hret & _).
  exact (Hret Ha Hl).
Defined.

(** X20: the one exception that [main] of [market.py] lets out.  The feed
    is downloaded before the [try]: [main] raises [e] exactly when the
    download raises [e], and then it has printed nothing and has sent
    nothing to the marketplace. *)
Theorem market_main_raises_only_on_download :
  forall (fuel : nat)
         (market_token campaign_fbs_id campaign_dbs_id
          warehouse_fbs_id warehouse_dbs_id : string)
         (w : world) (e : exn),
    (fst (Market.main fuel market_token campaign_fbs_id campaign_dbs_id
            warehouse_fbs_id warehouse_dbs_id w) = Raise e
     <-> feed (outside w) (length (log w)) = Raise e)
    /\ (feed (outside w) (length (log w)) = Raise e ->
        Market.main fuel market_token campaign_fbs_id campaign_dbs_id
          warehouse_fbs_id warehouse_dbs_id w
        = (Raise e, emit (Sent FeedDownload) w)).
Proof.
  intros fuel tok fbs dbs wf wd w e.
  unfold Market.main, bind, Seller.download_stock, exchange.
  destruct (feed (outside w) (length (log w))) as [F|e'|] eqn:Hfeed; simpl.
  - split; [|done]. split; [|done].
    unfold try_except.
    match goal with |- context [match ?b with _ => _ end] =>
      destruct b as [[[]|e1|] w1] end; simpl; try done.
    by destruct e1.
  - split; [split|]; by intros [= ->].
  - split; done.
Qed.

Lemma market_main_raises_only_on_download_witness :
  feed (outside (Scenario.start Scenes.no_feed))
       (length (log (Scenario.start Scenes.no_feed)))
  = Raise ConnectionError
  /\ Market.main 3 "token" "fbs" "dbs" "143645" "143646" (Scenario.start Scenes.no_feed)
     = (Raise ConnectionError, emit (Sent FeedDownload) (Scenario.start Scenes.no_feed)).
Proof.
  split; [reflexivity|].
  destruct (market_main_raises_only_on_download 3 "token" "fbs" "dbs" "143645" "143646"
              (Scenario.start Scenes.no_feed) ConnectionError) as [_ Hrun].
  apply Hrun. reflexivity.
Defined.

Lemma market_pager_emits_if (P : event -> Prop) (campaign_id market_token : string)
    (fuel : nat) :
  (forall t, P (Sent (MarketOfferMappingEntries campaign_id t))) ->
  forall page acc,
    emits P (Market.get_offer_ids_loop fuel page acc campaign_id market_token).
Proof.
  intros HP. induction fuel as [|fuel IH]; intros page acc; simpl;
    [auto with emits|].
  apply emits_bind; [by apply emits_exchange|].
  intros some_prod. destruct (Yandex.nextPageToken some_prod) as [next|];
    [|auto with emits].
  destruct (String.eqb next ""); [auto with emits | apply IH].
Qed.

Lemma market_sync_emits_if (P : event -> Prop) (fuel : nat) (F : list watch)
    (campaign_id warehouse_id market_token : string) :
  P ClockRead ->
  (forall t, P (Sent (MarketOfferMappingEntries campaign_id t))) ->
  (forall b, P (Sent (MarketStocks campaign_id b))) ->
  emits P (Market.sync fuel F campaign_id warehouse_id market_token).
Proof.
  intros Hclock Hlist Hstock. unfold Market.sync. apply emits_bind.
  { unfold Market.get_offer_ids. apply emits_bind; [by apply market_pager_emits_if|].
    intros product_list. apply emits_bind; [|auto with emits].
    apply emits_for_each. auto with emits. }
  intros offer_ids. apply emits_bind.
  { unfold Market.create_stocks. apply emits_bind; [by apply emits_utcnow|].
    intros now. apply emits_bind.
    - apply emits_for_each. intros stocks watch.
      apply emits_bind; [auto with emits|]. intros [|]; [|auto with emits].
      apply emits_bind; [auto with emits|]. intros stock.
      apply emits_bind; auto with emits.
    - intros stocks. apply emits_bind; [auto with emits|]. intros remaining.
      apply emits_for_each. auto with emits. }
  intros stocks. apply emits_bind; [auto with emits|].
  intros batches. apply emits_bind.
  { apply emits_for_each. intros _ some_stock. by apply emits_exchange. }
  intros _. unfold call_without_await. auto with emits.
Qed.

(** X21: [main] of [market.py] never updates a price.  [upload_prices] is
    a coroutine function and [main] calls it without awaiting it, so its
    body never runs: whatever the outside answers, no price update is among
    the events that [main] adds to the log. *)
Theorem market_main_sends_no_price_update :
  forall (fuel : nat)
         (market_token campaign_fbs_id campaign_dbs_id
          warehouse_fbs_id warehouse_dbs_id : string)
         (w : world),
    exists evs,
      log (snd (Market.main fuel market_token campaign_fbs_id campaign_dbs_id
                  warehouse_fbs_id warehouse_dbs_id w))
      = log w ++ evs
      /\ Forall (fun e => ~ is_price_update e) evs.
Proof.
  intros fuel tok fbs dbs wf wd w.
  assert (Hmain : emits (fun e => ~ is_price_update e)
                    (Market.main fuel tok fbs dbs wf wd)).
  { unfold Market.main. apply emits_bind.
    - apply emits_exchange. simpl. tauto.
    - intros F. apply emits_try_except.
      + apply emits_bind; [|intros _];
          apply market_sync_emits_if; simpl; tauto.
      + intros e. apply market_report_emits. simpl. tauto. }
  destruct (Hmain w) as (evs & Hlog & HP & _). eauto.
Qed.

Lemma market_main_sends_no_price_update_witness :
  exists evs,
    log (snd (Market.main 3 "token" "fbs" "dbs" "143645" "143646"
                (Scenario.start Scenes.market_two_pages)))
    = log (Scenario.start Scenes.market_two_pages) ++ evs
    /\ Forall (fun e => ~ is_price_update e) evs.
Proof.
  apply (market_main_sends_no_price_update 3 "token" "fbs" "dbs" "143645" "143646"
           (Scenario.start Scenes.market_two_pages)).
Defined.

Lemma seller_get_offer_ids_allocates (fuel : nat) (client_id seller_token : string)
    (w w1 : world) (l : loc) :
  Seller.get_offer_ids fuel client_id seller_token w = (Ret l, w1) ->
  exists O, heap w1 !! l = Some O.
Proof.
  unfold Seller.get_offer_ids. unfold bind at 1.
  destruct (Seller.get_offer_ids_loop _ _ _ _ _ w) as [[products|e|] w0];
    [|done|done].
  unfold bind at 1. rewrite (for_each_append Ozon.offer_id). simpl.
  unfold new_list. intros [= <- <-]. simpl. rewrite lookup_insert_eq. eauto.
Qed.

(** The two phases of [main] of [seller.py], on a duplicate-free list. *)
Lemma seller_phases_send_no_price (F : list watch) (O : list string) (l : loc)
    (client_id seller_token : string) (w : world) :
  heap w !! l = Some O ->
  NoDup O ->
  exists evs,
    log (snd ((do stocks <- Seller.create_stocks F l;
               do batches <- lift (Seller.divide stocks 100);
               do _ <- for_each batches tt
                         (fun _ some_stock =>
                            Seller.update_stocks some_stock client_id seller_token);
               do prices <- Seller.create_prices F l;
               do batches <- lift (Seller.divide prices 900);
               for_each batches tt
                 (fun _ some_price =>
                    Seller.update_price some_price client_id seller_token)) w))
    = log w ++ evs
    /\ Forall (fun e => ~ is_price_update e) evs.
Proof.
  intros Hl Hnd. unfold bind at 1.
  rewrite (seller_create_stocks_run F O l w Hl).
  destruct (reconcile ozon_entry F O []) as [[out|e|] O'] eqn:HR; simpl;
    [| exists []; by rewrite app_nil_r | exists []; by rewrite app_nil_r].
  pose proof (reconcile_NoDup _ _ _ _ _ _ Hnd HR) as ->.
  set (stocks := out ++ _).
  set (w3 := set_heap _ w).
  destruct (divide_positive_returns stocks 100%Z ltac:(lia)) as (batches & Hdiv & _).
  unfold bind at 1, lift. rewrite Hdiv.
  unfold bind at 1.
  change (fun (_ : unit) (some_stock : list Ozon.stock_entry) =>
            Seller.update_stocks some_stock client_id seller_token)
    with (fun (_ : unit) (b : list Ozon.stock_entry) =>
            exchange (OzonImportStocks client_id b) (fun o k => ozon_import o k)).
  destruct (for_each_exchange_any (OzonImportStocks client_id)
              (fun o k => ozon_import o k) batches w3) as [n Hn].
  destruct (for_each batches tt _ w3) as [[[]|e|] w4]; simpl in Hn; subst w4.
  - unfold bind at 1.
    rewrite seller_create_prices_no_match.
    + unfold bind at 1, lift.
      change (Seller.divide (@nil Ozon.price_entry) 900) with (@Ret (list (list Ozon.price_entry)) []).
      simpl. eexists. split; [reflexivity|].
      apply Forall_fmap, Forall_forall. intros b _. simpl. tauto.
    + intros c Hc. unfold contents, after, w3, set_heap. simpl.
      rewrite lookup_insert_eq. simpl.
      rewrite list_elem_of_filter. tauto.
  - simpl. eexists. split; [reflexivity|].
    apply Forall_fmap, Forall_forall. intros b _. simpl. tauto.
  - simpl. eexists. split; [reflexivity|].
    apply Forall_fmap, Forall_forall. intros b _. simpl. tauto.
Qed.

(** X22: [main] of [seller.py] never updates a price.  If the list of
    identifiers that the catalogue listing returns has no duplicate, then
    whatever the feed holds and whatever Ozon answers, no price update is
    among the events that [main] adds to the log: the stock phase has
    emptied the list of every identifier the feed knows before the price
    phase reads it. *)
Theorem seller_main_sends_no_price_update :
  forall (fuel : nat) (seller_token client_id : string) (w : world),
    (forall offer_ids w1,
        Seller.get_offer_ids fuel client_id seller_token w = (Ret offer_ids, w1) ->
        NoDup (contents offer_ids w1)) ->
    exists evs,
      log (snd (Seller.main fuel seller_token client_id w)) = log w ++ evs
      /\ Forall (fun e => ~ is_price_update e) evs.
Proof.
  intros fuel tok cid w Hnd.
  assert (Hreport : forall e w0, exists t,
             log (snd (Seller.report e w0)) = log w0 ++ [t] /\ ~ is_price_update t).
  { intros e w0. destruct e; simpl; eexists; (split; [reflexivity|]); simpl; tauto. }
  unfold Seller.main, try_except. unfold bind at 1.
  destruct (seller_get_offer_ids_emits (fun e => ~ is_price_update e) cid tok fuel
              ltac:(simpl; tauto) w) as (evs0 & Hlog0 & HP0 & _).
  destruct (Seller.get_offer_ids fuel cid tok w) as [[l|e|] w1] eqn:Hlist;
    simpl in Hlog0.
  - destruct (seller_get_offer_ids_allocates _ _ _ _ _ _ Hlist) as [O HO].
    specialize (Hnd l w1 eq_refl). rewrite (contents_lookup _ _ _ HO) in Hnd.
    unfold bind at 1, Seller.download_stock, exchange.
    destruct (feed (outside w1) (length (log w1))) as [F|e|].
    + destruct (seller_phases_send_no_price F O l cid tok
                  (emit (Sent FeedDownload) w1) HO Hnd) as (evs1 & Hlog1 & HP1).
      match type of Hlog1 with log (snd (?b _)) = _ => set (body := b) in * end.
      simpl in Hlog1.
      destruct (body (emit (Sent FeedDownload) w1)) as [[[]|e|] w2]; simpl in *.
      * exists (evs0 ++ [Sent FeedDownload] ++ evs1).
        rewrite Hlog1, Hlog0, <- !app_assoc. split; [done|].
        apply Forall_app. split; [done|]. apply Forall_cons. split; [simpl; tauto|done].
      * destruct (Hreport e w2) as (t & Ht & HPt).
        exists (evs0 ++ [Sent FeedDownload] ++ evs1 ++ [t]).
        rewrite Ht, Hlog1, Hlog0, <- !app_assoc. split; [done|].
        apply Forall_app. split; [done|]. apply Forall_cons. split; [simpl; tauto|].
        apply Forall_app. split; [done|]. by apply Forall_singleton.
      * exists (evs0 ++ [Sent FeedDownload] ++ evs1).
        rewrite Hlog1, Hlog0, <- !app_assoc. split; [done|].
        apply Forall_app. split; [done|]. apply Forall_cons. split; [simpl; tauto|done].
    + destruct (Hreport e (emit (Sent FeedDownload) w1)) as (t & Ht & HPt).
      exists (evs0 ++ [Sent FeedDownload] ++ [t]).
      rewrite Ht. simpl. rewrite Hlog0, <- !app_assoc. split; [done|].
      apply Forall_app. split; [done|].
      apply Forall_cons. split; [simpl; tauto|]. by apply Forall_singleton.
    + simpl. exists (evs0 ++ [Sent FeedDownload]).
      rewrite Hlog0, <- !app_assoc. split; [done|].
      apply Forall_app. split; [done|]. apply Forall_singleton. simpl. tauto.
  - destruct (Hreport e w1) as (t & Ht & HPt).
    exists (evs0 ++ [t]). rewrite Ht, Hlog0, <- app_assoc. split; [done|].
    apply Forall_app. split; [done|]. by apply Forall_singleton.
  - simpl. exists evs0. done.
Qed.

Lemma seller_main_sends_no_price_update_witness :
  exists evs,
    log (snd (Seller.main 1 "key" "client" (Scenario.start Scenario.ozon_abc)))
    = log (Scenario.start Scenario.ozon_abc) ++ evs
    /\ Forall (fun e => ~ is_price_update e) evs.
Proof.
  apply (seller_main_sends_no_price_update 1 "key" "client"
           (Scenario.start Scenario.ozon_abc)).
  intros l w1 Hrun. vm_compute in Hrun. injection Hrun as <- <-.
  compute_done.
Defined.

(** ** More on the coroutines and on how the two scripts relate *)

(** X23: [upload_prices] of [seller.py], unlike [main], does send prices.
    It lists the catalogue itself and joins the feed with that fresh list:
    if the listing returns, the price of every feed record whose code is in
    the list is text, and Ozon accepts every update, the coroutine returns
    one price entry per such record and has sent them all, in order, in
    batches whose concatenation is that payload. *)
Theorem upload_prices_sends_inner_join :
  forall (fuel : nat) (watch_remnants : list watch) (client_id seller_token : string)
         (w w1 : world) (offer_ids : loc),
    Seller.get_offer_ids fuel client_id seller_token w = (Ret offer_ids, w1) ->
    (forall watch, watch ∈ watch_remnants ->
                   py_str (Kod watch) ∈ contents offer_ids w1 ->
                   exists s, Tsena watch = PStr s) ->
    (forall i, ozon_import (outside w1) (length (log w1) + i) = Ret tt) ->
    exists prices batches,
      Ozon.price_offer_id <$> prices
      = filter (fun c => c ∈ contents offer_ids w1) (codes watch_remnants)
      /\ Seller.divide prices 1000 = Ret batches
      /\ concat batches = prices
      /\ Seller.upload_prices fuel watch_remnants client_id seller_token w
         = (Ret prices, after (price_requests client_id batches) w1).
Proof.
  intros fuel F cid tok w w1 l Hlist Htext Hok.
  set (v := fun watch => match Tsena watch with
                         | PStr s => re_sub_non_digits (before_dot s)
                         | _ => ""
                         end).
  assert (Hprices : Seller.create_prices F l w1
                    = (Ret ((fun watch => ozon_price watch (v watch))
                              <$> filter (fun watch => py_str (Kod watch) ∈ contents l w1) F),
                       w1)).
  { rewrite seller_create_prices_join, (join_all _ ozon_price v); [done|].
    intros watch Hw Hin. destruct (Htext watch Hw Hin) as [s Hs].
    unfold v. rewrite Hs. apply price_conversion_text. }
  set (prices := _ <$> filter _ F) in Hprices.
  destruct (divide_positive_returns prices 1000%Z ltac:(lia)) as (batches & Hdiv & Hcat).
  exists prices, batches. split; [by apply fmap_filter_codes|].
  split; [done|]. split; [done|].
  unfold Seller.upload_prices.
  unfold bind at 1. rewrite Hlist.
  unfold bind at 1. rewrite Hprices.
  unfold bind at 1, lift. rewrite Hdiv.
  unfold bind at 1.
  change (fun (_ : unit) (some_price : list Ozon.price_entry) =>
            Seller.update_price some_price cid tok)
    with (fun (_ : unit) (b : list Ozon.price_entry) =>
            exchange (OzonImportPrices cid b) (fun o k => ozon_import o k)).
  rewrite (for_each_exchange_all (OzonImportPrices cid)); [done|].
  intros i _. apply Hok.
Qed.

Lemma upload_prices_sends_inner_join_witness :
  exists prices batches,
    Ozon.price_offer_id <$> prices = ["A"; "B"]
    /\ Seller.divide prices 1000 = Ret batches
    /\ fst (Seller.upload_prices 1 Scenario.feed_ab "client" "key"
              (Scenario.start Scenario.ozon_abc))
       = Ret prices.
Proof.
  destruct (upload_prices_sends_inner_join 1 Scenario.feed_ab "client" "key"
              (Scenario.start Scenario.ozon_abc)
              (snd (Seller.get_offer_ids 1 "client" "key"
                      (Scenario.start Scenario.ozon_abc))) 0%nat)
    as (prices & batches & Hcodes & Hdiv & _ & Hrun).
  - vm_compute. reflexivity.
  - intros watch Hw _. unfold Scenario.feed_ab in Hw.
    rewrite !elem_of_cons, elem_of_nil in Hw.
    destruct Hw as [->|[->|[]]]; simpl; eauto.
  - reflexivity.
  - exists prices, batches. rewrite Hcodes, Hrun. done.
Defined.

Lemma before_dot_digits (s : string) : all_digits s = true -> before_dot s = s.
Proof.
  induction s as [|c s IH]; simpl; [done|].
  intros H. apply andb_true_iff in H as [Hc Hs].
  destruct (Ascii.eqb_spec c "."%char) as [->|_]; [by vm_compute in Hc|].
  by rewrite IH.
Qed.

Lemma re_sub_digits (s : string) : all_digits s = true -> re_sub_non_digits s = s.
Proof.
  induction s as [|c s IH]; simpl; [done|].
  intros H. apply andb_true_iff in H as [Hc Hs]. by rewrite Hc, IH.
Qed.

(** X24: [price_conversion] is idempotent: converting a price that has
    already been converted gives it back unchanged, so a price that went
    through the function twice is the same as one that went through it
    once. *)
Theorem price_conversion_idempotent :
  forall (s converted : string),
    Seller.price_conversion (PStr s) = Ret converted ->
    Seller.price_conversion (PStr converted) = Ret converted.
Proof.
  intros s converted. rewrite !price_conversion_text. intros [= <-].
  pose proof (re_sub_all_digits (before_dot s)) as Hd.
  by rewrite (before_dot_digits _ Hd), (re_sub_digits _ Hd).
Qed.

Lemma price_conversion_idempotent_witness :
  Seller.price_conversion (PStr "24'570.00 руб.") = Ret "24570"
  /\ Seller.price_conversion (PStr "24570") = Ret "24570".
Proof.
  split; [reflexivity|].
  apply (price_conversion_idempotent "24'570.00 руб." "24570"). reflexivity.
Defined.

(** X25: the two scripts agree on the stock.  On the same feed and the same
    list, [create_stocks] of [market.py] returns what [create_stocks] of
    [seller.py] returns, entry for entry -- the same codes in the same
    order with the same counts, wrapped with the warehouse and the time
    stamp -- or raises the same exception, and both leave the same
    identifiers in the list. *)
Theorem market_stocks_match_seller_stocks :
  forall (F : list watch) (O : list string) (offer_ids : loc) (w : world)
         (warehouse_id : string),
    heap w !! offer_ids = Some O ->
    fst (Market.create_stocks F offer_ids warehouse_id w)
    = outcome_map (fmap (to_sku warehouse_id
                           (stamp (clock (outside w) (length (log w))))))
                  (fst (Seller.create_stocks F offer_ids w))
    /\ contents offer_ids (snd (Market.create_stocks F offer_ids warehouse_id w))
       = contents offer_ids (snd (Seller.create_stocks F offer_ids w)).
Proof.
  intros F O l w wh Hl.
  pose proof (market_create_stocks_run F O l wh w Hl) as Hm.
  cbv zeta in Hm. rewrite Hm. clear Hm.
  rewrite (seller_create_stocks_run F O l w Hl). simpl.
  set (date := stamp _).
  change (fun c z => Market.sku_dict c wh z date)
    with (fun c z => to_sku wh date (ozon_entry c z)).
  pose proof (stocks_result_map (to_sku wh date) ozon_entry F O) as Hmap.
  unfold stocks_result in Hmap.
  pose proof (reconcile_map (to_sku wh date) ozon_entry F O []) as Hrec.
  rewrite fmap_nil in Hrec. split.
  - exact Hmap.
  - unfold contents, set_heap. simpl. rewrite !lookup_insert_eq. simpl.
    by rewrite Hrec.
Qed.

Lemma market_stocks_match_seller_stocks_witness :
  heap Scenario.shop !! 0%nat = Some Scenario.abc
  /\ fst (Market.create_stocks Scenario.feed_ab 0%nat "143645" Scenario.shop)
     = outcome_map (fmap (to_sku "143645"
                            (stamp (clock (outside Scenario.shop)
                                          (length (log Scenario.shop))))))
                   (fst (Seller.create_stocks Scenario.feed_ab 0%nat Scenario.shop)).
Proof.
  split; [reflexivity|].
  destruct (market_stocks_match_seller_stocks Scenario.feed_ab Scenario.abc 0%nat
              Scenario.shop "143645" eq_refl) as [Hout _].
  exact Hout.
Defined.

Lemma market_get_offer_ids_allocates (fuel : nat) (campaign_id market_token : string)
    (w w1 : world) (l : loc) :
  Market.get_offer_ids fuel campaign_id market_token w = (Ret l, w1) ->
  exists O, heap w1 !! l = Some O.
Proof.
  unfold Market.get_offer_ids. unfold bind at 1.
  destruct (Market.get_offer_ids_loop _ _ _ _ _ w) as [[products|e|] w0];
    [|done|done].
  unfold bind at 1. rewrite (for_each_append Yandex.shopSku). simpl.
  unfold new_list. intros [= <- <-]. simpl. rewrite lookup_insert_eq. eauto.
Qed.

(** Every entry of [create_stocks] of [market.py] has an item. *)
Lemma market_entries_have_item (F : list watch) (O : list string) (l : loc)
    (w w' : world) (wh : string) (out : list Yandex.sku_entry) :
  heap w !! l = Some O ->
  Market.create_stocks F l wh w = (Ret out, w') ->
  Forall (fun e => Yandex.sku_items e <> []) out.
Proof.
  intros Hl Hrun.
  pose proof (market_create_stocks_run F O l wh w Hl) as Hspec.
  cbv zeta in Hspec. rewrite Hspec in Hrun. clear Hspec.
  set (mk := fun c z => Market.sku_dict c wh z _) in *.
  destruct (reconcile mk F O []) as [[o|e|] O'] eqn:HR; simpl in Hrun;
    [|done|done].
  injection Hrun as <- _.
  destruct (reconcile_Ret _ _ _ _ _ _ HR) as (cl & -> & _).
  simpl. apply Forall_app. split; apply Forall_fmap, Forall_forall;
    intros ? _; simpl; done.
Qed.

(** The loop behind [filter(lambda stock: stock.get("items")[0]...)] on
    entries that all have an item. *)
Lemma not_empty_loop (stocks : list Yandex.sku_entry) :
  forall (kept : list Yandex.sku_entry) (w : world),
    Forall (fun e => Yandex.sku_items e <> []) stocks ->
    for_each stocks kept
      (fun kept entry =>
         do first <- lift (index (Yandex.sku_items entry) 0);
         ret (if (Yandex.count first =? 0)%Z then kept else kept ++ [entry])) w
    = (Ret (kept ++ List.filter in_stock stocks), w).
Proof.
  induction stocks as [|e stocks IH]; intros kept w Hall; simpl.
  - by rewrite app_nil_r.
  - apply Forall_cons in Hall as [He Hall].
    unfold bind at 1. unfold bind at 1, lift, index, in_stock.
    destruct (Yandex.sku_items e) as [|item items]; [done|]. simpl.
    rewrite IH by done.
    destruct (Yandex.count item =? 0)%Z; simpl; [done|].
    by rewrite <- app_assoc.
Qed.

(** X26: [upload_stocks] of [market.py].  If the catalogue has been listed
    and the stocks built, and Yandex Market accepts every update, the
    coroutine sends the stock entries in batches whose concatenation, in
    order, is the whole payload, and returns the entries whose item has a
    count other than zero together with all entries; the look-up of the
    first item of an entry never raises [IndexError]. *)
Theorem market_upload_stocks_sends_whole_payload :
  forall (fuel : nat) (watch_remnants : list watch)
         (campaign_id market_token warehouse_id : string)
         (w w1 w2 : world) (offer_ids : loc) (stocks : list Yandex.sku_entry),
    Market.get_offer_ids fuel campaign_id market_token w = (Ret offer_ids, w1) ->
    Market.create_stocks watch_remnants offer_ids warehouse_id w1 = (Ret stocks, w2) ->
    (forall i, market_update (outside w2) (length (log w2) + i) = Ret tt) ->
    exists batches,
      Seller.divide stocks 2000 = Ret batches
      /\ concat batches = stocks
      /\ Market.upload_stocks fuel watch_remnants campaign_id market_token
           warehouse_id w
         = (Ret (List.filter in_stock stocks, stocks),
            after (market_stock_requests campaign_id batches) w2).
Proof.
  intros fuel F cid tok wh w w1 w2 l stocks Hlist Hstocks Hok.
  destruct (divide_positive_returns stocks 2000%Z ltac:(lia)) as (batches & Hdiv & Hcat).
  exists batches. split; [done|]. split; [done|].
  destruct (market_get_offer_ids_allocates _ _ _ _ _ _ Hlist) as [O HO].
  pose proof (market_entries_have_item _ _ _ _ _ _ _ HO Hstocks) as Hitems.
  unfold Market.upload_stocks.
  unfold bind at 1. rewrite Hlist.
  unfold bind at 1. rewrite Hstocks.
  unfold bind at 1, lift at 1. rewrite Hdiv.
  unfold bind at 1.
  change (fun (_ : unit) (some_stock : list Yandex.sku_entry) =>
            Market.update_stocks some_stock cid tok)
    with (fun (_ : unit) (b : list Yandex.sku_entry) =>
            exchange (MarketStocks cid b) (fun o k => market_update o k)).
  rewrite (for_each_exchange_all (MarketStocks cid)) by (intros i _; apply Hok).
  unfold bind at 1. rewrite not_empty_loop by done. done.
Qed.

Lemma market_upload_stocks_sends_whole_payload_witness :
  exists batches stocks,
    Seller.divide stocks 2000 = Ret batches
    /\ concat batches = stocks
    /\ length stocks = 3
    /\ fst (Market.upload_stocks 2 [Scenario.text_record "168448" ">10" "5990.00"]
              "campaign" "token" "143645" (Scenario.start Scenes.market_two_pages))
       = Ret (List.filter in_stock stocks, stocks).
Proof.
  pose (w1 := snd (Market.get_offer_ids 2 "campaign" "token"
                     (Scenario.start Scenes.market_two_pages))).
  pose (run := Market.create_stocks [Scenario.text_record "168448" ">10" "5990.00"]
                 0%nat "143645" w1).
  pose (stocks := match fst run with Ret out => out | _ => [] end).
  destruct (market_upload_stocks_sends_whole_payload 2
              [Scenario.text_record "168448" ">10" "5990.00"]
              "campaign" "token" "143645"
              (Scenario.start Scenes.market_two_pages) w1 (snd run) 0%nat stocks)
    as (batches & Hdiv & Hcat & Hrun).
  - vm_compute. reflexivity.
  - vm_compute. reflexivity.
  - reflexivity.
  - exists batches, stocks. split; [done|]. split; [done|].
    split; [reflexivity|]. by rewrite Hrun.
Defined.
